(** * ravenmaster: the network bootstrap layer of [src/system.c]

    A shallow embedding of the POSIX build of [system.c] (the branches taken
    when [WIN32] is not defined and [IPV6_V6ONLY] is): the listen-address
    registry, the resolution of the (address, port) plan, the creation and
    binding of the UDP sockets, the three security phases and the address
    formatter.

    The process-wide variables of the file are the fields of one [world]
    record that every function threads through a small state monad.  The
    operating system and the C library are an [OS] record of oracles; every
    system call the code issues is appended to the [trace] of the world, so
    that ordering properties are statements about that list.  A computation
    that leaves the defined behaviour of C (an access outside a table, a
    failed [assert]) has no result. *)

From Stdlib Require Import ZArith String Ascii List Bool Lia.
From stdpp Require Import base tactics option list list_numbers strings.

Local Open Scope Z_scope.

(** ** Platform constants (Linux, glibc headers) *)

Definition AF_UNSPEC : Z := 0.
Definition AF_INET : Z := 2.
Definition AF_INET6 : Z := 10.
Definition SOCK_DGRAM : Z := 2.
Definition IPPROTO_UDP : Z := 17.
Definition IPPROTO_IPV6 : Z := 41.
Definition IPV6_V6ONLY : Z := 26.
Definition AI_PASSIVE : Z := 1.
Definition NI_MAXHOST : Z := 1025.
Definition NI_MAXSERV : Z := 32.
Definition NI_NUMERICHOST : Z := 1.
Definition NI_NUMERICSERV : Z := 2.
Definition EAFNOSUPPORT : Z := 97.
Definition O_RDWR : Z := 2.
Definition STDIN_FILENO : Z := 0.
Definition STDOUT_FILENO : Z := 1.
Definition STDERR_FILENO : Z := 2.

(** [sizeof (struct sockaddr_storage)] *)
Definition sizeof_sockaddr_storage : Z := 128.

(** [sizeof (addr_buff)] in [Sys_StringToSockaddr] *)
Definition sizeof_addr_buff : Z := 128.

(** Modelled from the spec: [system.h] is not among the sources; on POSIX
    targets a socket handle is an [int] and the invalid handle is [-1], the
    value [Sys_CloseAllSockets] itself tests for. *)
Definition INVALID_SOCKET : Z := -1.

(** Modelled from the spec: [system.h] is not among the sources; the
    unsupported-address-family error of the spec is the [errno] value
    [EAFNOSUPPORT]. *)
Definition NETERR_AFNOSUPPORT : Z := EAFNOSUPPORT.

Definition DEFAULT_JAIL_PATH : string := "/var/empty/".
Definition DEFAULT_LOW_PRIV_USER : string := "nobody".

(** Arithmetic on [unsigned int] *)
Definition u32 (x : Z) : Z := x mod 2 ^ 32.

(** ** Data model *)

(** A socket address: the family, the port and the numeric host bytes.  The
    [memcpy] of [Sys_BuildSockaddr] is the assignment of the whole value. *)
Record sockaddr_storage := {
  ss_family : Z;
  ss_port : Z;
  ss_host : list Z
}.

Definition sockaddr_zero : sockaddr_storage :=
  {| ss_family := 0; ss_port := 0; ss_host := [] |}.

(** Modelled from the spec: [listen_address_t] is declared in [system.h],
    which is not among the sources; it is the ListenAddressSpec of the spec,
    one declared name, the field [system.c] reads and writes.  The name is a
    [const char*], [None] when it is [NULL]. *)
Record listen_address_t := {
  la_local_addr_name : option string
}.

(** Modelled from the spec: [listen_socket_t] is declared in [system.h],
    which is not among the sources; it is the ResolvedListenSocket of the
    spec, with the fields [system.c] reads and writes under their names in
    the code. *)
Record listen_socket_t := {
  socket : Z;
  local_addr : sockaddr_storage;
  local_addr_len : Z;
  optional : bool;
  local_addr_name : option string;
  local_addr_name_no_port : option string
}.

(** The entry that [memset (.., 0, ..)] and static initialisation leave. *)
Definition listen_socket_zero : listen_socket_t :=
  {| socket := 0; local_addr := sockaddr_zero; local_addr_len := 0;
     optional := false; local_addr_name := None;
     local_addr_name_no_port := None |}.

(** Modelled from the spec: [daemon_state_t] is declared in [system.h],
    which is not among the sources; it is the DaemonState of the spec,
    disabled, requested or active, under the names of the code. *)
Inductive daemon_state_t :=
| DAEMON_STATE_NO
| DAEMON_STATE_REQUEST
| DAEMON_STATE_EFFECTIVE.

(** Modelled from the spec: the status of a command line option, declared
    outside [system.c]; the two values the code returns. *)
Inductive cmdline_status_t :=
| CMDLINE_STATUS_OK
| CMDLINE_STATUS_INVALID_OPT.

Record passwd := {
  pw_uid : Z;
  pw_gid : Z
}.

Record addrinfo_hints := {
  ai_family : Z;
  ai_socktype : Z;
  ai_flags : Z
}.

(** The first node of the list [getaddrinfo] returns. *)
Record addrinfo := {
  ai_addr : sockaddr_storage;
  ai_addrlen : Z
}.

(** ** Diagnostics and system calls *)

(** Modelled from the spec: the levels of the logging collaborator, the
    three that [system.c] uses. *)
Inductive msg_level := MSG_ERROR | MSG_WARNING | MSG_NORMAL.

(** One constructor per [Com_Printf] call site, with its arguments. *)
Inductive message :=
| Err_cant_resolve (addr_name : option string) (port_name : string) (err : Z)
| Err_no_closing_bracket (address : string)
| Err_invalid_bracket_end (address : string)
| Err_address_too_long (address : string)
| Err_too_many_addresses (max : Z)
| Warn_protocol_unsupported (protocol : string)
| Err_socket_creation_failed (err : Z)
| Err_setsockopt_failed (err : Z)
| Msg_listening_on_address (name_no_port : option string) (addr_str : string)
| Msg_listening_on_all (protocol : string) (addr_str : string)
| Err_socket_binding_failed (err : Z)
| Err_cant_open_null
| Warn_super_user
| Err_cant_get_user (user : string)
| Err_cant_chroot (path : string) (err : Z)
| Msg_chrooted (path : string)
| Err_cant_switch_user (user : string) (err : Z)
| Msg_switched_user (user : string) (uid gid : Z)
| Msg_blank_line
| Err_daemonization_failed (err : Z)
| Warn_cant_convert_address (err : Z).

(** What the process does to its environment, in the order it does it. *)
Inductive event :=
| Printed (lvl : msg_level) (msg : message)
| Call_socket (af type protocol ret : Z)
| Call_setsockopt (fd level optname optval ret : Z)
| Call_bind (fd : Z) (addr : sockaddr_storage) (len ret : Z)
| Call_close (fd : Z)
| Call_open (path : string) (flags ret : Z)
| Call_geteuid (ret : Z)
| Call_getpwnam (name : string) (ret : option passwd)
| Call_chroot (path : string) (ret : Z)
| Call_chdir (path : string) (ret : Z)
| Call_setgid (gid ret : Z)
| Call_setuid (uid ret : Z)
| Call_daemon (nochdir noclose ret : Z)
| Call_dup2 (oldfd newfd : Z).

(** The environment.  Name-service lookups and the process identity are
    functions of their arguments; the result of a system call may depend on
    everything that happened before it, and so may [errno]. *)
Record OS := {
  os_getaddrinfo : option string -> string -> addrinfo_hints -> Z * option addrinfo;
  os_getnameinfo : sockaddr_storage -> Z -> Z -> Z -> Z -> Z * string * string;
  os_geteuid : Z;
  os_getpwnam : string -> option passwd;
  os_errno : list event -> Z;
  os_socket : list event -> Z -> Z -> Z -> Z;
  os_setsockopt : list event -> Z -> Z -> Z -> Z -> Z;
  os_bind : list event -> Z -> sockaddr_storage -> Z -> Z;
  os_open : list event -> string -> Z -> Z;
  os_chroot : list event -> string -> Z;
  os_chdir : list event -> string -> Z;
  os_setgid : list event -> Z -> Z;
  os_setuid : list event -> Z -> Z;
  os_daemon : list event -> Z -> Z -> Z
}.

(** ** The process-wide variables *)

Record world := {
  jail_path : string;
  low_priv_user : string;
  null_device : Z;
  nb_addresses : Z;
  listen_addresses : list listen_address_t;
  nb_sockets : Z;
  listen_sockets : list listen_socket_t;
  daemon_state : daemon_state_t;
  trace : list event
}.

Definition set_jail_path (v : string) (w : world) : world :=
  {| jail_path := v; low_priv_user := low_priv_user w;
     null_device := null_device w; nb_addresses := nb_addresses w;
     listen_addresses := listen_addresses w; nb_sockets := nb_sockets w;
     listen_sockets := listen_sockets w; daemon_state := daemon_state w;
     trace := trace w |}.

Definition set_low_priv_user (v : string) (w : world) : world :=
  {| jail_path := jail_path w; low_priv_user := v;
     null_device := null_device w; nb_addresses := nb_addresses w;
     listen_addresses := listen_addresses w; nb_sockets := nb_sockets w;
     listen_sockets := listen_sockets w; daemon_state := daemon_state w;
     trace := trace w |}.

Definition set_null_device (v : Z) (w : world) : world :=
  {| jail_path := jail_path w; low_priv_user := low_priv_user w;
     null_device := v; nb_addresses := nb_addresses w;
     listen_addresses := listen_addresses w; nb_sockets := nb_sockets w;
     listen_sockets := listen_sockets w; daemon_state := daemon_state w;
     trace := trace w |}.

Definition set_nb_addresses (v : Z) (w : world) : world :=
  {| jail_path := jail_path w; low_priv_user := low_priv_user w;
     null_device := null_device w; nb_addresses := v;
     listen_addresses := listen_addresses w; nb_sockets := nb_sockets w;
     listen_sockets := listen_sockets w; daemon_state := daemon_state w;
     trace := trace w |}.

Definition set_listen_addresses (v : list listen_address_t) (w : world) : world :=
  {| jail_path := jail_path w; low_priv_user := low_priv_user w;
     null_device := null_device w; nb_addresses := nb_addresses w;
     listen_addresses := v; nb_sockets := nb_sockets w;
     listen_sockets := listen_sockets w; daemon_state := daemon_state w;
     trace := trace w |}.

Definition set_nb_sockets (v : Z) (w : world) : world :=
  {| jail_path := jail_path w; low_priv_user := low_priv_user w;
     null_device := null_device w; nb_addresses := nb_addresses w;
     listen_addresses := listen_addresses w; nb_sockets := v;
     listen_sockets := listen_sockets w; daemon_state := daemon_state w;
     trace := trace w |}.

Definition set_listen_sockets (v : list listen_socket_t) (w : world) : world :=
  {| jail_path := jail_path w; low_priv_user := low_priv_user w;
     null_device := null_device w; nb_addresses := nb_addresses w;
     listen_addresses := listen_addresses w; nb_sockets := nb_sockets w;
     listen_sockets := v; daemon_state := daemon_state w;
     trace := trace w |}.

Definition set_daemon_state (v : daemon_state_t) (w : world) : world :=
  {| jail_path := jail_path w; low_priv_user := low_priv_user w;
     null_device := null_device w; nb_addresses := nb_addresses w;
     listen_addresses := listen_addresses w; nb_sockets := nb_sockets w;
     listen_sockets := listen_sockets w; daemon_state := v;
     trace := trace w |}.

Definition set_trace (v : list event) (w : world) : world :=
  {| jail_path := jail_path w; low_priv_user := low_priv_user w;
     null_device := null_device w; nb_addresses := nb_addresses w;
     listen_addresses := listen_addresses w; nb_sockets := nb_sockets w;
     listen_sockets := listen_sockets w; daemon_state := daemon_state w;
     trace := v |}.

(** The variables as the C initialisers leave them, for tables of
    [max_addresses] and [max_sockets] entries ([MAX_LISTEN_ADDRESSES] and
    [MAX_LISTEN_SOCKETS] of [system.h]). *)
Definition startup (max_addresses max_sockets : nat) : world :=
  {| jail_path := DEFAULT_JAIL_PATH;
     low_priv_user := DEFAULT_LOW_PRIV_USER;
     null_device := -1;
     nb_addresses := 0;
     listen_addresses := replicate max_addresses {| la_local_addr_name := None |};
     nb_sockets := 0;
     listen_sockets := replicate max_sockets listen_socket_zero;
     daemon_state := DAEMON_STATE_NO;
     trace := [] |}.

(** ** The monad: state, with no result outside defined behaviour *)

Definition M (A : Type) : Type := world -> option (A * world).

Definition ret {A} (a : A) : M A := fun w => Some (a, w).

Definition bind {A B} (m : M A) (k : A -> M B) : M B :=
  fun w => match m w with
           | Some (a, w') => k a w'
           | None => None
           end.

Definition undefined {A} : M A := fun _ => None.

Definition gets {A} (f : world -> A) : M A := fun w => Some (f w, w).

Definition modify (f : world -> world) : M unit := fun w => Some (tt, f w).

Declare Scope sys_scope.
Delimit Scope sys_scope with sys.
Notation "x <- m ;; k" := (bind m (fun x => k))
  (at level 100, m at next level, right associativity) : sys_scope.
Notation "m ;;; k" := (bind m (fun _ => k))
  (at level 100, right associativity) : sys_scope.
Local Open Scope sys_scope.

(** [assert (b)] *)
Definition assert (b : bool) : M unit := if b then ret tt else undefined.

Definition emit (e : event) : M unit :=
  modify (fun w => set_trace (trace w ++ [e]) w).

(** A pointer the callee writes through. *)
Definition ptr (A : Type) : Type := A -> M unit.

Definition store {A} (p : ptr A) (v : A) : M unit := p v.

(** A C loop over the elements of a list whose body may [return]: the body
    yields [Some r] when it executes [return r]. *)
Fixpoint for_each {A} (l : list A) (body : A -> M (option bool)) : M (option bool) :=
  match l with
  | [] => ret None
  | x :: l' =>
      r <- body x ;;
      match r with
      | Some b => ret (Some b)
      | None => for_each l' body
      end
  end.

(** ** C strings

    A [const char*] is the text before the terminator; a pointer into it is
    an offset. *)

Definition NUL : ascii := Ascii.zero.

(** [s[i]]; the terminator at the end of the text. *)
Definition char_at (s : string) (i : nat) : ascii :=
  match String.get i s with
  | Some c => c
  | None => NUL
  end.

(** [strchr (s, c)]: the offset of the first [c] in [s], if any. *)
Fixpoint strchr (s : string) (c : ascii) : option nat :=
  match s with
  | EmptyString => None
  | String a s' =>
      if Ascii.eqb a c then Some O else option_map S (strchr s' c)
  end.

(** [strrchr (s, c)]: the offset of the last [c] in [s], if any. *)
Fixpoint strrchr (s : string) (c : ascii) : option nat :=
  match s with
  | EmptyString => None
  | String a s' =>
      match strrchr s' c with
      | Some i => Some (S i)
      | None => if Ascii.eqb a c then Some O else None
      end
  end.

(** [s + n] *)
Fixpoint str_offset (s : string) (n : nat) {struct n} : string :=
  match n, s with
  | O, _ => s
  | S n', String _ s' => str_offset s' n'
  | S _, EmptyString => EmptyString
  end.

Definition strlen (s : string) : nat := String.length s.

(** [snprintf (buf, size, ..)] keeps at most [size - 1] characters. *)
Definition snprintf (size : Z) (text : string) : string :=
  substring 0 (Z.to_nat (size - 1)) text.

(** ** Accessors of the socket table *)

Definition set_socket (v : Z) (e : listen_socket_t) : listen_socket_t :=
  {| socket := v; local_addr := local_addr e;
     local_addr_len := local_addr_len e; optional := optional e;
     local_addr_name := local_addr_name e;
     local_addr_name_no_port := local_addr_name_no_port e |}.

Definition set_local_addr (v : sockaddr_storage) (e : listen_socket_t) : listen_socket_t :=
  {| socket := socket e; local_addr := v;
     local_addr_len := local_addr_len e; optional := optional e;
     local_addr_name := local_addr_name e;
     local_addr_name_no_port := local_addr_name_no_port e |}.

Definition set_local_addr_len (v : Z) (e : listen_socket_t) : listen_socket_t :=
  {| socket := socket e; local_addr := local_addr e;
     local_addr_len := v; optional := optional e;
     local_addr_name := local_addr_name e;
     local_addr_name_no_port := local_addr_name_no_port e |}.

Definition set_optional (v : bool) (e : listen_socket_t) : listen_socket_t :=
  {| socket := socket e; local_addr := local_addr e;
     local_addr_len := local_addr_len e; optional := v;
     local_addr_name := local_addr_name e;
     local_addr_name_no_port := local_addr_name_no_port e |}.

Definition set_local_addr_name (v : option string) (e : listen_socket_t) : listen_socket_t :=
  {| socket := socket e; local_addr := local_addr e;
     local_addr_len := local_addr_len e; optional := optional e;
     local_addr_name := v;
     local_addr_name_no_port := local_addr_name_no_port e |}.

Definition set_local_addr_name_no_port (v : option string) (e : listen_socket_t) : listen_socket_t :=
  {| socket := socket e; local_addr := local_addr e;
     local_addr_len := local_addr_len e; optional := optional e;
     local_addr_name := local_addr_name e;
     local_addr_name_no_port := v |}.

(** [listen_sockets[i]], read. *)
Definition read_socket (i : Z) : M listen_socket_t :=
  fun w => match listen_sockets w !! Z.to_nat i with
           | Some e => Some (e, w)
           | None => None
           end.

(** A write to one field of [listen_sockets[i]]. *)
Definition update_socket (i : Z) (f : listen_socket_t -> listen_socket_t) : M unit :=
  fun w => match listen_sockets w !! Z.to_nat i with
           | Some e =>
               Some (tt, set_listen_sockets (<[Z.to_nat i := f e]> (listen_sockets w)) w)
           | None => None
           end.

(** [memset (listen_sockets, 0, count * sizeof (listen_sockets[0]))] *)
Definition memset_sockets (count : Z) : M unit :=
  fun w =>
    let tbl := listen_sockets w in
    if count <=? Z.of_nat (length tbl) then
      Some (tt, set_listen_sockets
                  (replicate (Z.to_nat count) listen_socket_zero
                     ++ drop (Z.to_nat count) tbl) w)
    else None.

(** [memmove (&listen_sockets[dst], &listen_sockets[src],
             count * sizeof (listen_sockets[0]))] *)
Definition memmove_sockets (dst src count : Z) : M unit :=
  fun w =>
    let tbl := listen_sockets w in
    if (src + count <=? Z.of_nat (length tbl))
       && (dst + count <=? Z.of_nat (length tbl)) then
      Some (tt, set_listen_sockets
                  (take (Z.to_nat dst) tbl
                     ++ take (Z.to_nat count) (drop (Z.to_nat src) tbl)
                     ++ drop (Z.to_nat (dst + count)) tbl) w)
    else None.

(** The entries [listen_sockets[0 .. nb_sockets)], the range of the loop of
    [Sys_CloseAllSockets], which changes neither the table nor the count
    while it runs. *)
Definition current_sockets : M (list listen_socket_t) :=
  fun w =>
    if nb_sockets w <=? Z.of_nat (length (listen_sockets w)) then
      Some (take (Z.to_nat (nb_sockets w)) (listen_sockets w), w)
    else None.

(** The entries [listen_addresses[0 .. nb_addresses)], the range of the
    outer loop of [Sys_ResolveListenAddresses], which does not change the
    registry. *)
Definition declared_addresses : M (list listen_address_t) :=
  fun w =>
    if nb_addresses w <=? Z.of_nat (length (listen_addresses w)) then
      Some (take (Z.to_nat (nb_addresses w)) (listen_addresses w), w)
    else None.

Definition slot_local_addr (i : Z) : ptr sockaddr_storage :=
  fun v => update_socket i (set_local_addr v).

Definition slot_local_addr_len (i : Z) : ptr Z :=
  fun v => update_socket i (set_local_addr_len v).

Definition slot_local_addr_name_no_port (i : Z) : ptr (option string) :=
  fun v => update_socket i (set_local_addr_name_no_port v).

(** ** The functions of [system.c] *)

Section System.

Variable os : OS.

Definition Com_Printf (lvl : msg_level) (msg : message) : M unit :=
  emit (Printed lvl msg).

(** A system call: the environment answers from the history, and the call
    joins the history with its answer. *)
Definition syscall {A} (answer : list event -> A) (ev : A -> event) : M A :=
  fun w =>
    let r := answer (trace w) in
    Some (r, set_trace (trace w ++ [ev r]) w).

Definition sys_socket (af type protocol : Z) : M Z :=
  syscall (fun h => os_socket os h af type protocol) (Call_socket af type protocol).

Definition sys_setsockopt (fd level optname optval : Z) : M Z :=
  syscall (fun h => os_setsockopt os h fd level optname optval)
          (Call_setsockopt fd level optname optval).

Definition sys_bind (fd : Z) (addr : sockaddr_storage) (len : Z) : M Z :=
  syscall (fun h => os_bind os h fd addr len) (Call_bind fd addr len).

Definition sys_close (fd : Z) : M unit := emit (Call_close fd).

Definition sys_open (path : string) (flags : Z) : M Z :=
  syscall (fun h => os_open os h path flags) (Call_open path flags).

Definition sys_geteuid : M Z :=
  syscall (fun _ => os_geteuid os) Call_geteuid.

Definition sys_getpwnam (name : string) : M (option passwd) :=
  syscall (fun _ => os_getpwnam os name) (Call_getpwnam name).

Definition sys_chroot (path : string) : M Z :=
  syscall (fun h => os_chroot os h path) (Call_chroot path).

Definition sys_chdir (path : string) : M Z :=
  syscall (fun h => os_chdir os h path) (Call_chdir path).

Definition sys_setgid (gid : Z) : M Z :=
  syscall (fun h => os_setgid os h gid) (Call_setgid gid).

Definition sys_setuid (uid : Z) : M Z :=
  syscall (fun h => os_setuid os h uid) (Call_setuid uid).

Definition sys_daemon (nochdir noclose : Z) : M Z :=
  syscall (fun h => os_daemon os h nochdir noclose) (Call_daemon nochdir noclose).

Definition sys_dup2 (oldfd newfd : Z) : M unit := emit (Call_dup2 oldfd newfd).

(** [a || b] on two calls that return 0 on success: [b] is not evaluated
    when [a] fails. *)
Definition c_or (a b : M Z) : M bool :=
  r <- a ;;
  if negb (r =? 0) then ret true
  else r' <- b ;; ret (negb (r' =? 0)).

(** *** Private functions *)

(** The value of [errno] *)
Definition errno : M Z := gets (fun w => os_errno os (trace w)).

Definition Sys_GetLastNetError : M Z := errno.

Definition Sys_CloseSocket (sock : Z) : M unit := sys_close sock.

Definition Sys_CloseAllSockets : M unit :=
  socks <- current_sockets ;;
  for_each socks (fun sock =>
    (if negb (socket sock =? -1) then Sys_CloseSocket (socket sock)
     else ret tt) ;;;
    ret None) ;;;
  modify (set_nb_sockets 0).

Definition Sys_BuildSockaddr (addr_name : option string) (port_name : string)
    (addr_family_hint : Z)
    (sock_address : ptr sockaddr_storage) (sock_address_len : ptr Z) : M bool :=
  let hints := {| ai_family := addr_family_hint;
                  ai_socktype := SOCK_DGRAM;
                  ai_flags := AI_PASSIVE |} in
  let '(err, addrinf) := os_getaddrinfo os addr_name port_name hints in
  match addrinf with
  | Some ai =>
      if negb (err =? 0) then
        Com_Printf MSG_ERROR (Err_cant_resolve addr_name port_name err) ;;;
        ret false
      else
        assert (ai_addrlen ai <=? sizeof_sockaddr_storage) ;;;
        store sock_address_len (ai_addrlen ai) ;;;
        store sock_address (ai_addr ai) ;;;
        ret true
  | None =>
      Com_Printf MSG_ERROR (Err_cant_resolve addr_name port_name err) ;;;
      ret false
  end.

(** [Sys_StringToSockaddr], up to the copy into [addr_buff]: the text that
    is resolved and the address family hint, or the error that is reported.
    [addr_start] and [addr_end] are offsets into [address]. *)
Definition split_address (address : string) : message + (string * Z) :=
  let scanned : message + (nat * option nat * Z) :=
    if Ascii.eqb (char_at address 0) "["%char then
      match strchr address "]"%char with
      | None => inl (Err_no_closing_bracket address)
      | Some end_bracket =>
          if negb (Ascii.eqb (char_at address (end_bracket + 1)) ":"%char)
             && negb (Ascii.eqb (char_at address (end_bracket + 1)) NUL)
          then inl (Err_invalid_bracket_end address)
          else inr (1%nat, Some end_bracket, AF_INET6)
      end
    else
      match strchr address ":"%char with
      | Some first_colon =>
          match strrchr (str_offset address (first_colon + 1)) ":"%char with
          | None => inr (0%nat, Some first_colon, AF_UNSPEC)
          | Some _ => inr (0%nat, None, AF_INET6)
          end
      | None => inr (0%nat, None, AF_UNSPEC)
      end in
  match scanned with
  | inl msg => inl msg
  | inr (addr_start, addr_end, addr_family) =>
      let addr_length :=
        match addr_end with
        | Some e => (e - addr_start)%nat
        | None => strlen (str_offset address addr_start)
        end in
      if sizeof_addr_buff <=? Z.of_nat addr_length then
        inl (Err_address_too_long address)
      else inr (substring addr_start addr_length address, addr_family)
  end.

Definition Sys_StringToSockaddr (address port_name : string)
    (sock_address : ptr sockaddr_storage) (sock_address_len : ptr Z)
    (address_no_port : option (ptr (option string))) : M bool :=
  match split_address address with
  | inl msg => Com_Printf MSG_ERROR msg ;;; ret false
  | inr (addr_buff, addr_family) =>
      match address_no_port with
      | Some p => store p (Some addr_buff)
      | None => ret tt
      end ;;;
      Sys_BuildSockaddr (Some addr_buff) port_name addr_family
                        sock_address sock_address_len
  end.

(** *** Address formatting *)

(** [sizeof (result)], the static buffer of [Sys_SockaddrToString] *)
Definition sizeof_result : Z := NI_MAXHOST + NI_MAXSERV.

Definition Sys_SockaddrToString (address : sockaddr_storage) (socklen : Z) : M string :=
  let bracket := if ss_family address =? AF_INET6 then "[" else "" in
  let res_len := Z.of_nat (strlen bracket) in
  let '(err, host, port_str) :=
    os_getnameinfo os address socklen (sizeof_result - res_len) NI_MAXSERV
                   (Z.lor NI_NUMERICHOST NI_NUMERICSERV) in
  if err =? 0 then
    let suffix := if ss_family address =? AF_INET6 then "]" else "" in
    let result := bracket +:+ host in
    let res_len := Z.of_nat (strlen result) in
    let result :=
      result +:+ snprintf (sizeof_result - res_len) (suffix +:+ ":" +:+ port_str) in
    ret (substring 0 (Z.to_nat (sizeof_result - 1)) result)
  else
    Com_Printf MSG_WARNING (Warn_cant_convert_address err) ;;;
    ret (substring 0 (Z.to_nat (sizeof_result - 1)) "NON-PRINTABLE ADDRESS").

Definition Sys_GetSockaddrPort (address : sockaddr_storage) : M Z :=
  if ss_family address =? AF_INET6 then ret (ss_port address)
  else assert (ss_family address =? AF_INET) ;;; ret (ss_port address).

(** *** Public functions (listening sockets) *)

(** Step 1 - add a listen address to the listening address list.
    [MAX_LISTEN_ADDRESSES] is the size of the table. *)
Definition Sys_DeclareListenAddress (local_addr_name : string) : M bool :=
  nb <- gets nb_addresses ;;
  tbl <- gets listen_addresses ;;
  if nb <? Z.of_nat (length tbl) then
    modify (set_listen_addresses
              (<[Z.to_nat nb := {| la_local_addr_name := Some local_addr_name |}]> tbl)) ;;;
    modify (set_nb_addresses (u32 (nb + 1))) ;;;
    ret true
  else
    Com_Printf MSG_ERROR (Err_too_many_addresses (Z.of_nat (length tbl))) ;;;
    ret false.

(** The body of the inner loop of [Sys_ResolveListenAddresses] when no
    address was declared: the wildcard address of [addr_family] for [port]
    fills the slot [listen_sockets[nb_sockets]]. *)
Definition resolve_wildcard (addr_family : Z) (port : string) : M (option bool) :=
  listen_sock <- gets nb_sockets ;;
  ok <- Sys_BuildSockaddr None port addr_family
          (slot_local_addr listen_sock) (slot_local_addr_len listen_sock) ;;
  if negb ok then ret (Some false)
  else
    update_socket listen_sock (set_optional true) ;;;
    modify (set_nb_sockets (u32 (listen_sock + 1))) ;;;
    ret None.

(** The body of the inner loop of [Sys_ResolveListenAddresses] for the
    declared address [listen_address] and [port]. *)
Definition resolve_declared (listen_address : listen_address_t) (port : string)
    : M (option bool) :=
  listen_sock <- gets nb_sockets ;;
  match la_local_addr_name listen_address with
  | None => undefined
  | Some name =>
      ok <- Sys_StringToSockaddr name port
              (slot_local_addr listen_sock) (slot_local_addr_len listen_sock)
              (Some (slot_local_addr_name_no_port listen_sock)) ;;
      if negb ok then ret (Some false)
      else
        update_socket listen_sock (set_local_addr_name (Some name)) ;;;
        modify (set_nb_sockets (u32 (listen_sock + 1))) ;;;
        ret None
  end.

(** Step 2 - resolve the address names of all the listening sockets.
    [listen_ports] is the linked list of port strings. *)
Definition Sys_ResolveListenAddresses (listen_ports : list string) : M bool :=
  let nb_listen_ports := u32 (Z.of_nat (length listen_ports)) in
  nb_addr <- gets nb_addresses ;;
  r <- (if nb_addr =? 0 then
          let addr_families := [AF_INET; AF_INET6] in
          let nb_addr_families := Z.of_nat (length addr_families) in
          memset_sockets (nb_addr_families * nb_listen_ports) ;;;
          for_each addr_families (fun addr_family =>
            for_each listen_ports (fun port =>
              resolve_wildcard addr_family port))
        else
          addrs <- declared_addresses ;;
          for_each addrs (fun listen_address =>
            for_each listen_ports (fun port =>
              resolve_declared listen_address port))) ;;
  match r with
  | Some b => ret b
  | None => ret true
  end.

Definition protocol_name (addr_family : Z) : string :=
  if addr_family =? AF_INET then "IPv4"
  else if addr_family =? AF_INET6 then "IPv6" else "UNKNOWN".

(** The loop of [Sys_CreateListenSockets], from the test of its condition
    with the given [sock_ind].  Every iteration brings [sock_ind] one step
    closer to [nb_sockets]; [fuel] bounds the number of tests. *)
Fixpoint create_sockets_loop (fuel : nat) (sock_ind : Z) : M bool :=
  match fuel with
  | O => undefined
  | S fuel' =>
      nb <- gets nb_sockets ;;
      if negb (sock_ind <? nb) then ret true
      else
        listen_sock <- read_socket sock_ind ;;
        let addr_family := ss_family (local_addr listen_sock) in
        crt_sock <- sys_socket addr_family SOCK_DGRAM IPPROTO_UDP ;;
        if crt_sock =? INVALID_SOCKET then
          err <- Sys_GetLastNetError ;;
          if (err =? NETERR_AFNOSUPPORT) && optional listen_sock then
            Com_Printf MSG_WARNING
              (Warn_protocol_unsupported (protocol_name addr_family)) ;;;
            (if u32 (sock_ind + 1) <? nb then
               memmove_sockets sock_ind (sock_ind + 1) (u32 (nb - sock_ind - 2))
             else ret tt) ;;;
            modify (set_nb_sockets (u32 (nb - 1))) ;;;
            create_sockets_loop fuel' (u32 (u32 (sock_ind - 1) + 1))
          else
            Com_Printf MSG_ERROR (Err_socket_creation_failed err) ;;;
            Sys_CloseAllSockets ;;;
            ret false
        else
          opt <- (if addr_family =? AF_INET6 then
                    sys_setsockopt crt_sock IPPROTO_IPV6 IPV6_V6ONLY 1
                  else ret 0) ;;
          if negb (opt =? 0) then
            err <- Sys_GetLastNetError ;;
            Com_Printf MSG_ERROR (Err_setsockopt_failed err) ;;;
            Sys_CloseAllSockets ;;;
            ret false
          else
            addr_str <- Sys_SockaddrToString (local_addr listen_sock)
                                             (local_addr_len listen_sock) ;;
            match local_addr_name listen_sock with
            | Some _ =>
                Com_Printf MSG_NORMAL
                  (Msg_listening_on_address
                     (local_addr_name_no_port listen_sock) addr_str)
            | None =>
                Com_Printf MSG_NORMAL
                  (Msg_listening_on_all
                     (if addr_family =? AF_INET6 then "IPv6" else "IPv4")
                     addr_str)
            end ;;;
            bound <- sys_bind crt_sock (local_addr listen_sock)
                              (local_addr_len listen_sock) ;;
            if negb (bound =? 0) then
              err <- Sys_GetLastNetError ;;
              Com_Printf MSG_ERROR (Err_socket_binding_failed err) ;;;
              Sys_CloseAllSockets ;;;
              ret false
            else
              update_socket sock_ind (set_socket crt_sock) ;;;
              create_sockets_loop fuel' (u32 (sock_ind + 1))
  end.

(** Step 3 - create the listening sockets. *)
Definition Sys_CreateListenSockets : M bool :=
  nb <- gets nb_sockets ;;
  create_sockets_loop (S (Z.to_nat nb)) 0.

(** *** Public functions (the rest) *)

(** [opt_name] is [opt->long_name]. *)
Definition Sys_Cmdline_Option (opt_name : string) (params : list string)
    : M cmdline_status_t :=
  (if String.eqb opt_name "daemon" then
     modify (set_daemon_state DAEMON_STATE_REQUEST)
   else if String.eqb opt_name "jail-path" then
     match params !! 0%nat with
     | Some p => modify (set_jail_path p)
     | None => undefined
     end
   else if String.eqb opt_name "user" then
     match params !! 0%nat with
     | Some p => modify (set_low_priv_user p)
     | None => undefined
     end
   else ret tt) ;;;
  ret CMDLINE_STATUS_OK.

(** System dependent initializations (called BEFORE security
    initializations): nothing outside [WIN32]. *)
Definition Sys_UnsecureInit : M bool := ret true.

(** System dependent security initializations. *)
Definition Sys_SecurityInit : M bool :=
  ds <- gets daemon_state ;;
  opened <- match ds with
            | DAEMON_STATE_REQUEST =>
                fd <- sys_open "/dev/null" O_RDWR ;;
                modify (set_null_device fd) ;;;
                if fd =? -1 then
                  Com_Printf MSG_ERROR Err_cant_open_null ;;; ret false
                else ret true
            | _ => ret true
            end ;;
  if negb opened then ret false
  else
    euid <- sys_geteuid ;;
    if euid =? 0 then
      Com_Printf MSG_WARNING Warn_super_user ;;;
      user <- gets low_priv_user ;;
      pw <- sys_getpwnam user ;;
      match pw with
      | None => Com_Printf MSG_ERROR (Err_cant_get_user user) ;;; ret false
      | Some pw =>
          jail <- gets jail_path ;;
          failed <- c_or (sys_chroot jail) (sys_chdir "/") ;;
          if failed then
            err <- errno ;;
            Com_Printf MSG_ERROR (Err_cant_chroot jail err) ;;; ret false
          else
            Com_Printf MSG_NORMAL (Msg_chrooted jail) ;;;
            failed <- c_or (sys_setgid (pw_gid pw)) (sys_setuid (pw_uid pw)) ;;
            if failed then
              err <- errno ;;
              Com_Printf MSG_ERROR (Err_cant_switch_user user err) ;;; ret false
            else
              Com_Printf MSG_NORMAL
                (Msg_switched_user user (pw_uid pw) (pw_gid pw)) ;;;
              Com_Printf MSG_NORMAL Msg_blank_line ;;;
              ret true
      end
    else ret true.

(** System dependent initializations (called AFTER security
    initializations). *)
Definition Sys_SecureInit : M bool :=
  ds <- gets daemon_state ;;
  match ds with
  | DAEMON_STATE_REQUEST =>
      r <- sys_daemon 0 1 ;;
      if negb (r =? 0) then
        err <- errno ;;
        Com_Printf MSG_ERROR (Err_daemonization_failed err) ;;;
        modify (set_daemon_state DAEMON_STATE_NO) ;;;
        ret false
      else
        nd <- gets null_device ;;
        assert (negb (nd =? -1)) ;;;
        sys_dup2 nd STDIN_FILENO ;;;
        sys_dup2 nd STDOUT_FILENO ;;;
        sys_dup2 nd STDERR_FILENO ;;;
        sys_close nd ;;;
        modify (set_null_device (-1)) ;;;
        modify (set_daemon_state DAEMON_STATE_EFFECTIVE) ;;;
        ret true
  | _ => ret true
  end.

End System.

(** * Observations and specifications *)

(** The sockets a history leaves open: those [socket] returned and no
    [close] released since. *)
Definition track_socket (opened : list Z) (e : event) : list Z :=
  match e with
  | Call_socket _ _ _ fd =>
      if fd =? INVALID_SOCKET then opened else opened ++ [fd]
  | Call_close fd => List.filter (fun x => negb (x =? fd)) opened
  | _ => opened
  end.

Definition open_sockets (h : list event) : list Z :=
  fold_left track_socket h [].

(** What a caller sees of a run: the value returned, the entries in use
    [listen_sockets[0 .. nb_sockets)] and the history. *)
Definition observe {A} (m : M A) (w : world)
    : option (A * list listen_socket_t * list event) :=
  match m w with
  | Some (a, w') =>
      Some (a, take (Z.to_nat (nb_sockets w')) (listen_sockets w'), trace w')
  | None => None
  end.

(** The value returned and the first slot of the socket table. *)
Definition first_slot {A} (m : M A) (w : world)
    : option (A * option listen_socket_t) :=
  match m w with
  | Some (a, w') => Some (a, head (listen_sockets w'))
  | None => None
  end.

(** A computation that only adds to the history. *)
Definition only_events {A} (m : M A) : Prop :=
  forall w, exists a evs, m w = Some (a, set_trace (trace w ++ evs) w).

(** ** Resolution plans *)

(** The address a lookup yields, when it succeeds. *)
Definition lookup_address (os : OS) (addr_name : option string) (port_name : string)
    (addr_family_hint : Z) : option addrinfo :=
  let hints := {| ai_family := addr_family_hint;
                  ai_socktype := SOCK_DGRAM;
                  ai_flags := AI_PASSIVE |} in
  match os_getaddrinfo os addr_name port_name hints with
  | (err, Some ai) => if err =? 0 then Some ai else None
  | (_, None) => None
  end.

(** The plan when no address was declared: families outer, ports inner. *)
Definition wildcard_plan (ports : list string) : list (Z * string) :=
  flat_map (fun addr_family => map (fun port => (addr_family, port)) ports)
           [AF_INET; AF_INET6].

(** The plan for declared addresses: addresses outer, ports inner. *)
Definition declared_plan (names ports : list string) : list (string * string) :=
  flat_map (fun name => map (fun port => (name, port)) ports) names.

Definition wildcard_entry (os : OS) (p : Z * string) : option listen_socket_t :=
  match lookup_address os None p.2 p.1 with
  | Some ai =>
      Some {| socket := 0; local_addr := ai_addr ai;
              local_addr_len := ai_addrlen ai; optional := true;
              local_addr_name := None; local_addr_name_no_port := None |}
  | None => None
  end.

Definition declared_entry (os : OS) (p : string * string) : option listen_socket_t :=
  match split_address p.1 with
  | inr (host, addr_family) =>
      match lookup_address os (Some host) p.2 addr_family with
      | Some ai =>
          Some {| socket := 0; local_addr := ai_addr ai;
                  local_addr_len := ai_addrlen ai; optional := false;
                  local_addr_name := Some p.1;
                  local_addr_name_no_port := Some host |}
      | None => None
      end
  | inl _ => None
  end.

Fixpoint resolved_prefix {A} (f : A -> option listen_socket_t) (plan : list A)
    : list listen_socket_t :=
  match plan with
  | [] => []
  | x :: plan' =>
      match f x with
      | Some e => e :: resolved_prefix f plan'
      | None => []
      end
  end.

(** The declared names, when the registry is within its table and every
    declared entry has one. *)
Definition registry (w : world) : option (list string) :=
  if nb_addresses w <=? Z.of_nat (length (listen_addresses w)) then
    mapM la_local_addr_name (take (Z.to_nat (nb_addresses w)) (listen_addresses w))
  else None.

(** The socket table as the C initialisers leave it: no entry in use, every
    slot zero; its size fits the [unsigned int] that counts its entries. *)
Definition sockets_unused (w : world) : Prop :=
  nb_sockets w = 0
  /\ Z.of_nat (length (listen_sockets w)) < 2 ^ 32
  /\ Forall (fun e => e = listen_socket_zero) (listen_sockets w).


(** The error a failed wildcard lookup reports. *)
Definition wildcard_error (p : Z * string) (msg : message) : Prop :=
  exists err, msg = Err_cant_resolve None p.2 err.

(** The error a declared address that does not resolve reports: a syntax
    error of the name, or the failed lookup of its host. *)
Definition declared_error (p : string * string) (msg : message) : Prop :=
  split_address p.1 = inl msg
  \/ exists host addr_family err,
       split_address p.1 = inr (host, addr_family)
       /\ msg = Err_cant_resolve (Some host) p.2 err.

(** What one iteration of a resolution loop does with the plan entry [x]
    when the slot it fills, if the table has it, is still unused: either it
    reports an error and returns failure, leaving the entries in use as they
    are, or it fills the slot with the entry [f x] and counts it. *)
Definition resolves_one {A : Type} (f : A -> option listen_socket_t)
    (err_of : A -> message -> Prop) (body : A -> M (option bool)) : Prop :=
  forall x w r w',
    0 <= nb_sockets w ->
    (forall e, listen_sockets w !! Z.to_nat (nb_sockets w) = Some e ->
               e = listen_socket_zero) ->
    body x w = Some (r, w') ->
    (r = Some false /\ f x = None /\ nb_sockets w' = nb_sockets w
     /\ take (Z.to_nat (nb_sockets w)) (listen_sockets w')
        = take (Z.to_nat (nb_sockets w)) (listen_sockets w)
     /\ exists msg, err_of x msg /\ trace w' = trace w ++ [Printed MSG_ERROR msg])
    \/ (r = None /\ exists e, f x = Some e
        /\ (Z.to_nat (nb_sockets w) < length (listen_sockets w))%nat
        /\ listen_sockets w' = <[Z.to_nat (nb_sockets w) := e]> (listen_sockets w)
        /\ nb_sockets w' = u32 (nb_sockets w + 1)
        /\ trace w' = trace w).

(** The addresses [getaddrinfo] returns fit a [struct sockaddr_storage]. *)
Definition resolver_fits (os : OS) : Prop :=
  forall node service hints err ai,
    os_getaddrinfo os node service hints = (err, Some ai) ->
    ai_addrlen ai <= sizeof_sockaddr_storage.

(** One iteration of a resolution loop has a result when the table has the
    slot it fills, and then either ends the loop or counts the slot. *)
Definition resolves_one_defined {A : Type} (body : A -> M (option bool)) : Prop :=
  forall x w,
    0 <= nb_sockets w < Z.of_nat (length (listen_sockets w)) ->
    exists r w',
      body x w = Some (r, w')
      /\ (r = None ->
          nb_sockets w' = u32 (nb_sockets w + 1)
          /\ length (listen_sockets w') = length (listen_sockets w)).

Arguments wildcard_plan : simpl never.
Arguments declared_plan : simpl never.

(** ** Address tokens *)

(** The number of occurrences of [c] in [s]. *)
Fixpoint count_char (c : ascii) (s : string) : nat :=
  match s with
  | EmptyString => 0
  | String a s' => ((if Ascii.eqb a c then 1 else 0) + count_char c s')%nat
  end.

(** What [Sys_StringToSockaddr] does once the host and the family hint are
    known: the host goes to [address_no_port] when the caller asks for it,
    and is resolved for the port of the caller. *)
Definition resolve_host (os : OS) (host port_name : string) (addr_family : Z)
    (sock_address : ptr sockaddr_storage) (sock_address_len : ptr Z)
    (address_no_port : option (ptr (option string))) : M bool :=
  (match address_no_port with
   | Some p => store p (Some host)
   | None => ret tt
   end ;;;
   Sys_BuildSockaddr os (Some host) port_name addr_family
                     sock_address sock_address_len)%sys.

Definition report_syntax_error (msg : message) : M bool :=
  (Com_Printf MSG_ERROR msg ;;; ret false)%sys.

(** ** The privilege drop *)

Inductive priv_step :=
| Step_account_lookup
| Step_chroot
| Step_chdir
| Step_setgid
| Step_setuid.

(** The privilege-drop step an event performs, and whether it succeeded. *)
Definition step_of (e : event) : option (priv_step * bool) :=
  match e with
  | Call_getpwnam _ (Some _) => Some (Step_account_lookup, true)
  | Call_getpwnam _ None => Some (Step_account_lookup, false)
  | Call_chroot _ r => Some (Step_chroot, r =? 0)
  | Call_chdir _ r => Some (Step_chdir, r =? 0)
  | Call_setgid _ r => Some (Step_setgid, r =? 0)
  | Call_setuid _ r => Some (Step_setuid, r =? 0)
  | _ => None
  end.

Definition priv_steps (evs : list event) : list (priv_step * bool) :=
  omap step_of evs.

Definition drop_order : list priv_step :=
  [Step_account_lookup; Step_chroot; Step_chdir; Step_setgid; Step_setuid].

Definition is_open (e : event) : bool :=
  match e with
  | Call_open _ _ _ => true
  | _ => false
  end.

Definition is_dup2 (e : event) : bool :=
  match e with
  | Call_dup2 _ _ => true
  | _ => false
  end.

(** ** A sample host *)

Definition EAI_NONAME : Z := -2.
Definition EAI_FAMILY : Z := -6.
Definition EAI_SERVICE : Z := -8.
Definition ENOENT : Z := 2.
Definition EAGAIN : Z := 11.
Definition EADDRINUSE : Z := 98.

Fixpoint digits_value (s : string) (acc : Z) : option Z :=
  match s with
  | EmptyString => Some acc
  | String c s' =>
      let d := Z.of_nat (nat_of_ascii c) - 48 in
      if (0 <=? d) && (d <=? 9) then digits_value s' (10 * acc + d) else None
  end.

(** A numeric service name. *)
Definition port_of_string (s : string) : option Z :=
  match s with
  | EmptyString => None
  | _ => digits_value s 0
  end.

Fixpoint decimal_digits (fuel : nat) (n : Z) (acc : string) : string :=
  match fuel with
  | O => acc
  | S fuel' =>
      let acc' := String (ascii_of_nat (Z.to_nat (48 + n mod 10))) acc in
      if n / 10 =? 0 then acc' else decimal_digits fuel' (n / 10) acc'
  end.

Definition decimal (n : Z) : string := decimal_digits 10 n "".

Definition in6addr_any : list Z := replicate 16 0.
Definition in6addr_loopback : list Z := replicate 15 0 ++ [1].

Definition sockaddr_of (addr_family : Z) (host : list Z) (port : Z) : addrinfo :=
  {| ai_addr := {| ss_family := addr_family; ss_port := port; ss_host := host |};
     ai_addrlen := if addr_family =? AF_INET6 then 28 else 16 |}.

Definition sample_hosts (name : string) : option (Z * list Z) :=
  if String.eqb name "example.com" then Some (AF_INET, [203; 0; 113; 5])
  else if String.eqb name "203.0.113.5" then Some (AF_INET, [203; 0; 113; 5])
  else if String.eqb name "localhost" then Some (AF_INET, [127; 0; 0; 1])
  else if String.eqb name "::1" then Some (AF_INET6, in6addr_loopback)
  else None.

Definition sample_getaddrinfo (node : option string) (service : string)
    (hints : addrinfo_hints) : Z * option addrinfo :=
  match port_of_string service with
  | None => (EAI_SERVICE, None)
  | Some port =>
      match node with
      | None =>
          if ai_family hints =? AF_INET6
          then (0, Some (sockaddr_of AF_INET6 in6addr_any port))
          else (0, Some (sockaddr_of AF_INET [0; 0; 0; 0] port))
      | Some name =>
          match sample_hosts name with
          | Some (addr_family, host) =>
              if (ai_family hints =? AF_UNSPEC) || (ai_family hints =? addr_family)
              then (0, Some (sockaddr_of addr_family host port))
              else (EAI_FAMILY, None)
          | None => (EAI_NONAME, None)
          end
      end
  end.

Definition sample_getnameinfo (sa : sockaddr_storage)
    (socklen hostlen servlen flags : Z) : Z * string * string :=
  match ss_host sa with
  | [a; b; c; d] =>
      if ss_family sa =? AF_INET then
        (0, decimal a +:+ "." +:+ decimal b +:+ "." +:+ decimal c +:+ "."
              +:+ decimal d, decimal (ss_port sa))
      else (EAI_FAMILY, "", "")
  | host =>
      if (ss_family sa =? AF_INET6) && bool_decide (host = in6addr_loopback)
      then (0, "::1", decimal (ss_port sa))
      else if (ss_family sa =? AF_INET6) && bool_decide (host = in6addr_any)
      then (0, "::", decimal (ss_port sa))
      else (EAI_FAMILY, "", "")
  end.

(** The descriptors a history has handed out. *)
Fixpoint descriptors (h : list event) : Z :=
  match h with
  | [] => 0
  | Call_socket _ _ _ r :: h' =>
      (if r =? -1 then 0 else 1) + descriptors h'
  | Call_open _ _ r :: h' => (if r =? -1 then 0 else 1) + descriptors h'
  | _ :: h' => descriptors h'
  end.

(** [errno] after the last call of a history. *)
Definition sample_errno (h : list event) : Z :=
  match last h with
  | Some (Call_socket _ _ _ _) => EAFNOSUPPORT
  | Some (Call_bind _ _ _ _) => EADDRINUSE
  | Some (Call_open _ _ _) => ENOENT
  | Some (Call_daemon _ _ _) => EAGAIN
  | _ => 0
  end.

(** A host on which the process runs as [euid], that supports the address
    families accepted by [supported], where the ports accepted by [in_use]
    are already bound, and that has [/dev/null] and can fork or not. *)
Definition sample_host (euid : Z) (supported : Z -> bool) (in_use : Z -> bool)
    (dev_null can_fork : bool) : OS :=
  {| os_getaddrinfo := sample_getaddrinfo;
     os_getnameinfo := sample_getnameinfo;
     os_geteuid := euid;
     os_getpwnam := fun name =>
       if String.eqb name "nobody"
       then Some {| pw_uid := 65534; pw_gid := 65534 |} else None;
     os_errno := sample_errno;
     os_socket := fun h af _ _ => if supported af then 3 + descriptors h else -1;
     os_setsockopt := fun _ _ _ _ _ => 0;
     os_bind := fun _ _ addr _ => if in_use (ss_port addr) then -1 else 0;
     os_open := fun h _ _ => if dev_null then 3 + descriptors h else -1;
     os_chroot := fun _ _ => if euid =? 0 then 0 else -1;
     os_chdir := fun _ _ => 0;
     os_setgid := fun _ _ => if euid =? 0 then 0 else -1;
     os_setuid := fun _ _ => if euid =? 0 then 0 else -1;
     os_daemon := fun _ _ _ => if can_fork then 0 else -1 |}.

(** An ordinary dual-stack host. *)
Definition dual_stack_host : OS :=
  sample_host 1000 (fun _ => true) (fun _ => false) true true.

(** A host without IPv4. *)
Definition ipv6_only_host : OS :=
  sample_host 1000 (fun af => af =? AF_INET6) (fun _ => false) true true.

(** A host without IPv6. *)
Definition ipv4_only_host : OS :=
  sample_host 1000 (fun af => af =? AF_INET) (fun _ => false) true true.

(** A dual-stack host where port 27900 is taken. *)
Definition busy_port_host : OS :=
  sample_host 1000 (fun _ => true) (fun port => port =? 27900) true true.

(** A dual-stack host on which the process runs as the superuser. *)
Definition superuser_host : OS :=
  sample_host 0 (fun _ => true) (fun _ => false) true true.

(** A dual-stack host without [/dev/null]. *)
Definition no_null_device_host : OS :=
  sample_host 1000 (fun _ => true) (fun _ => false) false true.

(** A dual-stack host on which the process cannot fork. *)
Definition no_fork_host : OS :=
  sample_host 1000 (fun _ => true) (fun _ => false) true false.

(** ** Scenarios *)

(** The world a computation leaves. *)
Definition after {A} (m : M A) (w : world) : world :=
  match m w with
  | Some (_, w') => w'
  | None => w
  end.

(** A name of 128 characters, one more than [addr_buff] can hold. *)
Definition overlong_name : string :=
  string_of_list_ascii (replicate 128 "a"%char).

(** The process after the command line asked for a daemon. *)
Definition daemon_requested : world :=
  after (Sys_Cmdline_Option "daemon" []) (startup 8 16).

(** The process after two addresses were declared. *)
Definition two_declared : world :=
  after (Sys_DeclareListenAddress "example.com:27901" ;;;
         Sys_DeclareListenAddress "[::1]:27900") (startup 8 16).

(** The process after an address that resolves and one that does not were
    declared. *)
Definition one_unknown_declared : world :=
  after (Sys_DeclareListenAddress "example.com" ;;;
         Sys_DeclareListenAddress "nowhere.invalid") (startup 8 16).

(** The daemon requested, after [Sys_SecurityInit] on the dual-stack host. *)
Definition daemon_secured : world :=
  after (Sys_SecurityInit dual_stack_host) daemon_requested.

(** The two resolutions of the ports 27900 and 27950 on the dual-stack
    host: with no declared address, and with the two declared ones. *)
Definition wildcard_resolved : world :=
  after (Sys_ResolveListenAddresses dual_stack_host ["27900"; "27950"])
        (startup 8 16).

Definition declared_resolved : world :=
  after (Sys_ResolveListenAddresses dual_stack_host ["27900"; "27950"])
        two_declared.

(** The resolutions that fail: a service name that is not known, and a
    declared host that is not. *)
Definition wildcard_unresolved : world :=
  after (Sys_ResolveListenAddresses dual_stack_host ["27900"; "gameport"])
        (startup 8 16).

Definition declared_unresolved : world :=
  after (Sys_ResolveListenAddresses dual_stack_host ["27900"])
        one_unknown_declared.

Definition wildcard_socket (addr_family : Z) (host : list Z) (port : Z)
    : listen_socket_t :=
  {| socket := 0;
     local_addr := ai_addr (sockaddr_of addr_family host port);
     local_addr_len := ai_addrlen (sockaddr_of addr_family host port);
     optional := true; local_addr_name := None;
     local_addr_name_no_port := None |}.

(** A plan of three optional entries whose second one is an IPv6 address. *)
Definition three_entry_plan : world :=
  set_nb_sockets 3
    (set_listen_sockets
       ([wildcard_socket AF_INET [0; 0; 0; 0] 27900;
         wildcard_socket AF_INET6 in6addr_any 27900;
         wildcard_socket AF_INET [0; 0; 0; 0] 27901]
          ++ replicate 13 listen_socket_zero)
       (startup 8 16)).

(** ** The registry, the descriptors and the host's answers *)

(** The registry after a caller declared each of [names] in turn, going on
    after a refusal. *)
Definition declare_each (names : list string) (w : world) : world :=
  foldl (fun w name => after (Sys_DeclareListenAddress name) w) w names.

(** The text [Sys_SockaddrToString] prints into its buffer. *)
Definition printable (addr_family : Z) (host port_str : string) : string :=
  (if addr_family =? AF_INET6 then "[" +:+ host +:+ "]" else host)
    +:+ ":" +:+ port_str.

(** The descriptors [Sys_CloseAllSockets] releases: those recorded in the
    entries in use, the value -1 apart. *)
Definition recorded_sockets (w : world) : list Z :=
  List.filter (fun fd => negb (fd =? -1))
    (map socket (take (Z.to_nat (nb_sockets w)) (listen_sockets w))).

(** The host creates a UDP socket of [addr_family] whenever it is asked. *)
Definition supports (os : OS) (addr_family : Z) : Prop :=
  forall h, os_socket os h addr_family SOCK_DGRAM IPPROTO_UDP <> INVALID_SOCKET.

(** The host refuses every UDP socket of [addr_family], with
    [EAFNOSUPPORT]. *)
Definition lacks (os : OS) (addr_family : Z) : Prop :=
  forall h,
    os_socket os h addr_family SOCK_DGRAM IPPROTO_UDP = INVALID_SOCKET
    /\ os_errno os (h ++ [Call_socket addr_family SOCK_DGRAM IPPROTO_UDP
                            INVALID_SOCKET])
       = NETERR_AFNOSUPPORT.

(** The host refuses neither a socket option nor a binding. *)
Definition never_refuses (os : OS) : Prop :=
  (forall h fd level optname optval,
      os_setsockopt os h fd level optname optval = 0)
  /\ (forall h fd addr len, os_bind os h fd addr len = 0).

(** The calls [Sys_SecurityInit] may make when the account is [user] and
    the jail is [jail], with the arguments it may give them. *)
Definition drop_call (os : OS) (user jail : string) (e : event) : bool :=
  match e with
  | Printed _ _ => true
  | Call_open path flags _ => String.eqb path "/dev/null" && (flags =? O_RDWR)
  | Call_geteuid _ => true
  | Call_getpwnam name _ => String.eqb name user
  | Call_chroot path _ => String.eqb path jail
  | Call_chdir path _ => String.eqb path "/"
  | Call_setgid gid _ =>
      match os_getpwnam os user with
      | Some pw => gid =? pw_gid pw
      | None => false
      end
  | Call_setuid uid _ =>
      match os_getpwnam os user with
      | Some pw => uid =? pw_uid pw
      | None => false
      end
  | _ => false
  end.

(** The events that are steps of the privilege drop. *)
Definition is_priv_step (e : event) : bool :=
  match step_of e with
  | Some _ => true
  | None => false
  end.

(** The wildcard address the resolver returns for [AF_INET] or [AF_INET6]
    has the family it was asked for. *)
Definition honours_hint (os : OS) : Prop :=
  forall addr_family port e,
    addr_family = AF_INET \/ addr_family = AF_INET6 ->
    wildcard_entry os (addr_family, port) = Some e ->
    ss_family (local_addr e) = addr_family.

(** The process after the options [--user] and [--jail-path]. *)
Definition configured (user jail : string) (w : world) : world :=
  after (Sys_Cmdline_Option "user" [user] ;;;
         Sys_Cmdline_Option "jail-path" [jail]) w.

(** The wildcard plan for the ports 27900 and 27950, resolved on the host
    without IPv6. *)
Definition ipv4_only_resolved : world :=
  after (Sys_ResolveListenAddresses ipv4_only_host ["27900"; "27950"])
        (startup 8 16).

(** The wildcard plan for the port 27900, resolved on the host where that
    port is taken. *)
Definition busy_port_resolved : world :=
  after (Sys_ResolveListenAddresses busy_port_host ["27900"]) (startup 8 16).

(** The dual-stack host listening on the two wildcard addresses of the port
    27900. *)
Definition listening : world :=
  after (Sys_ResolveListenAddresses dual_stack_host ["27900"] ;;;
         Sys_CreateListenSockets dual_stack_host) (startup 8 16).

(** The daemon on the dual-stack host, after [Sys_SecureInit]. *)
Definition daemonized : world :=
  after (Sys_SecureInit dual_stack_host) daemon_secured.

(** The entries of the two declared addresses, and the wildcard entries,
    for the ports 27900 and 27950, as the sample hosts resolve them. *)
Definition declared_entries : list listen_socket_t :=
  take 4 (listen_sockets declared_resolved).

Definition wildcard_entries : list listen_socket_t :=
  take 4 (listen_sockets wildcard_resolved).

(** Two addresses declared to a process whose socket table has three
    slots. *)
Definition two_declared_small_table : world :=
  after (Sys_DeclareListenAddress "example.com:27901" ;;;
         Sys_DeclareListenAddress "[::1]:27900") (startup 8 3).

(** ** The address token, in the words of the specification *)

(** The text of [s] before its first [c] (all of it when it has none), and
    the text behind that [c]. *)
Fixpoint before (c : ascii) (s : string) : string :=
  match s with
  | EmptyString => EmptyString
  | String a s' => if Ascii.eqb a c then EmptyString else String a (before c s')
  end.

Fixpoint behind (c : ascii) (s : string) : option string :=
  match s with
  | EmptyString => None
  | String a s' => if Ascii.eqb a c then Some s' else behind c s'
  end.

(** The extracted host must fit the scratch buffer: overflow is a syntax
    error, not a truncation. *)
Definition host_that_fits (token host : string) (addr_family : Z)
    : message + (string * Z) :=
  if Z.of_nat (String.length host) <? sizeof_addr_buff
  then inr (host, addr_family)
  else inl (Err_address_too_long token).

(** The host portion and the family hint of an address token.  A token that
    starts with a bracket needs a closing one, followed by a colon or by
    nothing: the host is the text between the brackets, the hint IPv6.
    Otherwise a token without colon is the host, one with a single colon is
    the host before the colon, both without hint, and one with more colons
    is a bare IPv6 literal, the whole of it the host. *)
Definition parse_token (token : string) : message + (string * Z) :=
  match token with
  | String a body =>
      if Ascii.eqb a "[" then
        match behind "]" body with
        | None => inl (Err_no_closing_bracket token)
        | Some rest =>
            match rest with
            | EmptyString => host_that_fits token (before "]" body) AF_INET6
            | String c _ =>
                if Ascii.eqb c ":" || Ascii.eqb c NUL
                then host_that_fits token (before "]" body) AF_INET6
                else inl (Err_invalid_bracket_end token)
            end
        end
      else
        match count_char ":" token with
        | O => host_that_fits token token AF_UNSPEC
        | S O => host_that_fits token (before ":" token) AF_UNSPEC
        | _ => host_that_fits token token AF_INET6
        end
  | EmptyString => host_that_fits token token AF_UNSPEC
  end.

(** ** What a failed resolution reports *)

(** The code [getaddrinfo] returns for a lookup. *)
Definition lookup_error (os : OS) (addr_name : option string)
    (port_name : string) (addr_family_hint : Z) : Z :=
  (os_getaddrinfo os addr_name port_name
     {| ai_family := addr_family_hint; ai_socktype := SOCK_DGRAM;
        ai_flags := AI_PASSIVE |}).1.

(** What the resolution of a wildcard entry reports when it fails: the
    lookup, with the code [getaddrinfo] returned. *)
Definition wildcard_failure (os : OS) (p : Z * string) : option message :=
  match lookup_address os None p.2 p.1 with
  | Some _ => None
  | None => Some (Err_cant_resolve None p.2 (lookup_error os None p.2 p.1))
  end.

(** What the resolution of a declared entry reports when it fails: the
    syntax error of the token, or the lookup of its host. *)
Definition declared_failure (os : OS) (p : string * string) : option message :=
  match parse_token p.1 with
  | inl msg => Some msg
  | inr (host, addr_family) =>
      match lookup_address os (Some host) p.2 addr_family with
      | Some _ => None
      | None =>
          Some (Err_cant_resolve (Some host) p.2
                  (lookup_error os (Some host) p.2 addr_family))
      end
  end.

(** The first entry of a plan that fails: its index and its report. *)
Fixpoint first_failure {A} (fails : A -> option message) (plan : list A)
    : option (nat * message) :=
  match plan with
  | [] => None
  | p :: plan' =>
      match fails p with
      | Some msg => Some (O, msg)
      | None =>
          match first_failure fails plan' with
          | Some (k, msg) => Some (S k, msg)
          | None => None
          end
      end
  end.

(** What a caller sees of a resolution, given the first failure of its
    plan. *)
Definition resolution_outcome (w : world) (r : bool) (w' : world)
    (failure : option (nat * message)) : Prop :=
  match failure with
  | Some (k, msg) =>
      r = false /\ nb_sockets w' = Z.of_nat k
      /\ trace w' = trace w ++ [Printed MSG_ERROR msg]
  | None => r = true /\ trace w' = trace w
  end.

(** ** The descriptor table *)

(** What a descriptor refers to. *)
Inductive open_file :=
| The_terminal
| A_file (path : string)
| A_socket.

(** The open descriptors of the process. *)
Definition fd_table : Type := Z -> option open_file.

Definition fd_set (fd : Z) (f : option open_file) (t : fd_table) : fd_table :=
  fun x => if x =? fd then f else t x.

(** What a call does to the table: [open] and [socket] fill the descriptor
    they return; [dup2] makes [newfd] refer to what [oldfd] refers to, when
    [oldfd] is open; [close] frees its descriptor; [daemon] with a nonzero
    [noclose] leaves the standard streams alone. *)
Definition apply_call (t : fd_table) (e : event) : fd_table :=
  match e with
  | Call_open path _ fd =>
      if fd =? -1 then t else fd_set fd (Some (A_file path)) t
  | Call_socket _ _ _ fd =>
      if fd =? INVALID_SOCKET then t else fd_set fd (Some A_socket) t
  | Call_dup2 oldfd newfd =>
      match t oldfd with
      | Some f => fd_set newfd (Some f) t
      | None => t
      end
  | Call_close fd => fd_set fd None t
  | _ => t
  end.

Definition fd_after (t : fd_table) (h : list event) : fd_table :=
  fold_left apply_call h t.

(** A process started on a terminal, and one started with its standard
    input closed. *)
Definition terminal_streams : fd_table :=
  fun fd => if (0 <=? fd) && (fd <=? 2) then Some The_terminal else None.

Definition stdin_closed : fd_table :=
  fun fd => if (1 <=? fd) && (fd <=? 2) then Some The_terminal else None.

(** The lowest free descriptor, which is the one [open] and [socket]
    return. *)
Definition lowest_free (t : fd_table) : Z :=
  match List.find (fun fd => match t fd with None => true | Some _ => false end)
                  (map Z.of_nat (seq 0 64)) with
  | Some fd => fd
  | None => -1
  end.

(** The dual-stack host, for a process started with its standard input
    closed. *)
Definition stdin_closed_host : OS :=
  {| os_getaddrinfo := os_getaddrinfo dual_stack_host;
     os_getnameinfo := os_getnameinfo dual_stack_host;
     os_geteuid := os_geteuid dual_stack_host;
     os_getpwnam := os_getpwnam dual_stack_host;
     os_errno := os_errno dual_stack_host;
     os_socket := fun h _ _ _ => lowest_free (fd_after stdin_closed h);
     os_setsockopt := os_setsockopt dual_stack_host;
     os_bind := os_bind dual_stack_host;
     os_open := fun h _ _ => lowest_free (fd_after stdin_closed h);
     os_chroot := os_chroot dual_stack_host;
     os_chdir := os_chdir dual_stack_host;
     os_setgid := os_setgid dual_stack_host;
     os_setuid := os_setuid dual_stack_host;
     os_daemon := os_daemon dual_stack_host |}.

(** * Properties *)

(** ** The monad and the loops *)

Lemma bind_Some {A B} (m : M A) (k : A -> M B) w b w'' :
  bind m k w = Some (b, w'') <->
  exists a w', m w = Some (a, w') /\ k a w' = Some (b, w'').
Proof.
  unfold bind. split.
  - destruct (m w) as [[a w']|] eqn:E; [eauto | discriminate].
  - intros (a & w' & -> & H). exact H.
Qed.

Lemma for_each_app {A} (l1 l2 : list A) body w :
  for_each (l1 ++ l2) body w =
  bind (for_each l1 body)
       (fun r => match r with Some b => ret (Some b) | None => for_each l2 body end) w.
Proof.
  revert w. induction l1 as [|x l1 IH]; intros w; simpl.
  - reflexivity.
  - unfold bind. destruct (body x w) as [[[b|] w1]|]; simpl; auto.
Qed.

Lemma for_each_map {A B} (g : A -> B) (l : list A) body w :
  for_each (map g l) body w = for_each l (fun x => body (g x)) w.
Proof.
  revert w. induction l as [|x l IH]; intros w; simpl; [reflexivity|].
  unfold bind. destruct (body (g x) w) as [[[b|] w1]|]; auto.
Qed.

Lemma for_each_flat_map {A B} (l1 : list A) (l2 : list B) body w :
  for_each l1 (fun a => for_each l2 (fun b => body (a, b))) w =
  for_each (flat_map (fun a => map (fun b => (a, b)) l2) l1) body w.
Proof.
  revert w. induction l1 as [|a l1 IH]; intros w; simpl; [reflexivity|].
  rewrite for_each_app. unfold bind. rewrite for_each_map.
  destruct (for_each l2 _ w) as [[[b|] w1]|]; auto.
Qed.

(** ** Resolution *)

Lemma update_socket_Some i f w e :
  listen_sockets w !! Z.to_nat i = Some e ->
  update_socket i f w =
  Some (tt, set_listen_sockets (<[Z.to_nat i := f e]> (listen_sockets w)) w).
Proof. intros H. unfold update_socket. rewrite H. reflexivity. Qed.

Lemma update_socket_None i f w :
  listen_sockets w !! Z.to_nat i = None -> update_socket i f w = None.
Proof. intros H. unfold update_socket. rewrite H. reflexivity. Qed.

Lemma Sys_BuildSockaddr_slot os node port fam n w :
  Sys_BuildSockaddr os node port fam (slot_local_addr n) (slot_local_addr_len n) w =
  match lookup_address os node port fam with
  | Some ai =>
      if ai_addrlen ai <=? sizeof_sockaddr_storage then
        match listen_sockets w !! Z.to_nat n with
        | Some e =>
            Some (true,
                  set_listen_sockets
                    (<[Z.to_nat n := set_local_addr (ai_addr ai)
                                       (set_local_addr_len (ai_addrlen ai) e)]>
                       (listen_sockets w)) w)
        | None => None
        end
      else None
  | None =>
      Some (false,
            set_trace
              (trace w ++
                 [Printed MSG_ERROR
                    (Err_cant_resolve node port
                       (os_getaddrinfo os node port
                          {| ai_family := fam; ai_socktype := SOCK_DGRAM;
                             ai_flags := AI_PASSIVE |}).1)]) w)
  end.
Proof.
  unfold Sys_BuildSockaddr, lookup_address.
  destruct (os_getaddrinfo os node port _) as [err [ai|]]; simpl.
  - destruct (err =? 0); simpl; [|reflexivity].
    unfold bind, assert, store, slot_local_addr_len, slot_local_addr.
    destruct (ai_addrlen ai <=? sizeof_sockaddr_storage); simpl; [|reflexivity].
    destruct (listen_sockets w !! Z.to_nat n) as [e|] eqn:E.
    + rewrite (update_socket_Some _ _ _ e E).
      erewrite update_socket_Some.
      2:{ simpl. apply list_lookup_insert_eq. eapply lookup_lt_Some, E. }
      simpl. rewrite list_insert_insert_eq. reflexivity.
    + rewrite (update_socket_None _ _ _ E). reflexivity.
  - reflexivity.
Qed.

Lemma u32_small x : 0 <= x < 2 ^ 32 -> u32 x = x.
Proof. intros H. unfold u32. apply Z.mod_small. exact H. Qed.

Section Resolution.

Context {A : Type} (f : A -> option listen_socket_t)
        (err_of : A -> message -> Prop) (body : A -> M (option bool)).

Lemma resolve_loop plan :
  resolves_one f err_of body ->
  forall w r w',
    0 <= nb_sockets w ->
    Z.of_nat (length (listen_sockets w)) < 2 ^ 32 ->
    (forall i e,
        (Z.to_nat (nb_sockets w) <= i < Z.to_nat (nb_sockets w) + length plan)%nat ->
        listen_sockets w !! i = Some e -> e = listen_socket_zero) ->
    for_each plan body w = Some (r, w') ->
    nb_sockets w' = nb_sockets w + Z.of_nat (length (resolved_prefix f plan))
    /\ take (Z.to_nat (nb_sockets w')) (listen_sockets w')
       = take (Z.to_nat (nb_sockets w)) (listen_sockets w) ++ resolved_prefix f plan
    /\ (r = None /\ length (resolved_prefix f plan) = length plan
        /\ trace w' = trace w
        \/ r = Some false
           /\ exists x msg,
               plan !! length (resolved_prefix f plan) = Some x
               /\ f x = None /\ err_of x msg
               /\ trace w' = trace w ++ [Printed MSG_ERROR msg]).
Proof.
  intros Hstep. induction plan as [|x plan IH]; intros w r w' Hnb Hcap Hzero Hrun.
  - simpl in Hrun. unfold ret in Hrun. simplify_eq. simpl.
    rewrite Z.add_0_r, app_nil_r. split; [|split]; auto.
  - simpl in Hrun. apply bind_Some in Hrun as (r1 & w1 & Hbody & Hrest).
    apply Hstep in Hbody; [|exact Hnb|].
    2:{ intros e He. eapply Hzero; [|exact He]. simpl. lia. }
    destruct Hbody as [(-> & Hf & Hn & Htake & msg & Herr & Htr)
                      |(-> & e & Hf & Hlt & Htbl & Hn & Htr)].
    + unfold ret in Hrest. simplify_eq. simpl. rewrite Hf. simpl.
      rewrite Z.add_0_r, app_nil_r, Hn. repeat split; [exact Htake|].
      right. split; [reflexivity|]. exists x, msg. auto.
    + rewrite u32_small in Hn by lia.
      apply IH in Hrest; [|lia| |].
      2:{ rewrite Htbl, length_insert. exact Hcap. }
      2:{ intros i e' Hi He'. rewrite Htbl, list_lookup_insert_ne in He' by lia.
          eapply Hzero; [|exact He']. simpl. lia. }
      destruct Hrest as (Hn' & Htake & Hres). simpl. rewrite Hf. simpl.
      split; [lia|]. split.
      * rewrite Htake, Hn, Htbl.
        replace (Z.to_nat (nb_sockets w + 1)) with (S (Z.to_nat (nb_sockets w))) by lia.
        erewrite take_S_r by (apply list_lookup_insert_eq; exact Hlt).
        rewrite take_insert_ge by lia. rewrite <- app_assoc. reflexivity.
      * rewrite Htr in Hres.
        destruct Hres as [(-> & Hlen & Ht)|(-> & y & msg & Hy & Ht)];
          [left | right]; repeat split; auto; eauto.
Qed.

End Resolution.

(** The entries resolved before the first failure are all of them exactly
    when every entry of the plan resolves. *)
Lemma resolved_prefix_all {A} (f : A -> option listen_socket_t) plan :
  length (resolved_prefix f plan) = length plan ->
  mapM f plan = Some (resolved_prefix f plan).
Proof.
  induction plan as [|x plan IH]; simpl; [reflexivity|].
  destruct (f x) as [e|]; simpl; [|discriminate].
  intros H. rewrite IH by lia. reflexivity.
Qed.

Lemma resolved_prefix_mapM {A} (f : A -> option listen_socket_t) plan :
  mapM f (take (length (resolved_prefix f plan)) plan) = Some (resolved_prefix f plan).
Proof.
  induction plan as [|x plan IH]; simpl; [reflexivity|].
  destruct (f x) as [e|] eqn:E; simpl; [|reflexivity].
  rewrite E. simpl. rewrite IH. reflexivity.
Qed.

Lemma resolve_wildcard_one os :
  resolves_one (wildcard_entry os) wildcard_error
               (fun p => resolve_wildcard os p.1 p.2).
Proof.
  intros [fam port] w r w' Hnb Hzero Hrun. simpl in Hrun.
  unfold resolve_wildcard, wildcard_entry in *. simpl.
  unfold bind at 1 in Hrun. simpl in Hrun.
  unfold bind at 1 in Hrun. rewrite Sys_BuildSockaddr_slot in Hrun.
  destruct (lookup_address os None port fam) as [ai|].
  - destruct (ai_addrlen ai <=? sizeof_sockaddr_storage); [|discriminate].
    destruct (listen_sockets w !! Z.to_nat (nb_sockets w)) as [e|] eqn:E;
      [|discriminate].
    rewrite (Hzero e eq_refl) in *. simpl in Hrun.
    unfold bind at 1 in Hrun.
    erewrite update_socket_Some in Hrun.
    2:{ simpl. apply list_lookup_insert_eq. eapply lookup_lt_Some, E. }
    simpl in Hrun. unfold bind, modify, ret in Hrun. simplify_eq. simpl.
    right. split; [reflexivity|]. eexists. split; [reflexivity|].
    split; [eapply lookup_lt_Some, E|].
    rewrite list_insert_insert_eq. auto.
  - simpl in Hrun. unfold ret in Hrun. simplify_eq. simpl.
    left. repeat split; eauto. eexists. split; [|reflexivity].
    eexists. reflexivity.
Qed.

Lemma resolve_declared_one os :
  resolves_one (declared_entry os) declared_error
    (fun p => resolve_declared os {| la_local_addr_name := Some p.1 |} p.2).
Proof.
  intros [name port] w r w' Hnb Hzero Hrun. simpl in Hrun.
  unfold resolve_declared, declared_entry, Sys_StringToSockaddr in *. simpl in *.
  unfold bind at 1 in Hrun. simpl in Hrun.
  unfold bind at 1 in Hrun.
  unfold declared_error. simpl.
  destruct (split_address name) as [msg|[host fam]].
  - unfold bind, Com_Printf, emit, modify, ret in Hrun. simpl in Hrun.
    simplify_eq. simpl. left. repeat split; eauto.
  - unfold bind at 1 in Hrun.
    unfold store, slot_local_addr_name_no_port in Hrun.
    destruct (listen_sockets w !! Z.to_nat (nb_sockets w)) as [e|] eqn:E.
    2:{ rewrite (update_socket_None _ _ _ E) in Hrun. discriminate. }
    rewrite (update_socket_Some _ _ _ e E) in Hrun.
    rewrite Sys_BuildSockaddr_slot in Hrun. simpl in Hrun.
    rewrite (Hzero e eq_refl) in *.
    destruct (lookup_address os (Some host) port fam) as [ai|].
    + destruct (ai_addrlen ai <=? sizeof_sockaddr_storage); [|discriminate].
      rewrite list_lookup_insert_eq in Hrun by (eapply lookup_lt_Some, E).
      simpl in Hrun. unfold bind at 1 in Hrun.
      erewrite update_socket_Some in Hrun.
      2:{ simpl. apply list_lookup_insert_eq. rewrite length_insert.
          eapply lookup_lt_Some, E. }
      simpl in Hrun. unfold bind, modify, ret in Hrun. simplify_eq. simpl.
      right. split; [reflexivity|]. eexists. split; [reflexivity|].
      split; [eapply lookup_lt_Some, E|].
      rewrite !list_insert_insert_eq. auto.
    + simpl in Hrun. unfold ret in Hrun. simplify_eq. simpl.
      left. repeat split; eauto; [apply take_insert_ge; lia|].
      eexists. split; [|reflexivity]. right. eauto.
Qed.

Lemma mapM_la_name l names :
  mapM la_local_addr_name l = Some names ->
  l = map (fun n => {| la_local_addr_name := Some n |}) names.
Proof.
  intros H. apply mapM_Some_1 in H.
  induction H as [|[o] n l names Hn _ IH]; simpl; [reflexivity|].
  simpl in Hn. subst o. rewrite IH. reflexivity.
Qed.

Lemma resolve_wildcard_run os ports w r w' :
  nb_addresses w = 0 ->
  sockets_unused w ->
  Sys_ResolveListenAddresses os ports w = Some (r, w') ->
  let es := resolved_prefix (wildcard_entry os) (wildcard_plan ports) in
  nb_sockets w' = Z.of_nat (length es)
  /\ take (length es) (listen_sockets w') = es
  /\ (r = true /\ length es = length (wildcard_plan ports) /\ trace w' = trace w
      \/ r = false
         /\ exists p msg,
             wildcard_plan ports !! length es = Some p
             /\ wildcard_entry os p = None /\ wildcard_error p msg
             /\ trace w' = trace w ++ [Printed MSG_ERROR msg]).
Proof.
  intros Hna (Hnb & Hcap & Hzero) Hrun.
  unfold Sys_ResolveListenAddresses in Hrun.
  apply bind_Some in Hrun as (nb & wg & Hg & Hrun).
  unfold gets in Hg. simplify_eq. rewrite Hna in Hrun.
  change (0 =? 0) with true in Hrun. cbv iota in Hrun.
  apply bind_Some in Hrun as (r1 & w1 & Hloop & Hret).
  apply bind_Some in Hloop as ([] & w0 & Hmem & Hfor).
  unfold memset_sockets in Hmem.
  destruct (_ <=? _) eqn:Hle in Hmem; [|discriminate]. simplify_eq.
  apply Z.leb_le in Hle.
  pose proof (for_each_flat_map [AF_INET; AF_INET6] ports
                (fun p => resolve_wildcard os p.1 p.2)) as Hflat.
  cbv beta iota delta [fst snd] in Hflat. rewrite Hflat in Hfor. clear Hflat.
  change (flat_map _ _) with (wildcard_plan ports) in Hfor.
  apply (resolve_loop _ _ _ _ (resolve_wildcard_one os)) in Hfor; simpl.
  - simpl in Hfor. rewrite Hnb in Hfor. simpl in Hfor.
    destruct Hfor as (Hn & Htake & Hres).
    rewrite ?Z.add_0_l in Hn. rewrite Hn, Nat2Z.id in Htake.
    unfold ret in Hret.
    destruct Hres as [(-> & Hlen & Htr)|(-> & Hfail)]; simplify_eq;
      (split; [exact Hn|]); (split; [exact Htake|]); auto.
  - lia.
  - rewrite length_app, length_replicate, length_drop.
    cbn [length] in Hle. lia.
  - intros i e _ He. apply list_elem_of_lookup_2 in He.
    apply elem_of_app in He as [He|He].
    + apply elem_of_replicate in He as [-> _]. reflexivity.
    + rewrite Forall_forall in Hzero. apply Hzero.
      eapply subseteq_drop, He.
Qed.

Lemma resolve_declared_run os ports names w r w' :
  registry w = Some names ->
  names <> [] ->
  sockets_unused w ->
  Sys_ResolveListenAddresses os ports w = Some (r, w') ->
  let es := resolved_prefix (declared_entry os) (declared_plan names ports) in
  nb_sockets w' = Z.of_nat (length es)
  /\ take (length es) (listen_sockets w') = es
  /\ (r = true /\ length es = length (declared_plan names ports)
      /\ trace w' = trace w
      \/ r = false
         /\ exists p msg,
             declared_plan names ports !! length es = Some p
             /\ declared_entry os p = None /\ declared_error p msg
             /\ trace w' = trace w ++ [Printed MSG_ERROR msg]).
Proof.
  intros Hreg Hne (Hnb & Hcap & Hzero) Hrun.
  unfold registry in Hreg.
  destruct (_ <=? _) eqn:Hle in Hreg; [|discriminate].
  apply mapM_la_name in Hreg.
  assert ((nb_addresses w =? 0) = false) as Hna.
  { apply Z.eqb_neq. intros H0. rewrite H0 in Hreg. simpl in Hreg.
    destruct names; [congruence|discriminate]. }
  unfold Sys_ResolveListenAddresses in Hrun.
  apply bind_Some in Hrun as (nb & wg & Hg & Hrun).
  unfold gets in Hg. simplify_eq. rewrite Hna in Hrun.
  apply bind_Some in Hrun as (r1 & w1 & Hloop & Hret).
  apply bind_Some in Hloop as (addrs & w0 & Hdecl & Hfor).
  unfold declared_addresses in Hdecl. rewrite Hle in Hdecl. simplify_eq.
  rewrite Hreg, for_each_map in Hfor.
  pose proof (for_each_flat_map names ports
                (fun p => resolve_declared os {| la_local_addr_name := Some p.1 |} p.2))
    as Hflat.
  cbv beta iota delta [fst snd] in Hflat. rewrite Hflat in Hfor. clear Hflat.
  change (flat_map _ _) with (declared_plan names ports) in Hfor.
  apply (resolve_loop _ _ _ _ (resolve_declared_one os)) in Hfor.
  - rewrite Hnb in Hfor. simpl in Hfor.
    destruct Hfor as (Hn & Htake & Hres).
    rewrite ?Z.add_0_l in Hn. rewrite Hn, Nat2Z.id in Htake.
    unfold ret in Hret.
    destruct Hres as [(-> & Hlen & Htr)|(-> & Hfail)]; simplify_eq;
      (split; [exact Hn|]); (split; [exact Htake|]); auto.
  - lia.
  - exact Hcap.
  - intros i e _ He. apply list_elem_of_lookup_2 in He.
    rewrite Forall_forall in Hzero. apply Hzero, He.
Qed.

Lemma length_wildcard_plan ports :
  length (wildcard_plan ports) = (2 * length ports)%nat.
Proof.
  unfold wildcard_plan. simpl. rewrite !length_app, !length_map. simpl. lia.
Qed.

Lemma length_declared_plan names ports :
  length (declared_plan names ports) = (length names * length ports)%nat.
Proof.
  unfold declared_plan. induction names as [|n names IH]; simpl; [reflexivity|].
  rewrite length_app, length_map, IH. reflexivity.
Qed.

Lemma mapM_wildcard_optional os plan es :
  mapM (wildcard_entry os) plan = Some es ->
  Forall (fun e => optional e = true) es.
Proof.
  intros H. apply mapM_Some_1 in H.
  induction H as [|p e plan es Hp _ IH]; constructor; [|exact IH].
  unfold wildcard_entry in Hp. destruct (lookup_address _ _ _ _); simplify_eq.
  reflexivity.
Qed.

Lemma mapM_declared_fields os plan es :
  mapM (declared_entry os) plan = Some es ->
  Forall2 (fun p e =>
             optional e = false /\ local_addr_name e = Some p.1
             /\ exists host addr_family,
                 split_address p.1 = inr (host, addr_family)
                 /\ local_addr_name_no_port e = Some host)
          plan es.
Proof.
  intros H. apply mapM_Some_1 in H.
  induction H as [|p e plan es Hp _ IH]; constructor; [|exact IH].
  unfold declared_entry in Hp.
  destruct (split_address p.1) as [|[host fam]] eqn:E; [discriminate|].
  destruct (lookup_address _ _ _ _); simplify_eq. simpl.
  split; [reflexivity|]. split; [reflexivity|]. eauto.
Qed.

Lemma resolve_loop_defined {A} (body : A -> M (option bool)) plan :
  resolves_one_defined body ->
  forall w,
    0 <= nb_sockets w ->
    nb_sockets w + Z.of_nat (length plan) <= Z.of_nat (length (listen_sockets w)) ->
    Z.of_nat (length (listen_sockets w)) < 2 ^ 32 ->
    exists r w', for_each plan body w = Some (r, w').
Proof.
  intros Hstep. induction plan as [|x plan IH]; intros w Hnb Hroom Hcap.
  - eexists _, _. reflexivity.
  - cbn [for_each length] in *. unfold bind.
    destruct (Hstep x w) as (r & w1 & -> & Hnext); [lia|].
    destruct r as [b|]; [eexists _, _; reflexivity|].
    destruct (Hnext eq_refl) as (Hn & Hlen).
    rewrite u32_small in Hn by lia.
    apply IH; rewrite ?Hn, ?Hlen; lia.
Qed.

Lemma resolve_wildcard_defined os addr_family :
  resolver_fits os ->
  resolves_one_defined (resolve_wildcard os addr_family).
Proof.
  intros Hfit port w Hnb. unfold resolve_wildcard.
  unfold bind at 1, gets. unfold bind at 1. rewrite Sys_BuildSockaddr_slot.
  unfold lookup_address.
  destruct (os_getaddrinfo os None port _) as [err [ai|]] eqn:Hgai.
  2:{ eexists _, _. split; [reflexivity | discriminate]. }
  destruct (err =? 0).
  2:{ eexists _, _. split; [reflexivity | discriminate]. }
  apply Hfit in Hgai. apply Z.leb_le in Hgai. rewrite Hgai.
  destruct (lookup_lt_is_Some_2 (listen_sockets w) (Z.to_nat (nb_sockets w)))
    as [e He]; [lia|].
  rewrite He. cbn [negb]. unfold bind at 1.
  erewrite update_socket_Some
    by (cbn [listen_sockets set_listen_sockets]; apply list_lookup_insert_eq;
        eapply lookup_lt_Some, He).
  eexists _, _. split; [reflexivity|]. intros _.
  cbn [nb_sockets listen_sockets set_nb_sockets set_listen_sockets].
  rewrite !length_insert. auto.
Qed.

Lemma resolve_declared_defined os name :
  resolver_fits os ->
  resolves_one_defined
    (resolve_declared os {| la_local_addr_name := Some name |}).
Proof.
  intros Hfit port w Hnb. unfold resolve_declared. cbn [la_local_addr_name].
  unfold bind at 1, gets. unfold bind at 1, Sys_StringToSockaddr.
  destruct (split_address name) as [msg|[host addr_family]].
  { eexists _, _. split; [reflexivity | discriminate]. }
  destruct (lookup_lt_is_Some_2 (listen_sockets w) (Z.to_nat (nb_sockets w)))
    as [e He]; [lia|].
  unfold bind at 1, store, slot_local_addr_name_no_port.
  rewrite (update_socket_Some _ _ _ e He). rewrite Sys_BuildSockaddr_slot.
  unfold lookup_address.
  destruct (os_getaddrinfo os (Some host) port _) as [err [ai|]] eqn:Hgai.
  2:{ eexists _, _. split; [reflexivity | discriminate]. }
  destruct (err =? 0).
  2:{ eexists _, _. split; [reflexivity | discriminate]. }
  apply Hfit in Hgai. apply Z.leb_le in Hgai. rewrite Hgai.
  cbn [listen_sockets set_listen_sockets].
  rewrite list_lookup_insert_eq by (eapply lookup_lt_Some, He).
  cbn [negb]. unfold bind at 1.
  erewrite update_socket_Some
    by (cbn [listen_sockets set_listen_sockets]; apply list_lookup_insert_eq;
        rewrite length_insert; eapply lookup_lt_Some, He).
  eexists _, _. split; [reflexivity|]. intros _.
  cbn [nb_sockets listen_sockets set_nb_sockets set_listen_sockets].
  rewrite !length_insert. auto.
Qed.

(** X8.  From the socket table as the process starts with it, on a host
    whose resolver returns addresses that fit a [struct sockaddr_storage],
    [Sys_ResolveListenAddresses] has a result, success or failure, whenever
    the table has a slot for every entry of the plan: two for each port
    with no declared address, one for each declared address and port
    otherwise. *)
Theorem Sys_ResolveListenAddresses_defined os ports w :
  resolver_fits os ->
  sockets_unused w ->
  (nb_addresses w = 0 ->
   Z.of_nat (2 * length ports) <= Z.of_nat (length (listen_sockets w))) ->
  (forall names,
      registry w = Some names ->
      Z.of_nat (length names * length ports)
      <= Z.of_nat (length (listen_sockets w))) ->
  (nb_addresses w = 0 \/ exists names, registry w = Some names) ->
  exists r w', Sys_ResolveListenAddresses os ports w = Some (r, w').
Proof.
  intros Hfit (Hnb & Hcap & _) Hwild Hdecl Hreg.
  unfold Sys_ResolveListenAddresses. unfold bind at 1, gets.
  assert (forall (m : M (option bool)) w0,
             (exists r w', m w0 = Some (r, w')) ->
             exists r w',
               bind m (fun r => match r with
                                | Some b => ret b
                                | None => ret true
                                end) w0 = Some (r, w')) as Hret.
  { intros m w0 (r & w' & Hm). unfold bind. rewrite Hm.
    destruct r; eexists _, _; reflexivity. }
  destruct (Z.eqb_spec (nb_addresses w) 0) as [Hna|Hna].
  - apply Hret. unfold bind, memset_sockets.
    specialize (Hwild Hna).
    assert (u32 (Z.of_nat (length ports)) <= Z.of_nat (length ports)) as Hu.
    { unfold u32. apply Z.mod_le; lia. }
    destruct (Z.leb_spec
                (Z.of_nat (length [AF_INET; AF_INET6])
                 * u32 (Z.of_nat (length ports)))
                (Z.of_nat (length (listen_sockets w)))) as [Hle|Hgt];
      [|cbn [length] in Hgt; lia].
    rewrite (for_each_flat_map [AF_INET; AF_INET6] ports
               (fun p => resolve_wildcard os p.1 p.2)).
    apply resolve_loop_defined.
    + intros [addr_family port]. apply resolve_wildcard_defined, Hfit.
    + cbn [nb_sockets set_listen_sockets]. lia.
    + cbn [nb_sockets listen_sockets set_listen_sockets].
      change (flat_map _ _) with (wildcard_plan ports).
      rewrite length_wildcard_plan, length_app, length_replicate, length_drop.
      change (length [AF_INET; AF_INET6]) with 2%nat in *. lia.
    + cbn [listen_sockets set_listen_sockets].
      rewrite length_app, length_replicate, length_drop.
      change (length [AF_INET; AF_INET6]) with 2%nat in *. lia.
  - destruct Hreg as [Hna'|[names Hnames]]; [contradiction|].
    specialize (Hdecl names Hnames). apply Hret.
    unfold registry in Hnames. unfold bind, declared_addresses.
    destruct (_ <=? _); [|discriminate].
    apply mapM_la_name in Hnames. rewrite Hnames, for_each_map.
    rewrite (for_each_flat_map names ports
               (fun p => resolve_declared os {| la_local_addr_name := Some p.1 |} p.2)).
    apply resolve_loop_defined.
    + intros [name port]. apply resolve_declared_defined, Hfit.
    + lia.
    + change (flat_map _ _) with (declared_plan names ports).
      rewrite length_declared_plan. lia.
    + exact Hcap.
Qed.

(** A successful resolution fills exactly the slots of its plan, in the
    order of the plan, with the entries [wildcard_entry] and
    [declared_entry] describe. *)
Lemma resolution_fills_the_plan os ports w w' :
  sockets_unused w ->
  Sys_ResolveListenAddresses os ports w = Some (true, w') ->
  (nb_addresses w = 0 ->
   let n := (2 * length ports)%nat in
   nb_sockets w' = Z.of_nat n
   /\ mapM (wildcard_entry os) (wildcard_plan ports)
      = Some (take n (listen_sockets w'))
   /\ Forall (fun e => optional e = true) (take n (listen_sockets w')))
  /\ (forall names,
        registry w = Some names -> names <> [] ->
        let n := (length names * length ports)%nat in
        nb_sockets w' = Z.of_nat n
        /\ mapM (declared_entry os) (declared_plan names ports)
           = Some (take n (listen_sockets w'))
        /\ Forall2 (fun p e =>
                      optional e = false /\ local_addr_name e = Some p.1
                      /\ exists host addr_family,
                          split_address p.1 = inr (host, addr_family)
                          /\ local_addr_name_no_port e = Some host)
                   (declared_plan names ports) (take n (listen_sockets w'))).
Proof.
  intros Hunused Hrun. split.
  - intros Hna n.
    destruct (resolve_wildcard_run _ _ _ _ _ Hna Hunused Hrun)
      as (Hn & Htake & [(_ & Hlen & _)|(? & _)]); [|discriminate].
    pose proof (resolved_prefix_all _ _ Hlen) as Hall.
    rewrite Hlen, length_wildcard_plan in Hn, Htake. fold n in Hn, Htake.
    rewrite Htake. split; [exact Hn|]. split; [exact Hall|].
    eapply mapM_wildcard_optional, Hall.
  - intros names Hreg Hne n.
    destruct (resolve_declared_run _ _ _ _ _ _ Hreg Hne Hunused Hrun)
      as (Hn & Htake & [(_ & Hlen & _)|(? & _)]); [|discriminate].
    pose proof (resolved_prefix_all _ _ Hlen) as Hall.
    rewrite Hlen, length_declared_plan in Hn, Htake. fold n in Hn, Htake.
    rewrite Htake. split; [exact Hn|]. split; [exact Hall|].
    eapply mapM_declared_fields, Hall.
Qed.

(** C10.  When [Sys_ResolveListenAddresses] returns failure, on either
    path, it stopped at the first entry [p] of the plan that does not
    resolve (a syntax error or a failed lookup), at position [k]: the error
    is the last thing it reports, [nb_sockets] is [k], and the first [k]
    slots of the table keep the [k] entries resolved before; nothing is
    rolled back. *)
Theorem resolution_failure_keeps_resolved_entries os ports w w' :
  sockets_unused w ->
  Sys_ResolveListenAddresses os ports w = Some (false, w') ->
  (nb_addresses w = 0 ->
   exists k p msg,
     wildcard_plan ports !! k = Some p
     /\ wildcard_entry os p = None
     /\ nb_sockets w' = Z.of_nat k
     /\ mapM (wildcard_entry os) (take k (wildcard_plan ports))
        = Some (take k (listen_sockets w'))
     /\ trace w' = trace w ++ [Printed MSG_ERROR msg])
  /\ (forall names,
        registry w = Some names -> names <> [] ->
        exists k p msg,
          declared_plan names ports !! k = Some p
          /\ declared_entry os p = None
          /\ nb_sockets w' = Z.of_nat k
          /\ mapM (declared_entry os) (take k (declared_plan names ports))
             = Some (take k (listen_sockets w'))
          /\ trace w' = trace w ++ [Printed MSG_ERROR msg]).
Proof.
  intros Hunused Hrun. split.
  - intros Hna.
    destruct (resolve_wildcard_run _ _ _ _ _ Hna Hunused Hrun)
      as (Hn & Htake & [(? & _)|(_ & p & msg & Hp & Hf & _ & Htr)]);
      [discriminate|].
    eexists _, p, msg. split; [exact Hp|]. split; [exact Hf|].
    split; [exact Hn|]. split; [|exact Htr].
    rewrite Htake. apply resolved_prefix_mapM.
  - intros names Hreg Hne.
    destruct (resolve_declared_run _ _ _ _ _ _ Hreg Hne Hunused Hrun)
      as (Hn & Htake & [(? & _)|(_ & p & msg & Hp & Hf & _ & Htr)]);
      [discriminate|].
    eexists _, p, msg. split; [exact Hp|]. split; [exact Hf|].
    split; [exact Hn|]. split; [|exact Htr].
    rewrite Htake. apply resolved_prefix_mapM.
Qed.

(** ** Address tokens *)

Lemma strchr_None s c : strchr s c = None <-> count_char c s = 0%nat.
Proof.
  induction s as [|a s IH]; simpl; [tauto|].
  destruct (Ascii.eqb a c); simpl; [split; [discriminate | lia]|].
  destruct (strchr s c); simpl; split; intros H; try discriminate; try tauto.
  apply IH in H. discriminate.
Qed.

Lemma strrchr_None s c : strrchr s c = None <-> count_char c s = 0%nat.
Proof.
  induction s as [|a s IH]; simpl; [tauto|].
  destruct (strrchr s c); simpl.
  - split; [discriminate|]. intros H.
    assert (count_char c s = 0%nat) as H0 by lia. apply IH in H0. discriminate.
  - destruct (Ascii.eqb a c); simpl; [split; [discriminate | lia]|].
    split; [intros _; apply IH; reflexivity | reflexivity].
Qed.

Lemma count_char_app c s1 s2 :
  count_char c (s1 +:+ s2) = (count_char c s1 + count_char c s2)%nat.
Proof. induction s1 as [|a s1 IH]; simpl; [reflexivity|]. rewrite IH. lia. Qed.

Lemma strchr_app s1 s2 c :
  count_char c s1 = 0%nat ->
  strchr (s1 +:+ String c s2) c = Some (String.length s1).
Proof.
  induction s1 as [|a s1 IH]; simpl; intros H.
  - rewrite Ascii.eqb_refl. reflexivity.
  - destruct (Ascii.eqb a c); [discriminate|]. rewrite IH by lia. reflexivity.
Qed.

Lemma strchr_count s c i :
  strchr s c = Some i ->
  count_char c s = S (count_char c (str_offset s (i + 1))).
Proof.
  revert i. induction s as [|a s IH]; simpl; intros i H; [discriminate|].
  destruct (Ascii.eqb a c).
  - simplify_eq. simpl. reflexivity.
  - destruct (strchr s c) as [j|]; simpl in H; simplify_eq. simpl.
    apply IH. reflexivity.
Qed.

Lemma str_offset_0 s : str_offset s 0 = s.
Proof. destruct s; reflexivity. Qed.

Lemma str_offset_app s1 c s2 :
  str_offset (s1 +:+ String c s2) (String.length s1 + 1) = s2.
Proof.
  induction s1 as [|a s1 IH]; simpl; [apply str_offset_0 | exact IH].
Qed.

Lemma substring_all s : substring 0 (String.length s) s = s.
Proof. induction s as [|a s IH]; simpl; [reflexivity|]. rewrite IH. reflexivity. Qed.

Lemma substring_app s1 s2 : substring 0 (String.length s1) (s1 +:+ s2) = s1.
Proof.
  induction s1 as [|a s1 IH]; simpl; [destruct s2; reflexivity|].
  rewrite IH. reflexivity.
Qed.

Lemma char_at_app s1 c s2 :
  char_at (s1 +:+ String c s2) (String.length s1 + 1) = char_at s2 0.
Proof.
  unfold char_at. induction s1 as [|a s1 IH]; simpl; [reflexivity | exact IH].
Qed.

Lemma char_at_0_app s1 s2 :
  char_at s1 0 <> NUL -> char_at (s1 +:+ s2) 0 = char_at s1 0.
Proof. destruct s1; simpl; [intros H; elim H|]; reflexivity. Qed.

Lemma split_address_no_colon address :
  char_at address 0 <> "["%char ->
  count_char ":" address = 0%nat ->
  Z.of_nat (strlen address) < sizeof_addr_buff ->
  split_address address = inr (address, AF_UNSPEC).
Proof.
  intros Hb Hc Hlen. unfold split_address.
  apply Ascii.eqb_neq in Hb. rewrite Hb.
  apply strchr_None in Hc. rewrite Hc. simpl.
  rewrite ?str_offset_0.
  destruct (Z.leb_spec sizeof_addr_buff (Z.of_nat (strlen address))); [lia|].
  unfold strlen. rewrite substring_all. reflexivity.
Qed.

Lemma split_address_one_colon host rest :
  char_at (host +:+ ":" +:+ rest) 0 <> "["%char ->
  count_char ":" (host +:+ ":" +:+ rest) = 1%nat ->
  Z.of_nat (strlen host) < sizeof_addr_buff ->
  split_address (host +:+ ":" +:+ rest) = inr (host, AF_UNSPEC).
Proof.
  change (":" +:+ rest) with (String ":" rest).
  intros Hb Hc Hlen. unfold split_address.
  apply Ascii.eqb_neq in Hb. rewrite Hb.
  rewrite count_char_app in Hc. simpl in Hc.
  rewrite strchr_app by lia. rewrite str_offset_app.
  assert (strrchr rest ":" = None) as -> by (apply strrchr_None; lia).
  simpl. rewrite Nat.sub_0_r.
  destruct (Z.leb_spec sizeof_addr_buff (Z.of_nat (String.length host)));
    [unfold strlen in Hlen; lia|].
  rewrite substring_app. reflexivity.
Qed.

Lemma split_address_colons address :
  char_at address 0 <> "["%char ->
  (2 <= count_char ":" address)%nat ->
  Z.of_nat (strlen address) < sizeof_addr_buff ->
  split_address address = inr (address, AF_INET6).
Proof.
  intros Hb Hc Hlen. unfold split_address.
  apply Ascii.eqb_neq in Hb. rewrite Hb.
  destruct (strchr address ":") as [i|] eqn:Hi.
  2:{ apply strchr_None in Hi. lia. }
  apply strchr_count in Hi.
  destruct (strrchr (str_offset address (i + 1)) ":") eqn:Hj.
  2:{ apply strrchr_None in Hj. lia. }
  simpl. rewrite ?str_offset_0.
  destruct (Z.leb_spec sizeof_addr_buff (Z.of_nat (strlen address))); [lia|].
  unfold strlen. rewrite substring_all. reflexivity.
Qed.

Lemma bracketed_eq host rest :
  "[" +:+ host +:+ "]" +:+ rest = String "[" (host +:+ String "]" rest).
Proof. reflexivity. Qed.

Lemma strchr_bracketed host rest :
  count_char "]" host = 0%nat ->
  strchr ("[" +:+ host +:+ "]" +:+ rest) "]" = Some (S (String.length host)).
Proof.
  intros H. rewrite bracketed_eq. simpl.
  rewrite strchr_app by exact H. reflexivity.
Qed.

Lemma char_after_bracket host rest :
  char_at ("[" +:+ host +:+ "]" +:+ rest) (S (String.length host) + 1)
  = char_at rest 0.
Proof. rewrite bracketed_eq. apply (char_at_app host "]" rest). Qed.

Lemma split_address_bracketed host rest :
  count_char "]" host = 0%nat ->
  char_at rest 0 = ":"%char \/ char_at rest 0 = NUL ->
  Z.of_nat (strlen host) < sizeof_addr_buff ->
  split_address ("[" +:+ host +:+ "]" +:+ rest) = inr (host, AF_INET6).
Proof.
  intros Hc Hrest Hlen. unfold split_address.
  change (char_at ("[" +:+ host +:+ "]" +:+ rest) 0) with "["%char.
  rewrite Ascii.eqb_refl, strchr_bracketed by exact Hc.
  rewrite char_after_bracket.
  assert (negb (Ascii.eqb (char_at rest 0) ":")
          && negb (Ascii.eqb (char_at rest 0) NUL) = false) as ->.
  { destruct Hrest as [-> | ->]; reflexivity. }
  cbv beta iota.
  replace (S (String.length host) - 1)%nat with (String.length host) by lia.
  destruct (Z.leb_spec sizeof_addr_buff (Z.of_nat (String.length host)));
    [unfold strlen in Hlen; lia|].
  rewrite bracketed_eq.
  change (substring 1 (String.length host) (String "[" (host +:+ String "]" rest)))
    with (substring 0 (String.length host) (host +:+ String "]" rest)).
  rewrite substring_app. reflexivity.
Qed.

Lemma split_address_unclosed address :
  char_at address 0 = "["%char ->
  count_char "]" address = 0%nat ->
  split_address address = inl (Err_no_closing_bracket address).
Proof.
  intros Hb Hc. unfold split_address. rewrite Hb, Ascii.eqb_refl.
  apply strchr_None in Hc. rewrite Hc. reflexivity.
Qed.

Lemma split_address_bad_suffix host rest :
  count_char "]" host = 0%nat ->
  char_at rest 0 <> ":"%char -> char_at rest 0 <> NUL ->
  split_address ("[" +:+ host +:+ "]" +:+ rest)
  = inl (Err_invalid_bracket_end ("[" +:+ host +:+ "]" +:+ rest)).
Proof.
  intros Hc H1 H2. unfold split_address.
  change (char_at ("[" +:+ host +:+ "]" +:+ rest) 0) with "["%char.
  rewrite Ascii.eqb_refl, strchr_bracketed by exact Hc.
  rewrite char_after_bracket.
  apply Ascii.eqb_neq in H1, H2. rewrite H1, H2. reflexivity.
Qed.


(** C3 (amended).  [Sys_StringToSockaddr] takes the host and the family
    hint from the token and the port from its caller.  A token that does
    not start with a bracket and has no colon is the host, without a family
    hint; with exactly one colon the host is the text before the colon,
    without a family hint, and the text after the colon is dropped; with
    two colons or more the whole token is the host, with the IPv6 hint.
    For a token that starts with a bracket the host is the text up to the
    first closing bracket, with the IPv6 hint, when the token ends there or
    goes on with a colon, and what follows is dropped; a missing closing
    bracket, or another character after it, is a syntax error.  In every
    case the host must fit the 128 bytes of [addr_buff], and it is resolved
    for [port_name]. *)
Theorem Sys_StringToSockaddr_cases os port_name sock_address sock_address_len
    address_no_port :
  (forall address,
      char_at address 0 <> "["%char ->
      count_char ":" address = 0%nat ->
      Z.of_nat (strlen address) < sizeof_addr_buff ->
      Sys_StringToSockaddr os address port_name
        sock_address sock_address_len address_no_port
      = resolve_host os address port_name AF_UNSPEC
          sock_address sock_address_len address_no_port)
  /\ (forall host rest,
        char_at (host +:+ ":" +:+ rest) 0 <> "["%char ->
        count_char ":" (host +:+ ":" +:+ rest) = 1%nat ->
        Z.of_nat (strlen host) < sizeof_addr_buff ->
        Sys_StringToSockaddr os (host +:+ ":" +:+ rest) port_name
          sock_address sock_address_len address_no_port
        = resolve_host os host port_name AF_UNSPEC
            sock_address sock_address_len address_no_port)
  /\ (forall address,
        char_at address 0 <> "["%char ->
        (2 <= count_char ":" address)%nat ->
        Z.of_nat (strlen address) < sizeof_addr_buff ->
        Sys_StringToSockaddr os address port_name
          sock_address sock_address_len address_no_port
        = resolve_host os address port_name AF_INET6
            sock_address sock_address_len address_no_port)
  /\ (forall host rest,
        count_char "]" host = 0%nat ->
        char_at rest 0 = ":"%char \/ char_at rest 0 = NUL ->
        Z.of_nat (strlen host) < sizeof_addr_buff ->
        Sys_StringToSockaddr os ("[" +:+ host +:+ "]" +:+ rest) port_name
          sock_address sock_address_len address_no_port
        = resolve_host os host port_name AF_INET6
            sock_address sock_address_len address_no_port)
  /\ (forall address,
        char_at address 0 = "["%char ->
        count_char "]" address = 0%nat ->
        Sys_StringToSockaddr os address port_name
          sock_address sock_address_len address_no_port
        = report_syntax_error (Err_no_closing_bracket address))
  /\ (forall host rest,
        count_char "]" host = 0%nat ->
        char_at rest 0 <> ":"%char -> char_at rest 0 <> NUL ->
        Sys_StringToSockaddr os ("[" +:+ host +:+ "]" +:+ rest) port_name
          sock_address sock_address_len address_no_port
        = report_syntax_error
            (Err_invalid_bracket_end ("[" +:+ host +:+ "]" +:+ rest))).
Proof.
  repeat split; intros; unfold Sys_StringToSockaddr.
  - rewrite split_address_no_colon by assumption. reflexivity.
  - rewrite split_address_one_colon by assumption. reflexivity.
  - rewrite split_address_colons by assumption. reflexivity.
  - rewrite split_address_bracketed by assumption. reflexivity.
  - rewrite split_address_unclosed by assumption. reflexivity.
  - rewrite split_address_bad_suffix by assumption. reflexivity.
Qed.

Lemma Sys_StringToSockaddr_cases_witness :
  Sys_StringToSockaddr dual_stack_host "example.com:27901" "27900"
    (slot_local_addr 0) (slot_local_addr_len 0) None
  = resolve_host dual_stack_host "example.com" "27900" AF_UNSPEC
      (slot_local_addr 0) (slot_local_addr_len 0) None
  /\ Sys_StringToSockaddr dual_stack_host "::1:db8::1" "27900"
       (slot_local_addr 0) (slot_local_addr_len 0) None
     = resolve_host dual_stack_host "::1:db8::1" "27900" AF_INET6
         (slot_local_addr 0) (slot_local_addr_len 0) None
  /\ Sys_StringToSockaddr dual_stack_host "[::1]:27900" "27900"
       (slot_local_addr 0) (slot_local_addr_len 0) None
     = resolve_host dual_stack_host "::1" "27900" AF_INET6
         (slot_local_addr 0) (slot_local_addr_len 0) None
  /\ Sys_StringToSockaddr dual_stack_host "[::1" "27900"
       (slot_local_addr 0) (slot_local_addr_len 0) None
     = report_syntax_error (Err_no_closing_bracket "[::1").
Proof.
  destruct (Sys_StringToSockaddr_cases dual_stack_host "27900"
              (slot_local_addr 0) (slot_local_addr_len 0) None)
    as (_ & Hone & Hmany & Hbracket & Hunclosed & _).
  split; [|split; [|split]].
  - apply (Hone "example.com" "27901");
      [vm_compute; discriminate | reflexivity | vm_compute; reflexivity].
  - apply (Hmany "::1:db8::1");
      [vm_compute; discriminate | vm_compute; lia | vm_compute; reflexivity].
  - apply (Hbracket "::1" ":27900");
      [reflexivity | left; reflexivity | vm_compute; reflexivity].
  - apply (Hunclosed "[::1"); reflexivity.
Defined.

(** C3 (counterexample).  The port written in the token is not the port of
    the resolved address: the token [example.com:27901] resolved for the
    port [27900] of the caller yields port 27900, and [[::1]:27900]
    resolved for [27950] yields port 27950.  And a token of 128 characters
    without a colon is not taken as the host but reported as too long. *)
Lemma token_port_is_ignored :
  first_slot
    (Sys_StringToSockaddr dual_stack_host "example.com:27901" "27900"
       (slot_local_addr 0) (slot_local_addr_len 0)
       (Some (slot_local_addr_name_no_port 0)))
    (startup 8 16)
  = Some (true,
          Some {| socket := 0;
                  local_addr := {| ss_family := AF_INET; ss_port := 27900;
                                   ss_host := [203; 0; 113; 5] |};
                  local_addr_len := 16; optional := false;
                  local_addr_name := None;
                  local_addr_name_no_port := Some "example.com" |})
  /\ first_slot
       (Sys_StringToSockaddr dual_stack_host "[::1]:27900" "27950"
          (slot_local_addr 0) (slot_local_addr_len 0)
          (Some (slot_local_addr_name_no_port 0)))
       (startup 8 16)
     = Some (true,
             Some {| socket := 0;
                     local_addr := {| ss_family := AF_INET6; ss_port := 27950;
                                      ss_host := in6addr_loopback |};
                     local_addr_len := 28; optional := false;
                     local_addr_name := None;
                     local_addr_name_no_port := Some "::1" |})
  /\ strlen overlong_name = 128%nat
  /\ count_char ":" overlong_name = 0%nat
  /\ observe
       (Sys_StringToSockaddr dual_stack_host overlong_name "27900"
          (slot_local_addr 0) (slot_local_addr_len 0)
          (Some (slot_local_addr_name_no_port 0)))
       (startup 8 16)
     = Some (false, [],
             [Printed MSG_ERROR (Err_address_too_long overlong_name)]).
Proof. repeat split; vm_compute; reflexivity. Qed.

(** ** Address formatting *)

Lemma substring_0_ge s n : (String.length s <= n)%nat -> substring 0 n s = s.
Proof.
  revert n. induction s as [|a s IH]; intros [|n] H; simpl in *;
    try reflexivity; try lia.
  rewrite IH by lia. reflexivity.
Qed.

Lemma length_append s1 s2 :
  String.length (s1 +:+ s2) = (String.length s1 + String.length s2)%nat.
Proof. induction s1 as [|a s1 IH]; simpl; [reflexivity|]. rewrite IH. reflexivity. Qed.

Lemma append_assoc s1 s2 s3 : (s1 +:+ s2) +:+ s3 = s1 +:+ s2 +:+ s3.
Proof.
  induction s1 as [|a s1 IH]; [reflexivity|].
  change (String a ((s1 +:+ s2) +:+ s3) = String a (s1 +:+ s2 +:+ s3)).
  rewrite IH. reflexivity.
Qed.

(** C9.  When [getnameinfo] succeeds with the numeric host [host] and the
    numeric port [port_str], and the text fits the static buffer as every
    numeric host and port does, [Sys_SockaddrToString] returns the host,
    between brackets exactly when the family is IPv6, then a colon and the
    port; when [getnameinfo] fails it warns and returns the fixed text
    [NON-PRINTABLE ADDRESS]. *)
Theorem Sys_SockaddrToString_format os address socklen w err host port_str :
  os_getnameinfo os address socklen
    (sizeof_result - (if ss_family address =? AF_INET6 then 1 else 0))
    NI_MAXSERV (Z.lor NI_NUMERICHOST NI_NUMERICSERV) = (err, host, port_str) ->
  (err = 0 ->
   Z.of_nat (strlen host + strlen port_str) + 3 < sizeof_result ->
   Sys_SockaddrToString os address socklen w =
   Some ((if ss_family address =? AF_INET6 then "[" +:+ host +:+ "]" else host)
           +:+ ":" +:+ port_str, w))
  /\ (err <> 0 ->
      Sys_SockaddrToString os address socklen w =
      Some ("NON-PRINTABLE ADDRESS",
            set_trace
              (trace w ++ [Printed MSG_WARNING (Warn_cant_convert_address err)])
              w)).
Proof.
  intros Hname. unfold Sys_SockaddrToString.
  destruct (ss_family address =? AF_INET6);
    [change (Z.of_nat (strlen "[")) with 1 | change (Z.of_nat (strlen "")) with 0];
    rewrite Hname; (split; [intros -> Hfit | intros Herr]).
  all: try (apply Z.eqb_neq in Herr; rewrite Herr; reflexivity).
  all: cbn [Z.eqb]; unfold ret, snprintf, strlen in *; f_equal; f_equal.
  all: rewrite (substring_0_ge (_ +:+ ":" +:+ port_str));
    [|repeat (rewrite length_append || cbn [String.length]);
      unfold sizeof_result, NI_MAXHOST, NI_MAXSERV in *; lia].
  all: rewrite substring_0_ge;
    [|repeat (rewrite length_append || cbn [String.length]);
      unfold sizeof_result, NI_MAXHOST, NI_MAXSERV in *; lia].
  - rewrite !append_assoc. reflexivity.
  - reflexivity.
Qed.

(** ** The security phases *)

Ltac run_security :=
  unfold Sys_SecurityInit, c_or, sys_open, sys_geteuid, sys_getpwnam,
    sys_chroot, sys_chdir, sys_setgid, sys_setuid, syscall, errno,
    Com_Printf, emit, bind, gets, modify, ret;
  cbn [trace set_trace set_null_device daemon_state null_device
       low_priv_user jail_path negb].


Ltac name_answer f :=
  match goal with
  | |- context [f ?os ?h ?a] =>
      let r := fresh "r" in
      let E := fresh "E" r in
      remember (f os h a) as r eqn:E; clear E
  end.

Ltac close_run :=
  eexists _, _, _; split; [reflexivity|];
  split; [cbn [trace set_trace]; rewrite <- ?app_assoc; reflexivity|].

(** C5 (amended).  [Sys_SecurityInit] always returns.  The steps it takes
    among the account lookup, [chroot], [chdir], [setgid] and [setuid] are
    an initial part of that sequence, in that order; a step that fails is
    the last one taken and makes the phase fail; as the superuser the phase
    succeeds only after all five, and it starts with the account lookup
    unless the null device could not be opened.  Without superuser identity
    no step is taken, and the phase fails exactly when a daemon was
    requested and [/dev/null] could not be opened. *)
Theorem Sys_SecurityInit_order os w :
  exists r w' evs,
    Sys_SecurityInit os w = Some (r, w')
    /\ trace w' = trace w ++ evs
    /\ map fst (priv_steps evs) `prefix_of` drop_order
    /\ (forall i s, priv_steps evs !! i = Some (s, false) ->
         r = false /\ length (priv_steps evs) = S i)
    /\ (os_geteuid os = 0 -> r = true -> map fst (priv_steps evs) = drop_order)
    /\ (os_geteuid os = 0 ->
        (daemon_state w = DAEMON_STATE_REQUEST ->
         os_open os (trace w) "/dev/null" O_RDWR <> -1) ->
        exists ok rest, priv_steps evs = (Step_account_lookup, ok) :: rest)
    /\ (os_geteuid os <> 0 ->
        priv_steps evs = []
        /\ (r = false <->
            daemon_state w = DAEMON_STATE_REQUEST
            /\ os_open os (trace w) "/dev/null" O_RDWR = -1)).
Proof.
  run_security.
  destruct (daemon_state w) eqn:Hds; cbn.
  all: try match goal with
           | |- context [os_open ?o ?h ?p ?f =? -1] =>
               destruct (os_open o h p f =? -1) eqn:Hfd; cbn
           end.
  all: try match goal with
           | |- context [os_geteuid ?o =? 0] =>
               destruct (os_geteuid o =? 0) eqn:He; cbn
           end.
  all: try match goal with
           | |- context [os_getpwnam ?o ?u] =>
               destruct (os_getpwnam o u) as [pw|] eqn:Hpw; cbn
           end.
  all: try (name_answer os_chroot; destruct (r =? 0) eqn:Hr1; cbn).
  all: try (name_answer os_chdir; destruct (r0 =? 0) eqn:Hr2; cbn).
  all: try (name_answer os_setgid; destruct (r1 =? 0) eqn:Hr3; cbn).
  all: try (name_answer os_setuid; destruct (r2 =? 0) eqn:Hr4; cbn).
  all: close_run.
  all: cbn; rewrite ?Hr1, ?Hr2, ?Hr3, ?Hr4.
  all: try first [apply Z.eqb_eq in He | apply Z.eqb_neq in He].
  all: try first [apply Z.eqb_eq in Hfd | apply Z.eqb_neq in Hfd].
  all: (split; [eexists; reflexivity|]).
  all: (split; [intros [|[|[|[|[|i]]]]] s Hs; cbn in Hs; simplify_eq; auto|]).
  all: (split; [intros; try reflexivity; try discriminate; try congruence|]).
  all: (split; [intros He' Hop; try congruence; try (elim Hop; auto; fail);
                try (eexists _, _; reflexivity)|]).
  all: intros Hne; try congruence.
  all: split; [reflexivity|].
  all: split; try discriminate; try tauto; try (intros [? ?]; congruence).
Qed.

(** C4 (amended).  When a daemon was requested, [Sys_UnsecureInit] opens
    nothing and changes nothing; the null device is opened by the first
    call of [Sys_SecurityInit], before the identity is looked at, and that
    phase fails at once when it cannot be opened; nothing else in the phase
    opens a file. *)
Theorem null_device_opened_by_Sys_SecurityInit os w :
  daemon_state w = DAEMON_STATE_REQUEST ->
  Sys_UnsecureInit w = Some (true, w)
  /\ exists r w' evs,
      let fd := os_open os (trace w) "/dev/null" O_RDWR in
      Sys_SecurityInit os w = Some (r, w')
      /\ trace w' = trace w ++ Call_open "/dev/null" O_RDWR fd :: evs
      /\ null_device w' = fd
      /\ (fd = -1 -> r = false /\ evs = [Printed MSG_ERROR Err_cant_open_null])
      /\ (fd <> -1 -> exists evs', evs = Call_geteuid (os_geteuid os) :: evs')
      /\ forallb (fun e => negb (is_open e)) evs = true.
Proof.
  intros Hds. split; [reflexivity|].
  run_security. rewrite Hds. cbn.
  destruct (os_open os (trace w) "/dev/null" O_RDWR =? -1) eqn:Hfd; cbn.
  all: try match goal with
           | |- context [os_geteuid ?o =? 0] =>
               destruct (os_geteuid o =? 0) eqn:He; cbn
           end.
  all: try match goal with
           | |- context [os_getpwnam ?o ?u] =>
               destruct (os_getpwnam o u) as [pw|] eqn:Hpw; cbn
           end.
  all: try (name_answer os_chroot; destruct (r =? 0) eqn:Hr1; cbn).
  all: try (name_answer os_chdir; destruct (r0 =? 0) eqn:Hr2; cbn).
  all: try (name_answer os_setgid; destruct (r1 =? 0) eqn:Hr3; cbn).
  all: try (name_answer os_setuid; destruct (r2 =? 0) eqn:Hr4; cbn).
  all: first [apply Z.eqb_eq in Hfd | apply Z.eqb_neq in Hfd].
  all: eexists _, _, _; split; [reflexivity|].
  all: (split; [cbn [trace set_trace set_null_device];
                rewrite <- ?app_assoc; reflexivity|]).
  all: (split; [reflexivity|]).
  all: (split; [intros; try congruence; auto|]).
  all: (split; [intros; try congruence; eexists; reflexivity|]).
  all: reflexivity.
Qed.

(** The calls of [Sys_SecureInit] with a daemon requested: when
    [daemon (0, 1)] fails it reports the error and returns failure, the
    daemon state is [DAEMON_STATE_NO], the null device handle is kept and
    no [dup2] is called; when it succeeds and the null device was opened,
    [dup2] is called on the handle for the three standard descriptors, in
    order, the handle is closed and forgotten, and the daemon state is
    [DAEMON_STATE_EFFECTIVE]. *)
Theorem Sys_SecureInit_daemonize os w :
  daemon_state w = DAEMON_STATE_REQUEST ->
  let r := os_daemon os (trace w) 0 1 in
  (r <> 0 ->
   exists w' evs,
     Sys_SecureInit os w = Some (false, w')
     /\ daemon_state w' = DAEMON_STATE_NO
     /\ null_device w' = null_device w
     /\ trace w' = trace w ++ evs
     /\ evs = [Call_daemon 0 1 r;
               Printed MSG_ERROR
                 (Err_daemonization_failed
                    (os_errno os (trace w ++ [Call_daemon 0 1 r])))]
     /\ forallb (fun e => negb (is_dup2 e)) evs = true)
  /\ (r = 0 -> null_device w <> -1 ->
      exists w',
        Sys_SecureInit os w = Some (true, w')
        /\ daemon_state w' = DAEMON_STATE_EFFECTIVE
        /\ null_device w' = -1
        /\ trace w' =
           trace w ++ [Call_daemon 0 1 0;
                       Call_dup2 (null_device w) STDIN_FILENO;
                       Call_dup2 (null_device w) STDOUT_FILENO;
                       Call_dup2 (null_device w) STDERR_FILENO;
                       Call_close (null_device w)]).
Proof.
  intros Hds r. subst r.
  unfold Sys_SecureInit, sys_daemon, sys_dup2, sys_close, syscall, errno,
    Com_Printf, emit, assert, bind, gets, modify, ret.
  rewrite Hds. cbn. split.
  - intros Hr. apply Z.eqb_neq in Hr. rewrite Hr. cbn.
    eexists _, _. split; [reflexivity|]. cbn.
    rewrite <- ?app_assoc. auto 10.
  - intros Hr Hnd. rewrite Hr. cbn. apply Z.eqb_neq in Hnd. rewrite Hnd. cbn.
    eexists. split; [reflexivity|]. cbn. rewrite <- ?app_assoc. auto.
Qed.

(** ** Socket creation on the sample hosts *)

Lemma startup_sockets_unused max_addresses max_sockets :
  Z.of_nat max_sockets < 2 ^ 32 ->
  sockets_unused (startup max_addresses max_sockets).
Proof.
  intros H. split; [reflexivity|]. split.
  - simpl. rewrite length_replicate. exact H.
  - simpl. apply Forall_replicate. reflexivity.
Qed.

Lemma only_events_ret {A} (a : A) : only_events (ret a).
Proof. intros w. exists a, []. unfold ret. rewrite app_nil_r. destruct w; reflexivity. Qed.

Lemma only_events_emit e : only_events (emit e).
Proof. intros w. exists tt, [e]. reflexivity. Qed.

Lemma only_events_bind {A B} (m : M A) (k : A -> M B) :
  only_events m -> (forall a, only_events (k a)) -> only_events (bind m k).
Proof.
  intros Hm Hk w. destruct (Hm w) as (a & evs & Ha).
  destruct (Hk a (set_trace (trace w ++ evs) w)) as (b & evs' & Hb).
  exists b, (evs ++ evs'). unfold bind. rewrite Ha, Hb. cbn.
  rewrite app_assoc. reflexivity.
Qed.

Lemma only_events_syscall {A} (answer : list event -> A) ev :
  only_events (syscall answer ev).
Proof. intros w. eexists _, [_]. reflexivity. Qed.

Lemma only_events_for_each {A} (l : list A) body :
  (forall x, only_events (body x)) -> only_events (for_each l body).
Proof.
  intros Hb. induction l as [|x l IH]; cbn [for_each].
  - apply only_events_ret.
  - apply only_events_bind; [apply Hb|]. intros [b|]; [apply only_events_ret | exact IH].
Qed.

Lemma only_events_Sys_SockaddrToString os address socklen :
  only_events (Sys_SockaddrToString os address socklen).
Proof.
  unfold Sys_SockaddrToString.
  destruct (os_getnameinfo _ _ _ _ _ _) as [[err host] port_str].
  destruct (err =? 0); [apply only_events_ret|].
  apply only_events_bind; [apply only_events_emit | intros; apply only_events_ret].
Qed.

Lemma Sys_CloseAllSockets_total w :
  nb_sockets w <= Z.of_nat (length (listen_sockets w)) ->
  exists evs,
    Sys_CloseAllSockets w
    = Some (tt, set_nb_sockets 0 (set_trace (trace w ++ evs) w)).
Proof.
  intros Hnb. unfold Sys_CloseAllSockets.
  unfold bind at 1, current_sockets.
  destruct (Z.leb_spec (nb_sockets w) (Z.of_nat (length (listen_sockets w))));
    [|lia].
  unfold bind at 1.
  match goal with
  | |- context [for_each ?l ?b w] =>
      destruct (only_events_for_each l b) with (w := w) as (a & evs & Hrun)
  end.
  { intros x. apply only_events_bind; [|intros; apply only_events_ret].
    destruct (negb _); [apply only_events_emit | apply only_events_ret]. }
  exists evs. rewrite Hrun. reflexivity.
Qed.

Lemma u32_continue sock_ind :
  0 <= sock_ind < 2 ^ 32 -> u32 (u32 (sock_ind - 1) + 1) = sock_ind.
Proof.
  intros H. unfold u32.
  destruct (Z.eq_dec sock_ind 0) as [->|Hne]; [reflexivity|].
  rewrite (Z.mod_small (sock_ind - 1)) by lia.
  replace (sock_ind - 1 + 1) with sock_ind by lia. apply Z.mod_small. lia.
Qed.

Lemma fatal_total (msg : message) w :
  nb_sockets w <= Z.of_nat (length (listen_sockets w)) ->
  exists r w',
    (Com_Printf MSG_ERROR msg ;;; Sys_CloseAllSockets ;;; ret false) w
    = Some (r, w')
    /\ (r = false -> nb_sockets w' = 0).
Proof.
  intros Hnb. unfold bind at 1, Com_Printf, emit, modify.
  unfold bind at 1.
  destruct (Sys_CloseAllSockets_total
              (set_trace (trace w ++ [Printed MSG_ERROR msg]) w) Hnb)
    as (evs & ->).
  eexists _, _. split; [reflexivity|]. reflexivity.
Qed.

Lemma create_sockets_loop_total os fuel :
  forall sock_ind w,
    0 <= sock_ind <= nb_sockets w ->
    nb_sockets w <= Z.of_nat (length (listen_sockets w)) ->
    Z.of_nat (length (listen_sockets w)) < 2 ^ 32 ->
    (Z.to_nat (nb_sockets w - sock_ind) < fuel)%nat ->
    exists r w',
      create_sockets_loop os fuel sock_ind w = Some (r, w')
      /\ (r = false -> nb_sockets w' = 0).
Proof.
  induction fuel as [|fuel IH]; intros sock_ind w Hind Hnb Hcap Hfuel; [lia|].
  cbn [create_sockets_loop]. unfold bind at 1, gets at 1.
  destruct (Z.ltb_spec sock_ind (nb_sockets w)) as [Hlt|Hge]; cbn [negb].
  2:{ eexists _, _. split; [reflexivity | discriminate]. }
  unfold bind at 1, read_socket.
  destruct (listen_sockets w !! Z.to_nat sock_ind) as [e|] eqn:He.
  2:{ apply lookup_ge_None in He. lia. }
  unfold bind at 1, sys_socket, syscall.
  set (crt_sock := os_socket os (trace w) _ _ _).
  set (w1 := set_trace _ w).
  assert (nb_sockets w1 = nb_sockets w) as Hnb1 by reflexivity.
  assert (listen_sockets w1 = listen_sockets w) as Htbl1 by reflexivity.
  clearbody w1 crt_sock.
  destruct (crt_sock =? INVALID_SOCKET).
  - unfold bind at 1, Sys_GetLastNetError, errno, gets.
    destruct (_ && _).
    + unfold bind at 1, Com_Printf, emit, modify.
      set (w2 := set_trace _ w1).
      assert (nb_sockets w2 = nb_sockets w) as Hnb2 by exact Hnb1.
      assert (listen_sockets w2 = listen_sockets w) as Htbl2 by exact Htbl1.
      clearbody w2. unfold bind at 1.
      assert (exists w3,
                 (if u32 (sock_ind + 1) <? nb_sockets w
                  then memmove_sockets sock_ind (sock_ind + 1)
                         (u32 (nb_sockets w - sock_ind - 2))
                  else ret ()) w2 = Some (tt, w3)
                 /\ nb_sockets w3 = nb_sockets w
                 /\ length (listen_sockets w3) = length (listen_sockets w))
        as (w3 & -> & Hnb3 & Hlen3).
      { rewrite (u32_small (sock_ind + 1)) by lia.
        destruct (Z.ltb_spec (sock_ind + 1) (nb_sockets w)) as [Hmore|Hlast].
        - rewrite u32_small by lia. unfold memmove_sockets. rewrite Htbl2.
          destruct (Z.leb_spec (sock_ind + 1 + (nb_sockets w - sock_ind - 2))
                               (Z.of_nat (length (listen_sockets w)))); [|lia].
          destruct (Z.leb_spec (sock_ind + (nb_sockets w - sock_ind - 2))
                               (Z.of_nat (length (listen_sockets w)))); [|lia].
          cbn [andb]. eexists. split; [reflexivity|]. split; [exact Hnb2|].
          cbn [listen_sockets set_listen_sockets].
          rewrite !length_app, !length_take, !length_drop. lia.
        - exists w2. split; [reflexivity|]. rewrite Htbl2. auto. }
      unfold bind at 1, modify.
      rewrite (u32_small (nb_sockets w - 1)) by lia.
      rewrite u32_continue by lia.
      apply IH; cbn [nb_sockets set_nb_sockets listen_sockets]; lia.
    + apply fatal_total. rewrite Hnb1, Htbl1. lia.
  - unfold bind at 1.
    match goal with
    | |- context [(if ?c then sys_setsockopt ?o ?a ?b ?d ?f else ret 0) w1] =>
        assert (exists opt w2,
                   (if c then sys_setsockopt o a b d f else ret 0) w1
                   = Some (opt, w2)
                   /\ nb_sockets w2 = nb_sockets w
                   /\ listen_sockets w2 = listen_sockets w)
          as (opt & w2 & -> & Hnb2 & Htbl2)
          by (destruct c; eexists _, _; (split; [reflexivity|]); auto)
    end.
    destruct (opt =? 0); cbn [negb].
    2:{ unfold bind at 1, Sys_GetLastNetError, errno, gets.
        apply fatal_total. rewrite Hnb2, Htbl2. lia. }
    unfold bind at 1.
    destruct (only_events_Sys_SockaddrToString os (local_addr e)
                (local_addr_len e) w2) as (addr_str & evs & ->).
    unfold bind at 1.
    match goal with
    | |- context [match local_addr_name e with _ => _ end ?w] =>
        assert (exists evs',
                   match local_addr_name e with
                   | Some _ =>
                       Com_Printf MSG_NORMAL
                         (Msg_listening_on_address
                            (local_addr_name_no_port e) addr_str)
                   | None =>
                       Com_Printf MSG_NORMAL
                         (Msg_listening_on_all
                            (if ss_family (local_addr e) =? AF_INET6
                             then "IPv6" else "IPv4") addr_str)
                   end w = Some (tt, set_trace (trace w ++ evs') w))
          as (evs' & ->)
          by (destruct (local_addr_name e); eexists [_]; reflexivity)
    end.
    unfold bind at 1, sys_bind, syscall.
    set (bound := os_bind os _ _ _ _).
    set (w3 := set_trace _ _).
    assert (nb_sockets w3 = nb_sockets w) as Hnb3 by exact Hnb2.
    assert (listen_sockets w3 = listen_sockets w) as Htbl3 by exact Htbl2.
    clearbody w3 bound.
    destruct (bound =? 0); cbn [negb].
    2:{ unfold bind at 1, Sys_GetLastNetError, errno, gets.
        apply fatal_total. rewrite Hnb3, Htbl3. lia. }
    unfold bind at 1, update_socket. rewrite Htbl3, He.
    rewrite u32_small by lia.
    apply IH; cbn [nb_sockets set_listen_sockets listen_sockets];
      rewrite ?length_insert; lia.
Qed.

(** The loop of [Sys_CreateListenSockets] never runs out of fuel. *)
Theorem Sys_CreateListenSockets_total os w :
  0 <= nb_sockets w <= Z.of_nat (length (listen_sockets w)) ->
  Z.of_nat (length (listen_sockets w)) < 2 ^ 32 ->
  exists r w',
    Sys_CreateListenSockets os w = Some (r, w')
    /\ (r = false -> nb_sockets w' = 0).
Proof.
  intros Hnb Hcap. unfold Sys_CreateListenSockets, bind, gets.
  apply create_sockets_loop_total; lia.
Qed.

(** C1 (the code departs from the claim).  When the creation of an optional
    entry fails with [EAFNOSUPPORT], the [memmove] moves one entry less than
    the entries behind the removed one, and the count drops by one: the
    removed entry stays in its slot and the last entry of the plan is lost.
    On a host without IPv6, the plan of three optional entries whose second
    one is an IPv6 address ends with the first entry alone, the third one
    never tried; on a host without IPv4, the plan resolved for port 27900
    with no declared address ends with no socket at all, the IPv6 entry
    never tried, and both runs return success. *)
Theorem compaction_loses_the_last_entry :
  observe (Sys_CreateListenSockets ipv4_only_host) three_entry_plan
  = Some (true,
          [set_socket 3 (wildcard_socket AF_INET [0; 0; 0; 0] 27900)],
          [Call_socket AF_INET SOCK_DGRAM IPPROTO_UDP 3;
           Printed MSG_NORMAL (Msg_listening_on_all "IPv4" "0.0.0.0:27900");
           Call_bind 3 (ai_addr (sockaddr_of AF_INET [0; 0; 0; 0] 27900)) 16 0;
           Call_socket AF_INET6 SOCK_DGRAM IPPROTO_UDP (-1);
           Printed MSG_WARNING (Warn_protocol_unsupported "IPv6");
           Call_socket AF_INET6 SOCK_DGRAM IPPROTO_UDP (-1);
           Printed MSG_WARNING (Warn_protocol_unsupported "IPv6")])
  /\ observe (Sys_ResolveListenAddresses ipv6_only_host ["27900"] ;;;
             Sys_CreateListenSockets ipv6_only_host) (startup 8 16)
     = Some (true, [],
             [Call_socket AF_INET SOCK_DGRAM IPPROTO_UDP (-1);
              Printed MSG_WARNING (Warn_protocol_unsupported "IPv4");
              Call_socket AF_INET SOCK_DGRAM IPPROTO_UDP (-1);
              Printed MSG_WARNING (Warn_protocol_unsupported "IPv4")]).
Proof. split; vm_compute; reflexivity. Qed.

(** C2 (the code departs from the claim).  When [bind] fails, the socket
    just created is not yet recorded in the table, so [Sys_CloseAllSockets]
    does not close it: with port 27900 taken, the run over the plan resolved
    for that port returns failure with no entry left in use, after closing
    descriptor 0 once for each of the two planned entries, and the socket 3
    it created stays open. *)
Theorem rollback_leaks_the_failing_socket :
  let history :=
    [Call_socket AF_INET SOCK_DGRAM IPPROTO_UDP 3;
     Printed MSG_NORMAL (Msg_listening_on_all "IPv4" "0.0.0.0:27900");
     Call_bind 3 (ai_addr (sockaddr_of AF_INET [0; 0; 0; 0] 27900)) 16 (-1);
     Printed MSG_ERROR (Err_socket_binding_failed EADDRINUSE);
     Call_close 0;
     Call_close 0] in
  observe (Sys_ResolveListenAddresses busy_port_host ["27900"] ;;;
           Sys_CreateListenSockets busy_port_host) (startup 8 16)
  = Some (false, [], history)
  /\ open_sockets history = [3].
Proof. split; vm_compute; reflexivity. Qed.

(** ** The phases and the resolution on the sample hosts *)

(** C4 (counterexample).  With a daemon requested, [Sys_UnsecureInit]
    returns without opening anything, the null device still unset, and it
    is [Sys_SecurityInit] that opens [/dev/null]. *)
Lemma Sys_UnsecureInit_opens_nothing :
  daemon_state daemon_requested = DAEMON_STATE_REQUEST
  /\ Sys_UnsecureInit daemon_requested = Some (true, daemon_requested)
  /\ null_device daemon_requested = -1
  /\ trace daemon_requested = []
  /\ observe (Sys_SecurityInit dual_stack_host) daemon_requested
     = Some (true, [], [Call_open "/dev/null" O_RDWR 3; Call_geteuid 1000])
  /\ null_device daemon_secured = 3.
Proof. repeat split; vm_compute; reflexivity. Qed.

Lemma null_device_opened_by_Sys_SecurityInit_witness :
  daemon_state daemon_requested = DAEMON_STATE_REQUEST
  /\ exists r w' evs,
      Sys_SecurityInit dual_stack_host daemon_requested = Some (r, w')
      /\ trace w' = trace daemon_requested
                    ++ Call_open "/dev/null" O_RDWR 3 :: evs
      /\ null_device w' = 3.
Proof.
  split; [reflexivity|].
  destruct (null_device_opened_by_Sys_SecurityInit dual_stack_host
              daemon_requested eq_refl)
    as (_ & r & w' & evs & Hrun & Htrace & Hnull & _).
  exists r, w', evs. auto.
Defined.

(** C5 (counterexample).  Without superuser identity the phase can fail:
    with a daemon requested on a host where [/dev/null] cannot be opened,
    [Sys_SecurityInit] returns failure before it looks at the identity. *)
Lemma Sys_SecurityInit_fails_without_superuser :
  os_geteuid no_null_device_host <> 0
  /\ observe (Sys_SecurityInit no_null_device_host) daemon_requested
     = Some (false, [],
             [Call_open "/dev/null" O_RDWR (-1);
              Printed MSG_ERROR Err_cant_open_null]).
Proof. split; [vm_compute; discriminate | vm_compute; reflexivity]. Qed.

Lemma Sys_SecurityInit_order_witness :
  os_geteuid superuser_host = 0
  /\ exists r w' evs,
      Sys_SecurityInit superuser_host (startup 8 16) = Some (r, w')
      /\ trace w' = trace (startup 8 16) ++ evs
      /\ r = true
      /\ map fst (priv_steps evs) = drop_order.
Proof.
  split; [reflexivity|].
  destruct (Sys_SecurityInit_order superuser_host (startup 8 16))
    as (r & w' & evs & Hrun & Htrace & _ & _ & Hall & _).
  exists r, w', evs. split; [exact Hrun|]. split; [exact Htrace|].
  assert (r = true) as Hr.
  { vm_compute in Hrun. congruence. }
  split; [exact Hr|]. apply Hall; [reflexivity | exact Hr].
Defined.

Lemma Sys_SecureInit_daemonize_witness :
  daemon_state daemon_secured = DAEMON_STATE_REQUEST
  /\ os_daemon dual_stack_host (trace daemon_secured) 0 1 = 0
  /\ null_device daemon_secured <> -1
  /\ os_daemon no_fork_host (trace daemon_secured) 0 1 <> 0
  /\ (exists w',
        Sys_SecureInit dual_stack_host daemon_secured = Some (true, w')
        /\ daemon_state w' = DAEMON_STATE_EFFECTIVE
        /\ null_device w' = -1
        /\ trace w' =
           trace daemon_secured
             ++ [Call_daemon 0 1 0;
                 Call_dup2 (null_device daemon_secured) STDIN_FILENO;
                 Call_dup2 (null_device daemon_secured) STDOUT_FILENO;
                 Call_dup2 (null_device daemon_secured) STDERR_FILENO;
                 Call_close (null_device daemon_secured)])
  /\ (exists w' evs,
        Sys_SecureInit no_fork_host daemon_secured = Some (false, w')
        /\ daemon_state w' = DAEMON_STATE_NO
        /\ trace w' = trace daemon_secured ++ evs
        /\ forallb (fun e => negb (is_dup2 e)) evs = true).
Proof.
  assert (daemon_state daemon_secured = DAEMON_STATE_REQUEST) as Hds
    by reflexivity.
  assert (os_daemon dual_stack_host (trace daemon_secured) 0 1 = 0) as Hok
    by reflexivity.
  assert (null_device daemon_secured <> -1) as Hnd
    by (vm_compute; discriminate).
  assert (os_daemon no_fork_host (trace daemon_secured) 0 1 <> 0) as Hko
    by (vm_compute; discriminate).
  repeat (split; [assumption|]). split.
  - destruct (Sys_SecureInit_daemonize dual_stack_host daemon_secured Hds)
      as (_ & Hgood).
    exact (Hgood Hok Hnd).
  - destruct (Sys_SecureInit_daemonize no_fork_host daemon_secured Hds)
      as (Hbad & _).
    destruct (Hbad Hko) as (w' & evs & Hrun & Hstate & _ & Htrace & _ & Hdup).
    exists w', evs. auto.
Defined.

(** C7 (counterexample).  With no declared address, a port given as a
    service name that no lookup knows makes [Sys_ResolveListenAddresses]
    fail on the first synthesized wildcard entry, with the error of the
    lookup. *)
Lemma wildcard_resolution_can_fail :
  nb_addresses (startup 8 16) = 0
  /\ observe (Sys_ResolveListenAddresses dual_stack_host ["gameport"])
             (startup 8 16)
     = Some (false, [],
             [Printed MSG_ERROR (Err_cant_resolve None "gameport" EAI_SERVICE)]).
Proof. split; vm_compute; reflexivity. Qed.

Lemma Sys_SockaddrToString_format_witness :
  Sys_SockaddrToString dual_stack_host
    (ai_addr (sockaddr_of AF_INET [203; 0; 113; 5] 27900)) 16 (startup 8 16)
  = Some ("203.0.113.5:27900", startup 8 16)
  /\ Sys_SockaddrToString dual_stack_host
       (ai_addr (sockaddr_of AF_INET6 in6addr_loopback 27900)) 28 (startup 8 16)
     = Some ("[::1]:27900", startup 8 16)
  /\ Sys_SockaddrToString dual_stack_host sockaddr_zero 0 (startup 8 16)
     = Some ("NON-PRINTABLE ADDRESS",
             set_trace
               (trace (startup 8 16)
                  ++ [Printed MSG_WARNING (Warn_cant_convert_address EAI_FAMILY)])
               (startup 8 16)).
Proof.
  split; [|split].
  - apply (Sys_SockaddrToString_format dual_stack_host
             (ai_addr (sockaddr_of AF_INET [203; 0; 113; 5] 27900)) 16
             (startup 8 16) 0 "203.0.113.5" "27900");
      [vm_compute; reflexivity | reflexivity | vm_compute; reflexivity].
  - apply (Sys_SockaddrToString_format dual_stack_host
             (ai_addr (sockaddr_of AF_INET6 in6addr_loopback 27900)) 28
             (startup 8 16) 0 "::1" "27900");
      [vm_compute; reflexivity | reflexivity | vm_compute; reflexivity].
  - apply (Sys_SockaddrToString_format dual_stack_host sockaddr_zero 0
             (startup 8 16) EAI_FAMILY "" "");
      [vm_compute; reflexivity | vm_compute; discriminate].
Defined.

Lemma resolution_failure_keeps_resolved_entries_witness :
  sockets_unused one_unknown_declared
  /\ registry one_unknown_declared = Some ["example.com"; "nowhere.invalid"]
  /\ Sys_ResolveListenAddresses dual_stack_host ["27900"]
       one_unknown_declared = Some (false, declared_unresolved)
  /\ exists k p msg,
      declared_plan ["example.com"; "nowhere.invalid"] ["27900"] !! k = Some p
      /\ declared_entry dual_stack_host p = None
      /\ nb_sockets declared_unresolved = Z.of_nat k
      /\ mapM (declared_entry dual_stack_host)
              (take k (declared_plan ["example.com"; "nowhere.invalid"]
                                     ["27900"]))
         = Some (take k (listen_sockets declared_unresolved))
      /\ trace declared_unresolved
         = trace one_unknown_declared ++ [Printed MSG_ERROR msg].
Proof.
  assert (sockets_unused one_unknown_declared) as Hunused
    by (apply (startup_sockets_unused 8 16); vm_compute; reflexivity).
  assert (registry one_unknown_declared
          = Some ["example.com"; "nowhere.invalid"]) as Hreg
    by (vm_compute; reflexivity).
  assert (Sys_ResolveListenAddresses dual_stack_host ["27900"]
            one_unknown_declared = Some (false, declared_unresolved)) as Hrun
    by (vm_compute; reflexivity).
  repeat (split; [assumption|]).
  destruct (resolution_failure_keeps_resolved_entries dual_stack_host
              ["27900"] one_unknown_declared declared_unresolved
              Hunused Hrun) as (_ & Hdecl).
  exact (Hdecl _ Hreg ltac:(discriminate)).
Defined.

(** ** The registry of declared addresses *)

Lemma mapM_snoc {A B} (f : A -> option B) l x k y :
  mapM f l = Some k -> f x = Some y -> mapM f (l ++ [x]) = Some (k ++ [y]).
Proof.
  intros Hl Hx. apply mapM_Some_2. apply Forall2_app.
  - apply mapM_Some_1, Hl.
  - repeat constructor. exact Hx.
Qed.

Lemma registry_length w names :
  0 <= nb_addresses w ->
  registry w = Some names ->
  Z.of_nat (length names) = nb_addresses w.
Proof.
  intros Hnb Hreg. unfold registry in Hreg.
  destruct (Z.leb_spec (nb_addresses w) (Z.of_nat (length (listen_addresses w))));
    [|discriminate].
  apply length_mapM in Hreg. rewrite length_take in Hreg. lia.
Qed.

(** X1.  While the registry has room, [Sys_DeclareListenAddress] returns
    success and the declared names are those declared before followed by
    the new one; it prints nothing and leaves the socket table alone. *)
Theorem Sys_DeclareListenAddress_appends name names w :
  registry w = Some names ->
  0 <= nb_addresses w < Z.of_nat (length (listen_addresses w)) ->
  Z.of_nat (length (listen_addresses w)) < 2 ^ 32 ->
  exists w',
    Sys_DeclareListenAddress name w = Some (true, w')
    /\ registry w' = Some (names ++ [name])
    /\ nb_addresses w' = nb_addresses w + 1
    /\ length (listen_addresses w') = length (listen_addresses w)
    /\ nb_sockets w' = nb_sockets w
    /\ listen_sockets w' = listen_sockets w
    /\ trace w' = trace w.
Proof.
  intros Hreg Hnb Hcap. unfold Sys_DeclareListenAddress, bind, gets, modify, ret.
  destruct (Z.ltb_spec (nb_addresses w) (Z.of_nat (length (listen_addresses w))));
    [|lia].
  eexists. split; [reflexivity|].
  cbn [nb_addresses listen_addresses set_nb_addresses set_listen_addresses
       nb_sockets listen_sockets trace].
  rewrite u32_small by lia. rewrite length_insert.
  repeat split; try reflexivity.
  unfold registry in *.
  cbn [nb_addresses listen_addresses set_nb_addresses set_listen_addresses].
  rewrite length_insert.
  destruct (Z.leb_spec (nb_addresses w) (Z.of_nat (length (listen_addresses w))));
    [|lia].
  destruct (Z.leb_spec (nb_addresses w + 1)
              (Z.of_nat (length (listen_addresses w)))); [|lia].
  replace (Z.to_nat (nb_addresses w + 1)) with (S (Z.to_nat (nb_addresses w)))
    by lia.
  erewrite take_S_r by (apply list_lookup_insert_eq; lia).
  rewrite take_insert_ge by lia.
  apply mapM_snoc; [exact Hreg | reflexivity].
Qed.

(** A declaration the full registry refuses. *)
Lemma Sys_DeclareListenAddress_refuses name w :
  Z.of_nat (length (listen_addresses w)) <= nb_addresses w ->
  exists w',
    Sys_DeclareListenAddress name w = Some (false, w')
    /\ registry w' = registry w
    /\ nb_addresses w' = nb_addresses w
    /\ listen_addresses w' = listen_addresses w
    /\ nb_sockets w' = nb_sockets w
    /\ listen_sockets w' = listen_sockets w
    /\ trace w' =
       trace w ++ [Printed MSG_ERROR
                     (Err_too_many_addresses
                        (Z.of_nat (length (listen_addresses w))))].
Proof.
  intros Hfull. unfold Sys_DeclareListenAddress, bind, gets, modify, ret,
    Com_Printf, emit.
  destruct (Z.ltb_spec (nb_addresses w) (Z.of_nat (length (listen_addresses w))));
    [lia|].
  eexists. split; [reflexivity|]. repeat split; reflexivity.
Qed.

Lemma after_Some {A} (m : M A) w r w' :
  m w = Some (r, w') -> after m w = w'.
Proof. intros H. unfold after. rewrite H. reflexivity. Qed.

Lemma declare_each_registry names : forall w names0,
  registry w = Some names0 ->
  0 <= nb_addresses w <= Z.of_nat (length (listen_addresses w)) ->
  Z.of_nat (length (listen_addresses w)) < 2 ^ 32 ->
  let cap := length (listen_addresses w) in
  registry (declare_each names w) = Some (take cap (names0 ++ names))
  /\ length (listen_addresses (declare_each names w)) = cap
  /\ trace (declare_each names w)
     = trace w ++ replicate (length (names0 ++ names) - cap)
                    (Printed MSG_ERROR (Err_too_many_addresses (Z.of_nat cap)))
  /\ nb_sockets (declare_each names w) = nb_sockets w
  /\ listen_sockets (declare_each names w) = listen_sockets w.
Proof.
  induction names as [|name names IH]; intros w names0 Hreg Hnb Hcap cap;
    subst cap.
  - pose proof (registry_length _ _ (proj1 Hnb) Hreg) as Hlen.
    cbn [declare_each foldl]. rewrite app_nil_r, take_ge by lia.
    replace (length names0 - length (listen_addresses w))%nat with 0%nat by lia.
    cbn [replicate]. rewrite app_nil_r. auto.
  - change (declare_each (name :: names) w)
      with (declare_each names (after (Sys_DeclareListenAddress name) w)).
    pose proof (registry_length _ _ (proj1 Hnb) Hreg) as Hlen.
    destruct (Z.eq_dec (nb_addresses w) (Z.of_nat (length (listen_addresses w))))
      as [Hfull|Hroom].
    + destruct (Sys_DeclareListenAddress_refuses name w) as
        (w' & Hrun & Hreg' & Hnb' & Htbl' & Hns' & Hls' & Htr'); [lia|].
      rewrite (after_Some _ _ _ _ Hrun).
      destruct (IH w' names0) as (IH1 & IH2 & IH3 & IH4 & IH5);
        rewrite ?Hreg', ?Hnb', ?Htbl'; auto.
      rewrite IH1, IH2, IH3, IH4, IH5, Htbl', Htr', Hns', Hls'.
      split; [|split; [reflexivity|split; [|auto]]].
      * rewrite !take_app_le by lia. reflexivity.
      * rewrite <- app_assoc. f_equal. rewrite !length_app. cbn [length].
        replace (length names0 + S (length names)
                 - length (listen_addresses w))%nat
          with (S (length names0 + length names
                   - length (listen_addresses w)))%nat by lia.
        reflexivity.
    + destruct (Sys_DeclareListenAddress_appends name names0 w) as
        (w' & Hrun & Hreg' & Hnb' & Htbl' & Hns' & Hls' & Htr');
        [exact Hreg|lia|exact Hcap|].
      rewrite (after_Some _ _ _ _ Hrun).
      destruct (IH w' (names0 ++ [name])) as (IH1 & IH2 & IH3 & IH4 & IH5);
        rewrite ?Hnb', ?Htbl'; auto; [lia|].
      rewrite IH1, IH2, IH3, IH4, IH5, Htbl', Htr', Hns', Hls', <- app_assoc.
      auto.
Qed.

(** X2.  From the start of the process, after any sequence of
    declarations the registry holds the names in the order they were
    declared, up to the capacity of the table; each declaration beyond it is
    refused with one error naming the capacity, and changes nothing. *)
Theorem declared_names_are_kept_in_order max_addresses max_sockets names :
  Z.of_nat max_addresses < 2 ^ 32 ->
  let w := declare_each names (startup max_addresses max_sockets) in
  registry w = Some (take max_addresses names)
  /\ trace w
     = replicate (length names - max_addresses)
         (Printed MSG_ERROR (Err_too_many_addresses (Z.of_nat max_addresses)))
  /\ nb_sockets w = 0.
Proof.
  intros Hcap.
  destruct (declare_each_registry names (startup max_addresses max_sockets) [])
    as (Hreg & _ & Htr & Hns & _).
  - unfold registry. cbn. destruct max_addresses; reflexivity.
  - cbn. lia.
  - cbn. rewrite length_replicate. exact Hcap.
  - cbn in Hreg, Htr, Hns. rewrite length_replicate in *. cbn. auto.
Qed.

Lemma declared_names_are_kept_in_order_witness :
  let w := declare_each ["a"; "b"; "c"] (startup 2 4) in
  registry w = Some ["a"; "b"]
  /\ trace w = [Printed MSG_ERROR (Err_too_many_addresses 2)]
  /\ nb_sockets w = 0.
Proof.
  apply (declared_names_are_kept_in_order 2 4 ["a"; "b"; "c"]). reflexivity.
Defined.

Lemma Sys_DeclareListenAddress_appends_witness :
  exists w',
    Sys_DeclareListenAddress "b" (declare_each ["a"] (startup 2 4))
    = Some (true, w')
    /\ registry w' = Some (["a"] ++ ["b"])
    /\ nb_addresses w' = nb_addresses (declare_each ["a"] (startup 2 4)) + 1
    /\ length (listen_addresses w')
       = length (listen_addresses (declare_each ["a"] (startup 2 4)))
    /\ nb_sockets w' = nb_sockets (declare_each ["a"] (startup 2 4))
    /\ listen_sockets w' = listen_sockets (declare_each ["a"] (startup 2 4))
    /\ trace w' = trace (declare_each ["a"] (startup 2 4)).
Proof.
  apply (Sys_DeclareListenAddress_appends "b" ["a"]
           (declare_each ["a"] (startup 2 4)));
    [reflexivity
    | split; [apply Z.leb_le | apply Z.ltb_lt]; vm_compute; reflexivity
    | reflexivity].
Defined.

(** ** The host of an address token *)

Lemma strchr_lt s c i : strchr s c = Some i -> (i < String.length s)%nat.
Proof.
  revert i. induction s as [|a s IH]; intros i H; simpl in H; [discriminate|].
  destruct (Ascii.eqb a c).
  - simplify_eq. simpl. lia.
  - destruct (strchr s c) as [j|]; simpl in H; [|discriminate].
    simplify_eq. specialize (IH j eq_refl). simpl. lia.
Qed.

Lemma strchr_char_at s c i : strchr s c = Some i -> char_at s i = c.
Proof.
  revert i. induction s as [|a s IH]; intros i H; simpl in H; [discriminate|].
  destruct (Ascii.eqb a c) eqn:E.
  - simplify_eq. apply Ascii.eqb_eq in E. exact E.
  - destruct (strchr s c) as [j|]; simpl in H; [|discriminate].
    simplify_eq. apply (IH j eq_refl).
Qed.

Lemma strchr_before s c i j :
  strchr s c = Some i -> (j < i)%nat -> char_at s j <> c.
Proof.
  revert i j. induction s as [|a s IH]; intros i j H Hj; simpl in H;
    [discriminate|].
  destruct (Ascii.eqb a c) eqn:E.
  - simplify_eq. lia.
  - destruct (strchr s c) as [k|]; simpl in H; [|discriminate]. simplify_eq.
    destruct j as [|j].
    + apply Ascii.eqb_neq in E. exact E.
    + apply (IH k j eq_refl). lia.
Qed.

Lemma length_str_offset s n :
  String.length (str_offset s n) = (String.length s - n)%nat.
Proof.
  revert s. induction n as [|n IH]; intros s; simpl.
  - lia.
  - destruct s as [|a s]; simpl; [reflexivity | apply IH].
Qed.

Lemma append_empty_r s : s +:+ "" = s.
Proof.
  induction s as [|a s IH]; [reflexivity|].
  change (String a (s +:+ "") = String a s). rewrite IH. reflexivity.
Qed.

Lemma substring_0_0 s : substring 0 0 s = "".
Proof. destruct s; reflexivity. Qed.

Lemma substring_split_0 s m :
  (m <= String.length s)%nat -> s = substring 0 m s +:+ str_offset s m.
Proof.
  revert s. induction m as [|m IH]; intros s H.
  - rewrite substring_0_0, str_offset_0. reflexivity.
  - destruct s as [|a s]; simpl in H; [lia|].
    change (String a s = String a (substring 0 m s +:+ str_offset s m)).
    f_equal. apply IH. lia.
Qed.

Lemma substring_split s n m :
  (n + m <= String.length s)%nat ->
  s = substring 0 n s +:+ substring n m s +:+ str_offset s (n + m).
Proof.
  revert s. induction n as [|n IH]; intros s H.
  - rewrite substring_0_0. apply substring_split_0. exact H.
  - destruct s as [|a s]; simpl in H; [lia|].
    change (String a s
            = String a (substring 0 n s +:+ substring n m s
                          +:+ str_offset s (n + m))).
    f_equal. apply IH. lia.
Qed.

Lemma length_substring s n m :
  (n + m <= String.length s)%nat -> String.length (substring n m s) = m.
Proof.
  revert s m. induction n as [|n IH]; intros s m H.
  - revert s H. induction m as [|m IHm]; intros s H.
    + destruct s; reflexivity.
    + destruct s as [|a s]; simpl in H; [lia|]. simpl. f_equal. apply IHm. lia.
  - destruct s as [|a s]; simpl in H; [lia|]. simpl. apply IH. lia.
Qed.

Lemma char_at_substring s m j :
  (j < m)%nat -> (m <= String.length s)%nat ->
  char_at (substring 0 m s) j = char_at s j.
Proof.
  revert s j. induction m as [|m IH]; intros s j Hj Hm; [lia|].
  destruct s as [|a s]; simpl in Hm; [lia|].
  destruct j as [|j]; [reflexivity|].
  unfold char_at in *. simpl. apply IH; lia.
Qed.

Lemma char_at_substring_from s n m j :
  (j < m)%nat -> (n + m <= String.length s)%nat ->
  char_at (substring n m s) j = char_at s (n + j).
Proof.
  revert s. induction n as [|n IH]; intros s Hj Hm.
  - apply char_at_substring; lia.
  - destruct s as [|a s]; simpl in Hm; [lia|].
    unfold char_at in *. simpl. apply IH; lia.
Qed.

Lemma char_at_str_offset s n j : char_at (str_offset s n) j = char_at s (n + j).
Proof.
  revert s. induction n as [|n IH]; intros s; [reflexivity|].
  destruct s as [|a s]; simpl.
  - unfold char_at. destruct j; reflexivity.
  - unfold char_at in *. simpl. apply IH.
Qed.

(** X3.  The host that [Sys_StringToSockaddr] copies into [addr_buff] is
    shorter than the buffer and is a part of the token: either the token
    from its start, followed by nothing or by a colon (and then without a
    family hint), or the text between the opening bracket and the first
    closing one, with the IPv6 hint, followed by a colon or by nothing. *)
Theorem split_address_accepts_a_part_of_the_token address host addr_family :
  split_address address = inr (host, addr_family) ->
  Z.of_nat (strlen host) < sizeof_addr_buff
  /\ exists rest,
      (address = host +:+ rest
       /\ (addr_family = AF_UNSPEC \/ addr_family = AF_INET6)
       /\ (rest = "" \/ (char_at rest 0 = ":"%char /\ addr_family = AF_UNSPEC)))
      \/ (address = "[" +:+ host +:+ "]" +:+ rest
          /\ addr_family = AF_INET6
          /\ (char_at rest 0 = ":"%char \/ char_at rest 0 = NUL)
          /\ (forall j, (j < strlen host)%nat -> char_at host j <> "]"%char)).
Proof.
  unfold split_address, strlen. intros H.
  destruct (Ascii.eqb (char_at address 0) "[") eqn:Hb.
  - destruct (strchr address "]") as [e|] eqn:He; [|discriminate].
    destruct (negb _ && negb _) eqn:Hnext; [discriminate|].
    cbv beta iota in H.
    destruct (Z.leb_spec sizeof_addr_buff (Z.of_nat (e - 1))); [discriminate|].
    simplify_eq.
    pose proof (strchr_lt _ _ _ He) as Hlt.
    pose proof (strchr_char_at _ _ _ He) as Hce.
    apply Ascii.eqb_eq in Hb.
    assert (1 <= e)%nat as He1.
    { destruct e; [|lia]. rewrite Hb in Hce. discriminate. }
    rewrite length_substring by lia. split; [lia|].
    exists (str_offset address (S e)). right.
    split; [|split; [reflexivity|split]].
    + destruct address as [|a address]; [discriminate|].
      unfold char_at in Hb, Hce. simpl in Hb. subst a.
      destruct e as [|e]; [lia|]. simpl in Hce, Hlt.
      simpl. rewrite Nat.sub_0_r. f_equal.
      rewrite (substring_split address e 1) at 1 by lia.
      f_equal. replace (e + 1)%nat with (S e) by lia.
      assert (substring e 1 address = "]") as ->; [|reflexivity].
      clear -Hce Hlt. revert address Hce Hlt.
      induction e as [|e IH]; intros [|a s] Hce Hlt; simpl in *; try lia.
      * subst a. destruct s; reflexivity.
      * apply IH; [exact Hce | lia].
    + rewrite char_at_str_offset.
      replace (S e + 0)%nat with (e + 1)%nat by lia.
      apply andb_false_iff in Hnext as [Hn|Hn]; apply negb_false_iff in Hn;
        apply Ascii.eqb_eq in Hn; auto.
    + intros j Hj.
      rewrite char_at_substring_from by lia.
      apply (strchr_before _ _ _ _ He). lia.
  - destruct (strchr address ":") as [c|] eqn:Hc.
    + pose proof (strchr_lt _ _ _ Hc) as Hlt.
      destruct (strrchr _ _) eqn:Hr; cbv beta iota in H.
      * destruct (Z.leb_spec sizeof_addr_buff
                    (Z.of_nat (String.length (str_offset address 0))));
          [discriminate|].
        simplify_eq. rewrite str_offset_0 in *. rewrite substring_all.
        split; [assumption|]. exists "". left.
        split; [|auto]. symmetry. apply append_empty_r.
      * rewrite Nat.sub_0_r in H.
        destruct (Z.leb_spec sizeof_addr_buff (Z.of_nat c)); [discriminate|].
        simplify_eq. rewrite length_substring by lia. split; [assumption|].
        exists (str_offset address c). left. split; [|split; [auto|right]].
        -- rewrite (substring_split address 0 c) at 1 by lia.
           destruct address; reflexivity.
        -- split; [|reflexivity]. rewrite char_at_str_offset, Nat.add_0_r.
           apply strchr_char_at, Hc.
    + cbv beta iota in H.
      destruct (Z.leb_spec sizeof_addr_buff
                  (Z.of_nat (String.length (str_offset address 0))));
        [discriminate|].
      simplify_eq. rewrite str_offset_0 in *. rewrite substring_all.
      split; [assumption|]. exists "". left.
      split; [|auto]. symmetry. apply append_empty_r.
Qed.

Lemma split_address_accepts_a_part_of_the_token_witness :
  Z.of_nat (strlen "::1") < sizeof_addr_buff
  /\ exists rest,
      ("[::1]:27950" = "::1" +:+ rest
       /\ (AF_INET6 = AF_UNSPEC \/ AF_INET6 = AF_INET6)
       /\ (rest = "" \/ (char_at rest 0 = ":"%char /\ AF_INET6 = AF_UNSPEC)))
      \/ ("[::1]:27950" = "[" +:+ "::1" +:+ "]" +:+ rest
          /\ AF_INET6 = AF_INET6
          /\ (char_at rest 0 = ":"%char \/ char_at rest 0 = NUL)
          /\ (forall j, (j < strlen "::1")%nat -> char_at "::1" j <> "]"%char)).
Proof.
  apply (split_address_accepts_a_part_of_the_token "[::1]:27950" "::1" AF_INET6).
  reflexivity.
Defined.

(** ** The printable form and the release of the sockets *)

Lemma length_substring_le s n m : (String.length (substring n m s) <= m)%nat.
Proof.
  revert s m. induction n as [|n IH]; intros s m.
  - revert s. induction m as [|m IHm]; intros [|a s]; simpl; try lia.
    specialize (IHm s). lia.
  - destruct s as [|a s]; simpl; [destruct m; simpl; lia | apply IH].
Qed.

Lemma substring_0_append a b n :
  (String.length a <= n)%nat ->
  substring 0 n (a +:+ b) = a +:+ substring 0 (n - String.length a) b.
Proof.
  revert n. induction a as [|c a IH]; intros n H.
  - simpl. rewrite Nat.sub_0_r. reflexivity.
  - destruct n as [|n]; simpl in H; [lia|].
    change (String c (substring 0 n (a +:+ b))
            = String c (a +:+ substring 0 (n - String.length a) b)).
    rewrite IH by lia. reflexivity.
Qed.

(** X4.  When [getnameinfo] succeeds with a host that fits the room it was
    given, [Sys_SockaddrToString] returns the text host, colon, port (the
    host between brackets for IPv6) cut to what the static buffer holds, and
    changes nothing. *)
Theorem Sys_SockaddrToString_keeps_what_fits os address socklen w host port_str :
  let room := sizeof_result - (if ss_family address =? AF_INET6 then 1 else 0) in
  let text := snprintf sizeof_result
                (printable (ss_family address) host port_str) in
  os_getnameinfo os address socklen room NI_MAXSERV
    (Z.lor NI_NUMERICHOST NI_NUMERICSERV) = (0, host, port_str) ->
  Z.of_nat (strlen host) < room ->
  Sys_SockaddrToString os address socklen w = Some (text, w)
  /\ Z.of_nat (strlen text) < sizeof_result.
Proof.
  intros room text Hname Hfit. subst room text. split.
  - unfold Sys_SockaddrToString, printable.
    destruct (ss_family address =? AF_INET6);
      [change (Z.of_nat (strlen "[")) with 1 in *
      |change (Z.of_nat (strlen "")) with 0 in *];
      rewrite Hname; cbn [Z.eqb]; unfold ret; f_equal; f_equal;
      unfold snprintf, strlen in *.
    all: match goal with
    | |- substring 0 ?n (?a +:+ substring 0 ?k ?b) = _ =>
        assert (String.length a <= n)%nat as Ha
          by (repeat (rewrite length_append || cbn [String.length]);
              unfold sizeof_result, NI_MAXHOST, NI_MAXSERV in *; lia);
        assert (k = (n - String.length a)%nat) as ->
          by (repeat (rewrite length_append || cbn [String.length]);
              unfold sizeof_result, NI_MAXHOST, NI_MAXSERV in *; lia);
        rewrite (substring_0_append a _ n Ha),
          (substring_0_ge (substring 0 _ b)) by apply length_substring_le;
        rewrite <- (substring_0_append a) by exact Ha
    end.
    + rewrite !append_assoc. reflexivity.
    + reflexivity.
  - unfold strlen, snprintf.
    match goal with
    | |- Z.of_nat (String.length (substring 0 ?n ?s)) < _ =>
        pose proof (length_substring_le s 0 n)
    end.
    unfold sizeof_result, NI_MAXHOST, NI_MAXSERV in *. lia.
Qed.

Lemma Sys_SockaddrToString_keeps_what_fits_witness :
  Sys_SockaddrToString dual_stack_host
    (ai_addr (sockaddr_of AF_INET6 in6addr_loopback 27900)) 28 (startup 8 16)
  = Some (snprintf sizeof_result (printable AF_INET6 "::1" "27900"), startup 8 16)
  /\ Z.of_nat (strlen (snprintf sizeof_result (printable AF_INET6 "::1" "27900")))
     < sizeof_result.
Proof.
  apply (Sys_SockaddrToString_keeps_what_fits dual_stack_host
           (ai_addr (sockaddr_of AF_INET6 in6addr_loopback 27900)) 28
           (startup 8 16) "::1" "27900");
    [vm_compute; reflexivity | vm_compute; reflexivity].
Defined.

Lemma close_loop socks : forall w,
  for_each socks (fun sock =>
    (if negb (socket sock =? -1) then Sys_CloseSocket (socket sock)
     else ret tt) ;;;
    ret None) w
  = Some (None,
          set_trace
            (trace w ++ map Call_close
                          (List.filter (fun fd => negb (fd =? -1))
                             (map socket socks))) w).
Proof.
  induction socks as [|e socks IH]; intros w.
  - cbn. unfold ret. rewrite app_nil_r. destruct w; reflexivity.
  - cbn [for_each map List.filter]. unfold bind at 1. unfold bind at 1.
    destruct (negb (socket e =? -1)).
    + unfold Sys_CloseSocket, sys_close, emit, modify, ret.
      rewrite IH. cbn [trace set_trace map]. rewrite <- app_assoc.
      destruct w; reflexivity.
    + unfold ret. rewrite IH. reflexivity.
Qed.

Lemma open_sockets_app h1 h2 :
  open_sockets (h1 ++ h2) = fold_left track_socket h2 (open_sockets h1).
Proof. unfold open_sockets. apply fold_left_app. Qed.

Lemma close_each fds : forall opened,
  fold_left track_socket (map Call_close fds) opened
  = List.filter (fun x => forallb (fun fd => negb (x =? fd)) fds) opened.
Proof.
  induction fds as [|fd fds IH]; intros opened.
  - cbn. induction opened as [|x opened IHo]; cbn; congruence.
  - cbn [map fold_left track_socket forallb]. rewrite IH.
    induction opened as [|x opened IHo]; cbn; [reflexivity|].
    destruct (negb (x =? fd)); cbn; [|exact IHo].
    destruct (forallb _ fds); cbn; [f_equal|]; exact IHo.
Qed.

Lemma open_sockets_valid h : Forall (fun fd => fd <> -1) (open_sockets h).
Proof.
  unfold open_sockets.
  assert (forall opened, Forall (fun fd => fd <> -1) opened ->
            Forall (fun fd => fd <> -1) (fold_left track_socket h opened)) as H.
  { induction h as [|e h IH]; intros opened Ho; [exact Ho|].
    cbn [fold_left]. apply IH. destruct e; cbn; try exact Ho.
    - match goal with
      | |- context [?fd =? INVALID_SOCKET] =>
          destruct (Z.eqb_spec fd INVALID_SOCKET) as [|Hfd]; [exact Ho|]
      end.
      apply Forall_app. split; [exact Ho|]. repeat constructor. exact Hfd.
    - induction Ho as [|x l Hx Hl IHl]; cbn; [constructor|].
      destruct (negb _); [constructor|]; assumption. }
  apply H. constructor.
Qed.

(** X5.  [Sys_CloseAllSockets] closes, in the order of the table, the
    descriptor recorded in each entry in use unless it is -1, and nothing
    else; it resets the count and keeps the table; afterwards no descriptor
    recorded in an entry that was in use is open. *)
Theorem Sys_CloseAllSockets_closes_recorded w :
  nb_sockets w <= Z.of_nat (length (listen_sockets w)) ->
  exists w',
    Sys_CloseAllSockets w = Some (tt, w')
    /\ trace w' = trace w ++ map Call_close (recorded_sockets w)
    /\ nb_sockets w' = 0
    /\ listen_sockets w' = listen_sockets w
    /\ forall e,
        e ∈ take (Z.to_nat (nb_sockets w)) (listen_sockets w) ->
        socket e ∉ open_sockets (trace w').
Proof.
  intros Hnb. unfold Sys_CloseAllSockets.
  unfold bind at 1, current_sockets.
  destruct (Z.leb_spec (nb_sockets w) (Z.of_nat (length (listen_sockets w))));
    [|lia].
  unfold bind at 1. rewrite close_loop. unfold modify.
  eexists. split; [reflexivity|]. cbn [trace set_trace set_nb_sockets
    nb_sockets listen_sockets]. repeat split; try reflexivity.
  intros e He Hopen. fold (recorded_sockets w) in Hopen.
  rewrite open_sockets_app, close_each in Hopen.
  apply list_elem_of_In, filter_In in Hopen as [Hin Hall].
  destruct (Z.eq_dec (socket e) (-1)) as [Hinv|Hval].
  - pose proof (open_sockets_valid (trace w)) as Hv.
    rewrite Forall_forall in Hv. apply list_elem_of_In in Hin.
    apply (Hv _ Hin). exact Hinv.
  - rewrite forallb_forall in Hall.
    assert (In (socket e) (recorded_sockets w)) as Hrec.
    { unfold recorded_sockets. apply filter_In. split.
      - apply in_map, list_elem_of_In, He.
      - apply negb_true_iff, Z.eqb_neq, Hval. }
    specialize (Hall _ Hrec). rewrite Z.eqb_refl in Hall. discriminate.
Qed.

(** ** Socket creation on any host *)

Lemma open_sockets_snoc h e :
  open_sockets (h ++ [e]) = track_socket (open_sockets h) e.
Proof. unfold open_sockets. rewrite fold_left_app. reflexivity. Qed.

Lemma Sys_SockaddrToString_keeps_sockets os address socklen w :
  exists text w',
    Sys_SockaddrToString os address socklen w = Some (text, w')
    /\ nb_sockets w' = nb_sockets w
    /\ listen_sockets w' = listen_sockets w
    /\ open_sockets (trace w') = open_sockets (trace w).
Proof.
  unfold Sys_SockaddrToString.
  destruct (os_getnameinfo _ _ _ _ _ _) as [[err host] port_str].
  destruct (err =? 0).
  - eexists _, _. split; [reflexivity|]. auto.
  - unfold bind, Com_Printf, emit, modify, ret. eexists _, _.
    split; [reflexivity|]. cbn [nb_sockets listen_sockets trace set_trace].
    rewrite open_sockets_snoc. auto.
Qed.

(** One turn of the loop of [Sys_CreateListenSockets] on an entry whose
    family the host supports. *)
Lemma create_sockets_loop_creates os fuel sock_ind w e :
  never_refuses os ->
  0 <= sock_ind < nb_sockets w ->
  Z.of_nat (length (listen_sockets w)) < 2 ^ 32 ->
  listen_sockets w !! Z.to_nat sock_ind = Some e ->
  supports os (ss_family (local_addr e)) ->
  exists fd w1,
    create_sockets_loop os (S fuel) sock_ind w
    = create_sockets_loop os fuel (sock_ind + 1) w1
    /\ fd <> INVALID_SOCKET
    /\ nb_sockets w1 = nb_sockets w
    /\ listen_sockets w1
       = <[Z.to_nat sock_ind := set_socket fd e]> (listen_sockets w)
    /\ open_sockets (trace w1) = open_sockets (trace w) ++ [fd].
Proof.
  intros [Hopt Hbind] Hind Hcap He Hsup.
  cbn [create_sockets_loop]. unfold bind at 1, gets at 1.
  destruct (Z.ltb_spec sock_ind (nb_sockets w)) as [Hlt|Hge]; [|lia].
  cbn [negb]. unfold bind at 1, read_socket. rewrite He.
  unfold bind at 1, sys_socket, syscall.
  specialize (Hsup (trace w)).
  set (crt_sock := os_socket os (trace w) _ _ _) in *.
  set (w1 := set_trace _ w).
  assert (nb_sockets w1 = nb_sockets w) as Hnb1 by reflexivity.
  assert (listen_sockets w1 = listen_sockets w) as Htbl1 by reflexivity.
  assert (open_sockets (trace w1) = open_sockets (trace w) ++ [crt_sock])
    as Hopen1.
  { subst w1. cbn [trace set_trace]. rewrite open_sockets_snoc.
    cbn [track_socket]. apply Z.eqb_neq in Hsup. rewrite Hsup. reflexivity. }
  clearbody w1.
  destruct (Z.eqb_spec crt_sock INVALID_SOCKET) as [|_]; [contradiction|].
  unfold bind at 1.
  match goal with
  | |- context [(if ?c then sys_setsockopt ?o ?a ?b ?d ?f else ret 0) w1] =>
      assert (exists w2,
                 (if c then sys_setsockopt o a b d f else ret 0) w1
                 = Some (0, w2)
                 /\ nb_sockets w2 = nb_sockets w
                 /\ listen_sockets w2 = listen_sockets w
                 /\ open_sockets (trace w2) = open_sockets (trace w1))
        as (w2 & -> & Hnb2 & Htbl2 & Hopen2)
  end.
  { destruct (_ =? AF_INET6).
    - unfold sys_setsockopt, syscall. rewrite Hopt. eexists.
      split; [reflexivity|]. cbn [nb_sockets listen_sockets trace set_trace].
      rewrite open_sockets_snoc. auto.
    - eexists. split; [reflexivity|]. auto. }
  cbn [Z.eqb negb]. unfold bind at 1.
  destruct (Sys_SockaddrToString_keeps_sockets os (local_addr e)
              (local_addr_len e) w2)
    as (addr_str & w3 & -> & Hnb3 & Htbl3 & Hopen3).
  unfold bind at 1.
  match goal with
  | |- context [match local_addr_name e with _ => _ end w3] =>
      assert (exists w4,
                 match local_addr_name e with
                 | Some _ =>
                     Com_Printf MSG_NORMAL
                       (Msg_listening_on_address
                          (local_addr_name_no_port e) addr_str)
                 | None =>
                     Com_Printf MSG_NORMAL
                       (Msg_listening_on_all
                          (if ss_family (local_addr e) =? AF_INET6
                           then "IPv6" else "IPv4") addr_str)
                 end w3 = Some (tt, w4)
                 /\ nb_sockets w4 = nb_sockets w3
                 /\ listen_sockets w4 = listen_sockets w3
                 /\ open_sockets (trace w4) = open_sockets (trace w3))
        as (w4 & -> & Hnb4 & Htbl4 & Hopen4)
  end.
  { destruct (local_addr_name e); unfold Com_Printf, emit, modify;
      eexists; (split; [reflexivity|]);
      cbn [nb_sockets listen_sockets trace set_trace];
      rewrite open_sockets_snoc; auto. }
  unfold bind at 1, sys_bind, syscall. rewrite Hbind.
  cbn [Z.eqb negb]. unfold bind at 1, update_socket.
  cbn [listen_sockets set_trace].
  eexists crt_sock, _. split.
  { rewrite Htbl4, Htbl3, Htbl2, He.
    rewrite u32_small by (apply lookup_lt_Some in He; lia). reflexivity. }
  cbn [nb_sockets listen_sockets trace set_trace set_listen_sockets].
  rewrite open_sockets_snoc. cbn [track_socket].
  rewrite Hnb4, Hnb3, Hnb2, Hopen4, Hopen3, Hopen2, Hopen1.
  auto.
Qed.

(** One turn of the loop on an optional entry whose family the host lacks:
    the entry is dropped and the index stays where it is. *)
Lemma create_sockets_loop_skips os fuel sock_ind w e :
  0 <= sock_ind < nb_sockets w ->
  nb_sockets w <= Z.of_nat (length (listen_sockets w)) ->
  Z.of_nat (length (listen_sockets w)) < 2 ^ 32 ->
  listen_sockets w !! Z.to_nat sock_ind = Some e ->
  optional e = true ->
  lacks os (ss_family (local_addr e)) ->
  exists w1,
    create_sockets_loop os (S fuel) sock_ind w
    = create_sockets_loop os fuel sock_ind w1
    /\ nb_sockets w1 = nb_sockets w - 1
    /\ length (listen_sockets w1) = length (listen_sockets w)
    /\ open_sockets (trace w1) = open_sockets (trace w)
    /\ (forall j, (j < Z.to_nat sock_ind)%nat ->
          listen_sockets w1 !! j = listen_sockets w !! j)
    /\ (forall j, (Z.to_nat sock_ind <= j < Z.to_nat (nb_sockets w) - 1)%nat ->
          listen_sockets w1 !! j = listen_sockets w !! j
          \/ listen_sockets w1 !! j = listen_sockets w !! S j).
Proof.
  intros Hind Hnb Hcap He Hoptional Hlacks.
  cbn [create_sockets_loop]. unfold bind at 1, gets at 1.
  destruct (Z.ltb_spec sock_ind (nb_sockets w)) as [Hlt|Hge]; [|lia].
  cbn [negb]. unfold bind at 1, read_socket. rewrite He.
  unfold bind at 1, sys_socket, syscall.
  destruct (Hlacks (trace w)) as [Hsock Herr]. rewrite Hsock.
  rewrite Z.eqb_refl. unfold bind at 1, Sys_GetLastNetError, errno, gets.
  cbn [trace set_trace]. rewrite Herr, Z.eqb_refl, Hoptional. cbn [andb].
  unfold bind at 1, Com_Printf, emit, modify. cbn [trace set_trace].
  set (w2 := set_trace _ _).
  assert (nb_sockets w2 = nb_sockets w) as Hnb2 by reflexivity.
  assert (listen_sockets w2 = listen_sockets w) as Htbl2 by reflexivity.
  assert (open_sockets (trace w2) = open_sockets (trace w)) as Hopen2.
  { subst w2. cbn [trace set_trace]. rewrite !open_sockets_snoc. reflexivity. }
  clearbody w2. unfold bind at 1.
  assert (exists w3,
             (if u32 (sock_ind + 1) <? nb_sockets w
              then memmove_sockets sock_ind (sock_ind + 1)
                     (u32 (nb_sockets w - sock_ind - 2))
              else ret ()) w2 = Some (tt, w3)
             /\ nb_sockets w3 = nb_sockets w
             /\ trace w3 = trace w2
             /\ length (listen_sockets w3) = length (listen_sockets w)
             /\ (forall j, (j < Z.to_nat sock_ind)%nat ->
                   listen_sockets w3 !! j = listen_sockets w !! j)
             /\ (forall j,
                   (Z.to_nat sock_ind <= j < Z.to_nat (nb_sockets w) - 1)%nat ->
                   listen_sockets w3 !! j = listen_sockets w !! j
                   \/ listen_sockets w3 !! j = listen_sockets w !! S j))
    as (w3 & -> & Hnb3 & Htr3 & Hlen3 & Hlow3 & Hhigh3).
  { rewrite (u32_small (sock_ind + 1)) by lia.
    destruct (Z.ltb_spec (sock_ind + 1) (nb_sockets w)) as [Hmore|Hlast].
    - rewrite u32_small by lia. unfold memmove_sockets. rewrite Htbl2.
      destruct (Z.leb_spec (sock_ind + 1 + (nb_sockets w - sock_ind - 2))
                           (Z.of_nat (length (listen_sockets w)))); [|lia].
      destruct (Z.leb_spec (sock_ind + (nb_sockets w - sock_ind - 2))
                           (Z.of_nat (length (listen_sockets w)))); [|lia].
      cbn [andb]. eexists. split; [reflexivity|]. split; [exact Hnb2|].
      split; [reflexivity|].
      cbn [listen_sockets set_listen_sockets].
      split; [rewrite !length_app, !length_take, !length_drop; lia|].
      split.
      + intros j Hj. rewrite lookup_app_l by (rewrite length_take; lia).
        apply lookup_take_lt. lia.
      + intros j Hj.
        rewrite lookup_app_r by (rewrite length_take; lia).
        rewrite length_take.
        replace (Z.to_nat sock_ind `min` length (listen_sockets w))%nat
          with (Z.to_nat sock_ind) by lia.
        destruct (decide (j - Z.to_nat sock_ind
                          < Z.to_nat (nb_sockets w - sock_ind - 2))%nat)
          as [Hmoved|Hkept].
        * right. rewrite lookup_app_l
            by (rewrite length_take, length_drop; lia).
          rewrite lookup_take_lt by lia. rewrite lookup_drop.
          f_equal. lia.
        * left. rewrite lookup_app_r
            by (rewrite length_take, length_drop; lia).
          rewrite length_take, length_drop, lookup_drop. f_equal. lia.
    - exists w2. split; [reflexivity|]. rewrite Htbl2. auto 10. }
  unfold bind at 1, modify.
  rewrite (u32_small (nb_sockets w - 1)) by lia.
  rewrite u32_continue by lia.
  eexists. split; [reflexivity|].
  cbn [nb_sockets set_nb_sockets listen_sockets trace].
  rewrite Htr3, Hopen2. auto 10.
Qed.

Lemma create_sockets_loop_head_tail os (k : nat) fuel : forall (i : nat) w,
  never_refuses os ->
  (i <= k)%nat ->
  Z.of_nat k <= nb_sockets w <= Z.of_nat (length (listen_sockets w)) ->
  Z.of_nat (length (listen_sockets w)) < 2 ^ 32 ->
  (Z.to_nat (nb_sockets w) - i < fuel)%nat ->
  (forall j e, (i <= j < k)%nat -> listen_sockets w !! j = Some e ->
     supports os (ss_family (local_addr e))) ->
  (forall j e, (k <= j < Z.to_nat (nb_sockets w))%nat ->
     listen_sockets w !! j = Some e ->
     optional e = true /\ lacks os (ss_family (local_addr e))) ->
  exists w',
    create_sockets_loop os fuel (Z.of_nat i) w = Some (true, w')
    /\ nb_sockets w' = Z.of_nat k
    /\ length (listen_sockets w') = length (listen_sockets w)
    /\ (forall j, (j < i)%nat -> listen_sockets w' !! j = listen_sockets w !! j)
    /\ (forall j e, (i <= j < k)%nat -> listen_sockets w !! j = Some e ->
          exists fd, fd <> INVALID_SOCKET
                     /\ listen_sockets w' !! j = Some (set_socket fd e))
    /\ open_sockets (trace w')
       = open_sockets (trace w)
           ++ map socket (take (k - i) (drop i (listen_sockets w'))).
Proof.
  induction fuel as [|fuel IH]; intros i w Hos Hik Hnb Hcap Hfuel Hhead Htail;
    [lia|].
  destruct (decide (i < k)%nat) as [Hlt|Hge].
  - destruct (lookup_lt_is_Some_2 (listen_sockets w) i) as [e He]; [lia|].
    destruct (create_sockets_loop_creates os fuel (Z.of_nat i) w e)
      as (fd & w1 & -> & Hfd & Hnb1 & Htbl1 & Hopen1);
      [exact Hos | lia | exact Hcap | rewrite Nat2Z.id; exact He
      | apply (Hhead i); [lia | exact He] |].
    rewrite Nat2Z.id in Htbl1.
    replace (Z.of_nat i + 1) with (Z.of_nat (S i)) by lia.
    destruct (IH (S i) w1) as (w' & Hrun & Hk & Hlen & Hlow & Hmid & Hopen).
    + exact Hos.
    + lia.
    + rewrite Hnb1, Htbl1, length_insert. exact Hnb.
    + rewrite Htbl1, length_insert. exact Hcap.
    + rewrite Hnb1. lia.
    + intros j e' Hj He'. rewrite Htbl1, list_lookup_insert_ne in He' by lia.
      apply (Hhead j); [lia | exact He'].
    + intros j e' Hj He'. rewrite Hnb1 in Hj.
      rewrite Htbl1, list_lookup_insert_ne in He' by lia.
      apply (Htail j); [lia | exact He'].
    + assert (listen_sockets w' !! i = Some (set_socket fd e)) as Hi.
      { rewrite Hlow, Htbl1 by lia. apply list_lookup_insert_eq.
        apply lookup_lt_Some in He. exact He. }
      exists w'. split; [exact Hrun|]. split; [exact Hk|].
      split; [rewrite Hlen, Htbl1, length_insert; reflexivity|].
      split; [|split].
      * intros j Hj. rewrite Hlow, Htbl1 by lia.
        apply list_lookup_insert_ne. lia.
      * intros j e' Hj He'. destruct (decide (j = i)) as [->|Hne].
        -- rewrite He in He'. simplify_eq. eauto.
        -- apply Hmid; [lia|]. rewrite Htbl1, list_lookup_insert_ne by lia.
           exact He'.
      * rewrite Hopen, Hopen1, <- app_assoc. f_equal.
        replace (k - i)%nat with (S (k - S i)) by lia.
        rewrite (drop_S _ _ _ Hi). reflexivity.
  - assert (i = k) as -> by lia. replace (k - k)%nat with 0%nat by lia.
    destruct (decide (Z.of_nat k = nb_sockets w)) as [Hdone|Hmore].
    + exists w. cbn [create_sockets_loop]. unfold bind, gets.
      destruct (Z.ltb_spec (Z.of_nat k) (nb_sockets w)); [lia|].
      cbn [negb]. unfold ret. cbn [take map]. rewrite app_nil_r.
      repeat split; auto. intros; lia.
    + destruct (lookup_lt_is_Some_2 (listen_sockets w) k) as [e He]; [lia|].
      destruct (Htail k e) as [Hopt Hlacks]; [lia | exact He |].
      destruct (create_sockets_loop_skips os fuel (Z.of_nat k) w e)
        as (w1 & -> & Hnb1 & Hlen1 & Hopen1 & Hlow1 & Hhigh1);
        [lia | lia | exact Hcap | rewrite Nat2Z.id; exact He
        | exact Hopt | exact Hlacks |].
      rewrite Nat2Z.id in Hlow1, Hhigh1.
      destruct (IH k w1) as (w' & Hrun & Hk & Hlen & Hlow & Hmid & Hopen).
      * exact Hos.
      * lia.
      * rewrite Hnb1, Hlen1. lia.
      * rewrite Hlen1. exact Hcap.
      * rewrite Hnb1. lia.
      * intros; lia.
      * intros j e' Hj He'. rewrite Hnb1 in Hj.
        destruct (Hhigh1 j) as [Heq|Heq]; [lia| |]; rewrite Heq in He'.
        -- apply (Htail j); [lia | exact He'].
        -- apply (Htail (S j)); [lia | exact He'].
      * exists w'. split; [exact Hrun|]. split; [exact Hk|].
        split; [rewrite Hlen, Hlen1; reflexivity|].
        split; [|split].
        -- intros j Hj. rewrite Hlow, Hlow1 by lia. reflexivity.
        -- intros; lia.
        -- rewrite Hopen, Hopen1. replace (k - k)%nat with 0%nat by lia.
           reflexivity.
Qed.

(** X6.  On a host that refuses neither option nor binding, when the
    first [k] entries in use have families the host supports and all the
    others are optional entries of families it lacks, [Sys_CreateListenSockets]
    succeeds, [k] entries stay in use, and each of the first [k] entries is
    as it was but for its socket, which is a valid descriptor. *)
Theorem Sys_CreateListenSockets_keeps_the_supported os (k : nat) w :
  never_refuses os ->
  Z.of_nat k <= nb_sockets w <= Z.of_nat (length (listen_sockets w)) ->
  Z.of_nat (length (listen_sockets w)) < 2 ^ 32 ->
  (forall j e, (j < k)%nat -> listen_sockets w !! j = Some e ->
     supports os (ss_family (local_addr e))) ->
  (forall j e, (k <= j < Z.to_nat (nb_sockets w))%nat ->
     listen_sockets w !! j = Some e ->
     optional e = true /\ lacks os (ss_family (local_addr e))) ->
  exists w',
    Sys_CreateListenSockets os w = Some (true, w')
    /\ nb_sockets w' = Z.of_nat k
    /\ length (listen_sockets w') = length (listen_sockets w)
    /\ forall j e, (j < k)%nat -> listen_sockets w !! j = Some e ->
         exists fd, fd <> INVALID_SOCKET
                    /\ listen_sockets w' !! j = Some (set_socket fd e).
Proof.
  intros Hos Hnb Hcap Hhead Htail.
  destruct (create_sockets_loop_head_tail os k (S (Z.to_nat (nb_sockets w)))
              0 w) as (w' & Hrun & Hk & Hlen & _ & Hmid & _);
    try assumption; try lia.
  { intros j e Hj. apply Hhead. lia. }
  exists w'. unfold Sys_CreateListenSockets, bind, gets.
  split; [exact Hrun|]. split; [exact Hk|]. split; [exact Hlen|].
  intros j e Hj. apply Hmid. lia.
Qed.

Lemma Sys_CloseAllSockets_run w :
  nb_sockets w <= Z.of_nat (length (listen_sockets w)) ->
  Sys_CloseAllSockets w
  = Some (tt, set_nb_sockets 0
                (set_trace (trace w ++ map Call_close (recorded_sockets w)) w)).
Proof.
  intros Hnb. unfold Sys_CloseAllSockets.
  unfold bind at 1, current_sockets.
  destruct (Z.leb_spec (nb_sockets w) (Z.of_nat (length (listen_sockets w))));
    [|lia].
  unfold bind at 1. rewrite close_loop. reflexivity.
Qed.

Lemma open_sockets_closed h fds x :
  x ∈ open_sockets (h ++ map Call_close fds) ->
  x ∈ open_sockets h /\ ~ In x fds.
Proof.
  rewrite open_sockets_app, close_each. intros Hx.
  apply list_elem_of_In, filter_In in Hx as [Hin Hall].
  split; [apply list_elem_of_In, Hin|].
  intros Hfd. rewrite forallb_forall in Hall. specialize (Hall _ Hfd).
  rewrite Z.eqb_refl in Hall. discriminate.
Qed.

(** The sockets left open when the loop of [Sys_CreateListenSockets] gives
    up: of those open before, none that an entry in use records. *)
Lemma fatal_accounts (msg : message) w :
  nb_sockets w <= Z.of_nat (length (listen_sockets w)) ->
  exists w',
    (Com_Printf MSG_ERROR msg ;;; Sys_CloseAllSockets ;;; ret false) w
    = Some (false, w')
    /\ nb_sockets w' = 0
    /\ forall x, x ∈ open_sockets (trace w') ->
                 x ∈ open_sockets (trace w) /\ ~ In x (recorded_sockets w).
Proof.
  intros Hnb. unfold bind at 1, Com_Printf, emit, modify.
  unfold bind at 1. rewrite Sys_CloseAllSockets_run by exact Hnb.
  eexists. split; [reflexivity|]. split; [reflexivity|].
  cbn [trace set_trace set_nb_sockets]. intros x Hx.
  apply open_sockets_closed in Hx as [Hin Hnot].
  rewrite open_sockets_snoc in Hin. auto.
Qed.

Lemma recorded_sockets_In w i x :
  (i <= Z.to_nat (nb_sockets w))%nat ->
  In x (map socket (take i (listen_sockets w))) ->
  x <> -1 ->
  In x (recorded_sockets w).
Proof.
  intros Hi Hx Hval. unfold recorded_sockets. apply filter_In. split.
  - apply in_map_iff in Hx as (e & <- & He). apply in_map.
    apply list_elem_of_In in He. apply list_elem_of_In.
    apply list_elem_of_lookup in He as [j Hj].
    apply lookup_take_Some in Hj as [Hj Hlt].
    apply (list_elem_of_lookup_2 _ j). rewrite lookup_take_lt by lia.
    exact Hj.
  - apply negb_true_iff, Z.eqb_neq, Hval.
Qed.

Lemma leak_bound w base i extra x :
  (i <= Z.to_nat (nb_sockets w))%nat ->
  x ∈ base ++ map socket (take i (listen_sockets w)) ++ extra ->
  x <> -1 ->
  ~ In x (recorded_sockets w) ->
  x ∈ base \/ x ∈ extra.
Proof.
  intros Hi Hx Hval Hnot.
  apply elem_of_app in Hx as [Hx|Hx]; [auto|].
  apply elem_of_app in Hx as [Hx|Hx]; [|auto].
  exfalso. apply Hnot. apply (recorded_sockets_In w i); [exact Hi| |exact Hval].
  apply list_elem_of_In, Hx.
Qed.

Lemma open_sockets_In_valid h x : x ∈ open_sockets h -> x <> -1.
Proof.
  intros Hx. pose proof (open_sockets_valid h) as Hv.
  rewrite Forall_forall in Hv. apply Hv, Hx.
Qed.

Lemma take_lookup_eq {A} (l1 l2 : list A) n :
  (forall j, (j < n)%nat -> l1 !! j = l2 !! j) -> take n l1 = take n l2.
Proof.
  intros H. apply list_eq. intros j. rewrite !lookup_take.
  destruct (decide (j < n)%nat); [apply H; assumption | reflexivity].
Qed.

Lemma create_sockets_loop_accounts os fuel :
  forall sock_ind w base,
    0 <= sock_ind <= nb_sockets w ->
    nb_sockets w <= Z.of_nat (length (listen_sockets w)) ->
    Z.of_nat (length (listen_sockets w)) < 2 ^ 32 ->
    (Z.to_nat (nb_sockets w - sock_ind) < fuel)%nat ->
    open_sockets (trace w)
    = base ++ map socket (take (Z.to_nat sock_ind) (listen_sockets w)) ->
    exists r w',
      create_sockets_loop os fuel sock_ind w = Some (r, w')
      /\ (r = true ->
          open_sockets (trace w')
          = base ++ map socket (take (Z.to_nat (nb_sockets w'))
                                  (listen_sockets w')))
      /\ (r = false ->
          nb_sockets w' = 0
          /\ exists leaked,
              (length leaked <= 1)%nat
              /\ forall x, x ∈ open_sockets (trace w') ->
                           x ∈ base \/ x ∈ leaked).
Proof.
  induction fuel as [|fuel IH]; intros sock_ind w base Hind Hnb Hcap Hfuel Hopen;
    [lia|].
  cbn [create_sockets_loop]. unfold bind at 1, gets at 1.
  destruct (Z.ltb_spec sock_ind (nb_sockets w)) as [Hlt|Hge]; cbn [negb].
  2:{ eexists _, _. split; [reflexivity|]. split; [|discriminate].
      intros _. replace (nb_sockets w) with sock_ind by lia. exact Hopen. }
  unfold bind at 1, read_socket.
  destruct (listen_sockets w !! Z.to_nat sock_ind) as [e|] eqn:He.
  2:{ apply lookup_ge_None in He. lia. }
  unfold bind at 1, sys_socket, syscall.
  set (crt_sock := os_socket os (trace w) _ _ _).
  set (w1 := set_trace _ w).
  assert (nb_sockets w1 = nb_sockets w) as Hnb1 by reflexivity.
  assert (listen_sockets w1 = listen_sockets w) as Htbl1 by reflexivity.
  assert (open_sockets (trace w1)
          = open_sockets (trace w)
              ++ (if crt_sock =? INVALID_SOCKET then [] else [crt_sock]))
    as Hopen1.
  { subst w1. cbn [trace set_trace]. rewrite open_sockets_snoc.
    cbn [track_socket]. destruct (crt_sock =? INVALID_SOCKET);
      [rewrite app_nil_r|]; reflexivity. }
  clearbody w1 crt_sock.
  destruct (crt_sock =? INVALID_SOCKET).
  - rewrite app_nil_r in Hopen1.
    unfold bind at 1, Sys_GetLastNetError, errno, gets.
    destruct (_ && _).
    + unfold bind at 1, Com_Printf, emit, modify.
      set (w2 := set_trace _ w1).
      assert (nb_sockets w2 = nb_sockets w) as Hnb2 by exact Hnb1.
      assert (listen_sockets w2 = listen_sockets w) as Htbl2 by exact Htbl1.
      assert (open_sockets (trace w2) = open_sockets (trace w)) as Hopen2.
      { subst w2. cbn [trace set_trace]. rewrite open_sockets_snoc.
        exact Hopen1. }
      clearbody w2. unfold bind at 1.
      assert (exists w3,
                 (if u32 (sock_ind + 1) <? nb_sockets w
                  then memmove_sockets sock_ind (sock_ind + 1)
                         (u32 (nb_sockets w - sock_ind - 2))
                  else ret ()) w2 = Some (tt, w3)
                 /\ nb_sockets w3 = nb_sockets w
                 /\ trace w3 = trace w2
                 /\ length (listen_sockets w3) = length (listen_sockets w)
                 /\ take (Z.to_nat sock_ind) (listen_sockets w3)
                    = take (Z.to_nat sock_ind) (listen_sockets w))
        as (w3 & -> & Hnb3 & Htr3 & Hlen3 & Htake3).
      { rewrite (u32_small (sock_ind + 1)) by lia.
        destruct (Z.ltb_spec (sock_ind + 1) (nb_sockets w)) as [Hmore|Hlast].
        - rewrite u32_small by lia. unfold memmove_sockets. rewrite Htbl2.
          destruct (Z.leb_spec (sock_ind + 1 + (nb_sockets w - sock_ind - 2))
                               (Z.of_nat (length (listen_sockets w)))); [|lia].
          destruct (Z.leb_spec (sock_ind + (nb_sockets w - sock_ind - 2))
                               (Z.of_nat (length (listen_sockets w)))); [|lia].
          cbn [andb]. eexists. split; [reflexivity|]. split; [exact Hnb2|].
          split; [reflexivity|].
          cbn [listen_sockets set_listen_sockets].
          split; [rewrite !length_app, !length_take, !length_drop; lia|].
          rewrite take_app_le by (rewrite length_take; lia).
          rewrite take_take. f_equal. lia.
        - exists w2. split; [reflexivity|]. rewrite Htbl2. auto. }
      unfold bind at 1, modify.
      rewrite (u32_small (nb_sockets w - 1)) by lia.
      rewrite u32_continue by lia.
      apply IH; cbn [nb_sockets set_nb_sockets listen_sockets trace]; try lia.
      rewrite Htr3, Hopen2, Htake3. exact Hopen.
    + destruct (fatal_accounts
                  (Err_socket_creation_failed (os_errno os (trace w1))) w1)
        as (w' & -> & Hzero & Hleft); [rewrite Hnb1, Htbl1; lia|].
      eexists _, _. split; [reflexivity|]. split; [discriminate|].
      intros _. split; [exact Hzero|]. exists []. split; [cbn; lia|].
      intros x Hx. destruct (Hleft x Hx) as [Hin Hnot].
      apply (leak_bound w1 base (Z.to_nat sock_ind) [] x);
        [rewrite Hnb1; lia | | eapply open_sockets_In_valid, Hin | exact Hnot].
      rewrite app_nil_r, Htbl1, <- Hopen, <- Hopen1. exact Hin.
  - unfold bind at 1.
    match goal with
    | |- context [(if ?c then sys_setsockopt ?o ?a ?b ?d ?f else ret 0) w1] =>
        assert (exists opt w2,
                   (if c then sys_setsockopt o a b d f else ret 0) w1
                   = Some (opt, w2)
                   /\ nb_sockets w2 = nb_sockets w
                   /\ listen_sockets w2 = listen_sockets w
                   /\ open_sockets (trace w2) = open_sockets (trace w1))
          as (opt & w2 & -> & Hnb2 & Htbl2 & Hopen2)
    end.
    { destruct (_ =? AF_INET6).
      - unfold sys_setsockopt, syscall. eexists _, _.
        split; [reflexivity|]. cbn [nb_sockets listen_sockets trace set_trace].
        rewrite open_sockets_snoc. auto.
      - eexists _, _. split; [reflexivity|]. auto. }
    destruct (opt =? 0); cbn [negb].
    2:{ unfold bind at 1, Sys_GetLastNetError, errno, gets.
        destruct (fatal_accounts
                    (Err_setsockopt_failed (os_errno os (trace w2))) w2)
          as (w' & -> & Hzero & Hleft); [rewrite Hnb2, Htbl2; lia|].
        eexists _, _. split; [reflexivity|]. split; [discriminate|].
        intros _. split; [exact Hzero|]. exists [crt_sock]. split; [cbn; lia|].
        intros x Hx. destruct (Hleft x Hx) as [Hin Hnot].
        apply (leak_bound w2 base (Z.to_nat sock_ind) [crt_sock] x);
          [rewrite Hnb2; lia | | eapply open_sockets_In_valid, Hin
          | exact Hnot].
        rewrite Htbl2, app_assoc, <- Hopen, <- Hopen1, <- Hopen2. exact Hin. }
    unfold bind at 1.
    destruct (Sys_SockaddrToString_keeps_sockets os (local_addr e)
                (local_addr_len e) w2)
      as (addr_str & w3 & -> & Hnb3 & Htbl3 & Hopen3).
    unfold bind at 1.
    match goal with
    | |- context [match local_addr_name e with _ => _ end w3] =>
        assert (exists w4,
                   match local_addr_name e with
                   | Some _ =>
                       Com_Printf MSG_NORMAL
                         (Msg_listening_on_address
                            (local_addr_name_no_port e) addr_str)
                   | None =>
                       Com_Printf MSG_NORMAL
                         (Msg_listening_on_all
                            (if ss_family (local_addr e) =? AF_INET6
                             then "IPv6" else "IPv4") addr_str)
                   end w3 = Some (tt, w4)
                   /\ nb_sockets w4 = nb_sockets w3
                   /\ listen_sockets w4 = listen_sockets w3
                   /\ open_sockets (trace w4) = open_sockets (trace w3))
          as (w4 & -> & Hnb4 & Htbl4 & Hopen4)
    end.
    { destruct (local_addr_name e); unfold Com_Printf, emit, modify;
        eexists; (split; [reflexivity|]);
        cbn [nb_sockets listen_sockets trace set_trace];
        rewrite open_sockets_snoc; auto. }
    unfold bind at 1, sys_bind, syscall.
    set (bound := os_bind os _ _ _ _).
    set (w5 := set_trace _ _).
    assert (nb_sockets w5 = nb_sockets w) as Hnb5
        by (subst w5; cbn [nb_sockets set_trace]; congruence).
    assert (listen_sockets w5 = listen_sockets w) as Htbl5
        by (subst w5; cbn [listen_sockets set_trace]; congruence).
    assert (open_sockets (trace w5) = open_sockets (trace w) ++ [crt_sock])
      as Hopen5.
    { subst w5. cbn [trace set_trace]. rewrite open_sockets_snoc.
      cbn [track_socket]. congruence. }
    clearbody w5 bound.
    destruct (bound =? 0); cbn [negb].
    2:{ unfold bind at 1, Sys_GetLastNetError, errno, gets.
        destruct (fatal_accounts
                    (Err_socket_binding_failed (os_errno os (trace w5))) w5)
          as (w' & -> & Hzero & Hleft); [rewrite Hnb5, Htbl5; lia|].
        eexists _, _. split; [reflexivity|]. split; [discriminate|].
        intros _. split; [exact Hzero|]. exists [crt_sock]. split; [cbn; lia|].
        intros x Hx. destruct (Hleft x Hx) as [Hin Hnot].
        apply (leak_bound w5 base (Z.to_nat sock_ind) [crt_sock] x);
          [rewrite Hnb5; lia | | eapply open_sockets_In_valid, Hin
          | exact Hnot].
        rewrite Htbl5, app_assoc, <- Hopen, <- Hopen5. exact Hin. }
    unfold bind at 1, update_socket. rewrite Htbl5, He.
    rewrite u32_small by lia.
    apply IH; cbn [nb_sockets set_listen_sockets listen_sockets trace];
      rewrite ?length_insert; try lia.
    rewrite Hopen5, Hopen, <- app_assoc. f_equal.
    replace (Z.to_nat (sock_ind + 1)) with (S (Z.to_nat sock_ind)) by lia.
    erewrite take_S_r
      by (apply list_lookup_insert_eq; apply lookup_lt_Some in He; exact He).
    rewrite take_insert_ge by lia. rewrite map_app. reflexivity.
Qed.

(** X7.  [Sys_CreateListenSockets] always returns.  On success the
    sockets it left open are exactly those recorded in the entries in use,
    in the order of the table.  On failure no entry is in use and, of the
    sockets the run created, at most one is left open. *)
Theorem Sys_CreateListenSockets_accounts_for_its_sockets os w :
  0 <= nb_sockets w <= Z.of_nat (length (listen_sockets w)) ->
  Z.of_nat (length (listen_sockets w)) < 2 ^ 32 ->
  exists r w',
    Sys_CreateListenSockets os w = Some (r, w')
    /\ (r = true ->
        open_sockets (trace w')
        = open_sockets (trace w)
            ++ map socket (take (Z.to_nat (nb_sockets w')) (listen_sockets w')))
    /\ (r = false ->
        nb_sockets w' = 0
        /\ exists leaked,
            (length leaked <= 1)%nat
            /\ forall x, x ∈ open_sockets (trace w') ->
                         x ∈ open_sockets (trace w) \/ x ∈ leaked).
Proof.
  intros Hnb Hcap. unfold Sys_CreateListenSockets, bind, gets.
  apply create_sockets_loop_accounts; try lia.
  cbn [Z.to_nat take map]. rewrite app_nil_r. reflexivity.
Qed.

(** ** The capacity of the socket table *)

Lemma resolve_loop_fits {A} (f : A -> option listen_socket_t)
    (err_of : A -> message -> Prop) (body : A -> M (option bool)) plan :
  resolves_one f err_of body ->
  forall w r w',
    0 <= nb_sockets w <= Z.of_nat (length (listen_sockets w)) ->
    Z.of_nat (length (listen_sockets w)) < 2 ^ 32 ->
    (forall i e, (Z.to_nat (nb_sockets w) <= i)%nat ->
                 listen_sockets w !! i = Some e -> e = listen_socket_zero) ->
    for_each plan body w = Some (r, w') ->
    nb_sockets w + Z.of_nat (length (resolved_prefix f plan))
    <= Z.of_nat (length (listen_sockets w)).
Proof.
  intros Hstep. induction plan as [|x plan IH]; intros w r w' Hnb Hcap Hzero Hrun.
  - simpl. lia.
  - simpl in Hrun. apply bind_Some in Hrun as (r1 & w1 & Hbody & Hrest).
    apply Hstep in Hbody; [|lia|].
    2:{ intros e He. eapply Hzero; [|exact He]. lia. }
    destruct Hbody as [(-> & Hf & _)|(-> & e & Hf & Hlt & Htbl & Hn & Htr)].
    + simpl. rewrite Hf. simpl. lia.
    + rewrite u32_small in Hn by lia.
      apply IH in Hrest.
      * simpl. rewrite Hf. simpl.
        rewrite Htbl, length_insert in Hrest. lia.
      * rewrite Htbl, length_insert. lia.
      * rewrite Htbl, length_insert. exact Hcap.
      * intros i e' Hi He'. rewrite Htbl, list_lookup_insert_ne in He' by lia.
        eapply Hzero; [|exact He']. lia.
Qed.

Lemma mapM_resolved_prefix {A} (f : A -> option listen_socket_t) plan es :
  mapM f plan = Some es -> length (resolved_prefix f plan) = length plan.
Proof.
  intros H. apply mapM_Some_1 in H.
  induction H as [|x e plan es Hx _ IH]; simpl; [reflexivity|].
  rewrite Hx. simpl. rewrite IH. reflexivity.
Qed.

(** X9.  [Sys_ResolveListenAddresses] does not check the capacity of the
    socket table.  With no declared address and fewer slots than two for
    each port, and with declared addresses that all resolve and fewer slots
    than one for each address and port, it writes past the end of the
    table. *)
Theorem Sys_ResolveListenAddresses_overruns_a_small_table os ports w :
  sockets_unused w ->
  Z.of_nat (length ports) < 2 ^ 32 ->
  (nb_addresses w = 0 ->
   (length (listen_sockets w) < 2 * length ports)%nat ->
   Sys_ResolveListenAddresses os ports w = None)
  /\ (forall names es,
        registry w = Some names -> names <> [] ->
        mapM (declared_entry os) (declared_plan names ports) = Some es ->
        (length (listen_sockets w) < length names * length ports)%nat ->
        Sys_ResolveListenAddresses os ports w = None).
Proof.
  intros (Hnb & Hcap & Hzero) Hports. split.
  - intros Hna Hsmall. unfold Sys_ResolveListenAddresses, bind, gets.
    rewrite Hna. change (0 =? 0) with true. cbv iota.
    unfold memset_sockets. rewrite u32_small by lia.
    destruct (Z.leb_spec (Z.of_nat (length [AF_INET; AF_INET6])
                          * Z.of_nat (length ports))
                         (Z.of_nat (length (listen_sockets w))));
      [cbn [length] in *; lia | reflexivity].
  - intros names es Hreg Hne Hall Hsmall.
    destruct (Sys_ResolveListenAddresses os ports w) as [[r w']|] eqn:Hrun;
      [exfalso | reflexivity].
    unfold registry in Hreg.
    destruct (_ <=? _) eqn:Hle in Hreg; [|discriminate].
    apply mapM_la_name in Hreg.
    assert ((nb_addresses w =? 0) = false) as Hna.
    { apply Z.eqb_neq. intros H0. rewrite H0 in Hreg. simpl in Hreg.
      destruct names; [congruence|discriminate]. }
    unfold Sys_ResolveListenAddresses in Hrun.
    apply bind_Some in Hrun as (nb & wg & Hg & Hrun).
    unfold gets in Hg. simplify_eq. rewrite Hna in Hrun.
    apply bind_Some in Hrun as (r1 & w1 & Hloop & Hret).
    apply bind_Some in Hloop as (addrs & w0 & Hdecl & Hfor).
    unfold declared_addresses in Hdecl. rewrite Hle in Hdecl. simplify_eq.
    rewrite Hreg, for_each_map in Hfor.
    pose proof (for_each_flat_map names ports
                  (fun p => resolve_declared os
                              {| la_local_addr_name := Some p.1 |} p.2))
      as Hflat.
    cbv beta iota delta [fst snd] in Hflat. rewrite Hflat in Hfor. clear Hflat.
    change (flat_map _ _) with (declared_plan names ports) in Hfor.
    apply (resolve_loop_fits _ _ _ _ (resolve_declared_one os)) in Hfor.
    + rewrite (mapM_resolved_prefix _ _ _ Hall), length_declared_plan in Hfor.
      lia.
    + lia.
    + exact Hcap.
    + intros i e _ He. apply list_elem_of_lookup_2 in He.
      rewrite Forall_forall in Hzero. apply Hzero, He.
Qed.

Lemma sample_host_resolver_fits euid supported in_use dev_null can_fork :
  resolver_fits (sample_host euid supported in_use dev_null can_fork).
Proof.
  intros node service hints err ai H. cbn in H. unfold sample_getaddrinfo in H.
  destruct (port_of_string service); [|discriminate].
  destruct node as [name|].
  - destruct (sample_hosts name) as [[fam host]|]; [|discriminate].
    destruct (_ || _); [|discriminate]. simplify_eq.
    cbn. destruct (_ =? _); unfold sizeof_sockaddr_storage; lia.
  - destruct (_ =? _); simplify_eq; cbn; unfold sizeof_sockaddr_storage; lia.
Qed.

Lemma Sys_ResolveListenAddresses_defined_witness :
  exists r w',
    Sys_ResolveListenAddresses dual_stack_host ["27900"; "27950"] two_declared
    = Some (r, w').
Proof.
  apply (Sys_ResolveListenAddresses_defined dual_stack_host
           ["27900"; "27950"] two_declared).
  - apply sample_host_resolver_fits.
  - split; [reflexivity|]. split; [reflexivity|].
    vm_compute. repeat constructor.
  - vm_compute. discriminate.
  - intros names Hnames. vm_compute in Hnames. simplify_eq. vm_compute.
    discriminate.
  - right. eexists. vm_compute. reflexivity.
Defined.

(** ** The security phases, together *)

(** X10.  Whatever [Sys_SecureInit] returns, no daemon request is left
    pending, and a second call succeeds without doing anything; when no
    daemon was requested the first call does nothing either. *)
Theorem Sys_SecureInit_acts_once os w r w' :
  Sys_SecureInit os w = Some (r, w') ->
  daemon_state w' <> DAEMON_STATE_REQUEST
  /\ Sys_SecureInit os w' = Some (true, w')
  /\ (daemon_state w <> DAEMON_STATE_REQUEST -> r = true /\ w' = w).
Proof.
  unfold Sys_SecureInit, sys_daemon, sys_dup2, sys_close, syscall, errno,
    Com_Printf, emit, assert, bind, gets, modify, ret.
  destruct (daemon_state w) eqn:Hds; cbn.
  2:{ destruct (os_daemon os (trace w) 0 1 =? 0); cbn.
      - destruct (null_device w =? -1); cbn; [discriminate|].
        intros H. simplify_eq. cbn. repeat split; congruence.
      - intros H. simplify_eq. cbn. repeat split; congruence. }
  all: intros H; simplify_eq; rewrite Hds; repeat split; congruence.
Qed.

(** [Sys_SecurityInit] always returns; it writes no global but
    [null_device], and that one only when a daemon was requested. *)
Lemma Sys_SecurityInit_frame os w :
  exists r w',
    Sys_SecurityInit os w = Some (r, w')
    /\ daemon_state w' = daemon_state w
    /\ jail_path w' = jail_path w
    /\ low_priv_user w' = low_priv_user w
    /\ nb_addresses w' = nb_addresses w
    /\ listen_addresses w' = listen_addresses w
    /\ nb_sockets w' = nb_sockets w
    /\ listen_sockets w' = listen_sockets w
    /\ (daemon_state w <> DAEMON_STATE_REQUEST -> null_device w' = null_device w)
    /\ (daemon_state w = DAEMON_STATE_REQUEST ->
        null_device w' = os_open os (trace w) "/dev/null" O_RDWR
        /\ (r = true -> null_device w' <> -1)).
Proof.
  run_security.
  destruct (daemon_state w) eqn:Hds; cbn.
  all: try match goal with
           | |- context [os_open ?o ?h ?p ?f =? -1] =>
               destruct (os_open o h p f =? -1) eqn:Hfd; cbn
           end.
  all: try match goal with
           | |- context [os_geteuid ?o =? 0] =>
               destruct (os_geteuid o =? 0) eqn:He; cbn
           end.
  all: try match goal with
           | |- context [os_getpwnam ?o ?u] =>
               destruct (os_getpwnam o u) as [pw|] eqn:Hpw; cbn
           end.
  all: try (name_answer os_chroot; destruct (r =? 0) eqn:Hr1; cbn).
  all: try (name_answer os_chdir; destruct (r0 =? 0) eqn:Hr2; cbn).
  all: try (name_answer os_setgid; destruct (r1 =? 0) eqn:Hr3; cbn).
  all: try (name_answer os_setuid; destruct (r2 =? 0) eqn:Hr4; cbn).
  all: try first [apply Z.eqb_eq in Hfd | apply Z.eqb_neq in Hfd].
  all: eexists _, _; (split; [reflexivity|]); cbn.
  all: repeat split; try congruence; try discriminate.
Qed.

(** X11.  After a successful [Sys_SecurityInit], [Sys_SecureInit] has a
    result: its assertion on the null device holds.  With a daemon
    requested, the descriptor it redirects the standard streams to and then
    closes is the one [Sys_SecurityInit] got for [/dev/null]; when
    [daemon] fails that descriptor is kept. *)
Theorem Sys_SecureInit_after_Sys_SecurityInit os w w1 :
  Sys_SecurityInit os w = Some (true, w1) ->
  exists r w2,
    Sys_SecureInit os w1 = Some (r, w2)
    /\ (daemon_state w <> DAEMON_STATE_REQUEST -> r = true /\ w2 = w1)
    /\ (daemon_state w = DAEMON_STATE_REQUEST ->
        let fd := os_open os (trace w) "/dev/null" O_RDWR in
        fd <> -1
        /\ (r = true ->
            daemon_state w2 = DAEMON_STATE_EFFECTIVE
            /\ null_device w2 = -1
            /\ trace w2 =
               trace w1 ++ [Call_daemon 0 1 0;
                            Call_dup2 fd STDIN_FILENO;
                            Call_dup2 fd STDOUT_FILENO;
                            Call_dup2 fd STDERR_FILENO;
                            Call_close fd])
        /\ (r = false ->
            daemon_state w2 = DAEMON_STATE_NO /\ null_device w2 = fd)).
Proof.
  intros Hrun.
  destruct (Sys_SecurityInit_frame os w)
    as (r & w' & Hrun' & Hds & _ & _ & _ & _ & _ & _ & Hkeep & Hnull).
  rewrite Hrun in Hrun'. simplify_eq.
  unfold Sys_SecureInit, sys_daemon, sys_dup2, sys_close, syscall, errno,
    Com_Printf, emit, assert, bind, gets, modify, ret.
  rewrite Hds. destruct (daemon_state w) eqn:Hw; cbn.
  2:{ destruct (Hnull eq_refl) as [Hfd Hok]. specialize (Hok eq_refl).
      destruct (os_daemon os (trace w') 0 1 =? 0) eqn:Hd; cbn.
      - apply Z.eqb_neq in Hok. rewrite Hok. cbn.
        eexists _, _. split; [reflexivity|]. cbn.
        apply Z.eqb_neq in Hok. apply Z.eqb_eq in Hd.
        rewrite <- Hfd, <- ?app_assoc, Hd.
        repeat split; try congruence; try discriminate.
      - eexists _, _. split; [reflexivity|]. cbn.
        rewrite <- Hfd. repeat split; try congruence; try discriminate. }
  all: eexists _, _; (split; [reflexivity|]);
    repeat split; try congruence; try discriminate.
Qed.

(** X12.  After the options [--user] and [--jail-path], [Sys_SecurityInit]
    opens nothing but [/dev/null], looks up no account but the one named,
    changes root to no directory but the jail, and takes no identity but
    that of the account; as the superuser it succeeds only after the
    lookup, [chroot] to the jail, [chdir] to its root, [setgid] and
    [setuid] to the account's ids, each successful, in that order. *)
Theorem privilege_drop_uses_the_configured_account os user jail w :
  exists r w' evs,
    Sys_SecurityInit os (configured user jail w) = Some (r, w')
    /\ trace w' = trace w ++ evs
    /\ forallb (drop_call os user jail) evs = true
    /\ (os_geteuid os = 0 -> r = true ->
        exists pw,
          os_getpwnam os user = Some pw
          /\ List.filter is_priv_step evs
             = [Call_getpwnam user (Some pw); Call_chroot jail 0;
                Call_chdir "/" 0; Call_setgid (pw_gid pw) 0;
                Call_setuid (pw_uid pw) 0]).
Proof.
  unfold configured, after. cbn.
  run_security.
  destruct (daemon_state w) eqn:Hds; cbn.
  all: try match goal with
           | |- context [os_open ?o ?h ?p ?f =? -1] =>
               destruct (os_open o h p f =? -1) eqn:Hfd; cbn
           end.
  all: try match goal with
           | |- context [os_geteuid ?o =? 0] =>
               destruct (os_geteuid o =? 0) eqn:He; cbn
           end.
  all: try match goal with
           | |- context [os_getpwnam ?o ?u] =>
               destruct (os_getpwnam o u) as [pw|] eqn:Hpw; cbn
           end.
  all: try (name_answer os_chroot; destruct (r =? 0) eqn:Hr1; cbn).
  all: try (name_answer os_chdir; destruct (r0 =? 0) eqn:Hr2; cbn).
  all: try (name_answer os_setgid; destruct (r1 =? 0) eqn:Hr3; cbn).
  all: try (name_answer os_setuid; destruct (r2 =? 0) eqn:Hr4; cbn).
  all: try first [apply Z.eqb_eq in Hfd | apply Z.eqb_neq in Hfd].
  all: eexists _, _, _; (split; [reflexivity|]).
  all: (split; [cbn [trace set_trace set_null_device set_jail_path
                      set_low_priv_user];
                rewrite <- ?app_assoc; reflexivity|]).
  all: cbn [forallb drop_call app];
    rewrite ?Hpw, ?String.eqb_refl, ?Z.eqb_refl; cbn [andb].
  all: (split; [reflexivity|]).
  all: intros He' Hr'; try discriminate;
    try (apply Z.eqb_neq in He; contradiction).
  all: exists pw; (split; [reflexivity|]).
  all: apply Z.eqb_eq in Hr1, Hr2, Hr3, Hr4; subst; reflexivity.
Qed.

(** ** From the declarations to the sockets *)

Lemma resolve_loop_all {A} (f : A -> option listen_socket_t)
    (err_of : A -> message -> Prop) (body : A -> M (option bool)) plan :
  resolves_one f err_of body ->
  resolves_one_defined body ->
  forall w es,
    0 <= nb_sockets w ->
    nb_sockets w + Z.of_nat (length plan) <= Z.of_nat (length (listen_sockets w)) ->
    Z.of_nat (length (listen_sockets w)) < 2 ^ 32 ->
    (forall i e, (Z.to_nat (nb_sockets w) <= i)%nat ->
                 listen_sockets w !! i = Some e -> e = listen_socket_zero) ->
    mapM f plan = Some es ->
    exists w',
      for_each plan body w = Some (None, w')
      /\ nb_sockets w' = nb_sockets w + Z.of_nat (length plan)
      /\ listen_sockets w'
         = take (Z.to_nat (nb_sockets w)) (listen_sockets w) ++ es
             ++ drop (Z.to_nat (nb_sockets w) + length plan) (listen_sockets w)
      /\ trace w' = trace w.
Proof.
  intros Hstep Hdef w es Hnb Hroom Hcap Hzero Hall.
  apply mapM_Some_1 in Hall. revert w Hnb Hroom Hcap Hzero.
  induction Hall as [|x e plan es Hf _ IH]; intros w Hnb Hroom Hcap Hzero.
  - exists w. cbn [for_each length app].
    split; [reflexivity|]. split; [lia|]. split; [|reflexivity].
    rewrite Nat.add_0_r, take_drop. reflexivity.
  - cbn [length] in Hroom |- *.
    destruct (Hdef x w) as (r & w1 & Hbody & _); [lia|].
    cbn [for_each]. unfold bind at 1. rewrite Hbody.
    destruct (Hstep x w r w1) as [(_ & Hnone & _)
                                 |(-> & e' & Hf' & Hlt & Htbl & Hn & Htr)];
      [lia
      | intros e0 He0; apply (Hzero (Z.to_nat (nb_sockets w)) e0);
          [lia | exact He0]
      | exact Hbody | congruence |].
    rewrite Hf in Hf'. simplify_eq.
    rewrite u32_small in Hn by lia.
    assert (0 <= nb_sockets w1) as Hnb1 by lia.
    assert (nb_sockets w1 + Z.of_nat (length plan)
            <= Z.of_nat (length (listen_sockets w1))) as Hroom1
      by (rewrite Hn, Htbl, length_insert; lia).
    assert (Z.of_nat (length (listen_sockets w1)) < 2 ^ 32) as Hcap1
      by (rewrite Htbl, length_insert; exact Hcap).
    assert (forall i e, (Z.to_nat (nb_sockets w1) <= i)%nat ->
              listen_sockets w1 !! i = Some e -> e = listen_socket_zero)
      as Hzero1.
    { intros i e0 Hi He0. rewrite Htbl, list_lookup_insert_ne in He0 by lia.
      apply (Hzero i); [lia | exact He0]. }
    destruct (IH w1 Hnb1 Hroom1 Hcap1 Hzero1) as (w' & Hrun & Hn' & Htbl' & Htr').
    exists w'. split; [exact Hrun|]. split; [lia|]. split; [|congruence].
    rewrite Htbl', Hn, Htbl.
    replace (Z.to_nat (nb_sockets w + 1)) with (S (Z.to_nat (nb_sockets w)))
      by lia.
    erewrite take_S_r by (apply list_lookup_insert_eq; exact Hlt).
    rewrite take_insert_ge by lia. rewrite drop_insert_lt by lia.
    rewrite <- app_assoc. cbn [app length].
    replace (S (Z.to_nat (nb_sockets w)) + length plan)%nat
      with (Z.to_nat (nb_sockets w) + S (length plan))%nat by lia.
    reflexivity.
Qed.

(** X13.  On a host whose resolver returns addresses that fit a
    [struct sockaddr_storage], that refuses neither option nor binding and
    supports the family of every resolved address, when every declared
    (address, port) pair resolves, the registry has room for the addresses
    [names] and the socket table a slot for each pair, then from the start
    of the process, once the addresses have been declared in order, the
    resolution for [ports] and then the creation of the sockets both
    succeed: the entries in use are those of the plan, in order, each with
    a valid socket, and the sockets open at the end are exactly those the
    entries record. *)
Theorem declared_addresses_get_their_sockets os names ports
    max_addresses max_sockets es :
  resolver_fits os ->
  never_refuses os ->
  names <> [] ->
  (length names <= max_addresses)%nat ->
  Z.of_nat max_addresses < 2 ^ 32 ->
  (length names * length ports <= max_sockets)%nat ->
  Z.of_nat max_sockets < 2 ^ 32 ->
  mapM (declared_entry os) (declared_plan names ports) = Some es ->
  Forall (fun e => supports os (ss_family (local_addr e))) es ->
  exists w1 w2,
    Sys_ResolveListenAddresses os ports
      (declare_each names (startup max_addresses max_sockets))
    = Some (true, w1)
    /\ Sys_CreateListenSockets os w1 = Some (true, w2)
    /\ nb_sockets w2 = Z.of_nat (length es)
    /\ Forall2 (fun e e' =>
                  socket e' <> INVALID_SOCKET /\ e' = set_socket (socket e') e)
         es (take (length es) (listen_sockets w2))
    /\ open_sockets (trace w2)
       = map socket (take (length es) (listen_sockets w2)).
Proof.
  intros Hfit Hos Hne Hnames Hacap Hroom Hscap Hall Hsup.
  set (w0 := declare_each names (startup max_addresses max_sockets)).
  destruct (declare_each_registry names (startup max_addresses max_sockets) [])
    as (Hreg & _ & Htr & Hns & Htbl).
  { unfold registry. cbn. destruct max_addresses; reflexivity. }
  { cbn. lia. }
  { cbn. rewrite length_replicate. exact Hacap. }
  fold w0 in Hreg, Htr, Hns, Htbl.
  cbn [startup listen_addresses listen_sockets nb_sockets trace app] in *.
  rewrite length_replicate in *. rewrite take_ge in Hreg by lia.
  replace (length names - max_addresses)%nat with 0%nat in Htr by lia.
  cbn [replicate] in Htr.
  pose proof (length_mapM _ _ _ Hall) as Hlen.
  rewrite length_declared_plan in Hlen.
  (* the resolution *)
  assert (exists w1,
             Sys_ResolveListenAddresses os ports w0 = Some (true, w1)
             /\ nb_sockets w1 = Z.of_nat (length es)
             /\ listen_sockets w1
                = es ++ drop (length es)
                          (replicate max_sockets listen_socket_zero)
             /\ trace w1 = [])
    as (w1 & Hres & Hnb1 & Htbl1 & Htr1).
  { unfold registry in Hreg.
    destruct (_ <=? _) eqn:Hle in Hreg; [|discriminate].
    apply mapM_la_name in Hreg.
    assert ((nb_addresses w0 =? 0) = false) as Hna.
    { apply Z.eqb_neq. intros H0. rewrite H0 in Hreg. cbn in Hreg.
      destruct names; [congruence|discriminate]. }
    unfold Sys_ResolveListenAddresses. unfold bind at 1, gets. rewrite Hna.
    unfold bind at 1. unfold bind at 1, declared_addresses. rewrite Hle.
    rewrite Hreg, for_each_map.
    rewrite (for_each_flat_map names ports
               (fun p => resolve_declared os
                           {| la_local_addr_name := Some p.1 |} p.2)).
    change (flat_map _ _) with (declared_plan names ports).
    assert (resolves_one_defined
              (fun p : string * string =>
                 resolve_declared os {| la_local_addr_name := Some p.1 |} p.2))
      as Hdef
      by (intros [name port]; apply (resolve_declared_defined os name Hfit)).
    destruct (resolve_loop_all _ _ _ (declared_plan names ports)
                (resolve_declared_one os) Hdef w0 es)
      as (w1 & -> & Hnb1 & Htbl1 & Htr1).
    - lia.
    - rewrite Hns, Htbl, length_replicate, length_declared_plan. lia.
    - rewrite Htbl, length_replicate. exact Hscap.
    - intros i e _ He. rewrite Htbl in He.
      apply lookup_replicate in He as [-> _]. reflexivity.
    - exact Hall.
    - exists w1. split; [reflexivity|].
      rewrite Hns, Htbl in *. cbn [Z.to_nat take app Nat.add] in Htbl1.
      rewrite length_declared_plan in *. rewrite <- Hlen.
      split; [lia|]. split; [exact Htbl1 | congruence]. }
  (* the creation *)
  assert (length (listen_sockets w1) = max_sockets) as Hlen1.
  { rewrite Htbl1, length_app, length_drop, length_replicate. lia. }
  destruct (create_sockets_loop_head_tail os (length es)
              (S (Z.to_nat (nb_sockets w1))) 0 w1)
    as (w2 & Hrun & Hk & Hlen2 & _ & Hmid & Hopen);
    try exact Hos; try lia.
  { intros j e Hj He. rewrite Htbl1, lookup_app_l in He by lia.
    rewrite Forall_forall in Hsup. apply Hsup.
    apply (list_elem_of_lookup_2 _ j), He. }
  exists w1, w2. split; [exact Hres|]. split.
  { unfold Sys_CreateListenSockets, bind, gets. exact Hrun. }
  split; [exact Hk|]. split.
  - apply Forall2_same_length_lookup_2.
    + rewrite length_take. lia.
    + intros i e e' He He'. apply lookup_take_Some in He' as [He' Hi].
      destruct (Hmid i e) as (fd & Hfd & Hset); [lia| |].
      { rewrite Htbl1. apply lookup_app_l_Some, He. }
      rewrite Hset in He'. simplify_eq. cbn. split; [exact Hfd|].
      destruct e; reflexivity.
  - rewrite Hopen, Htr1, Nat.sub_0_r. reflexivity.
Qed.

Lemma wildcard_plan_lookup ports j p :
  wildcard_plan ports !! j = Some p ->
  p.1 = (if decide (j < length ports)%nat then AF_INET else AF_INET6)
  /\ (j < 2 * length ports)%nat.
Proof.
  unfold wildcard_plan. cbn [flat_map]. rewrite app_nil_r. intros Hp.
  apply lookup_app_Some in Hp as [Hp|[Hge Hp]].
  - apply list_lookup_fmap_Some in Hp as (port & -> & Hport).
    apply lookup_lt_Some in Hport. destruct (decide _); [|lia].
    split; [reflexivity | lia].
  - rewrite length_map in Hge, Hp.
    apply list_lookup_fmap_Some in Hp as (port & -> & Hport).
    apply lookup_lt_Some in Hport. destruct (decide _); [lia|].
    split; [reflexivity | lia].
Qed.

(** X14.  With no declared address and the socket table as the process
    starts with it, with two slots for each port, on a host whose resolver
    answers every wildcard lookup of the plan with an address of the family
    asked for that fits a [struct sockaddr_storage], that refuses neither
    option nor binding, supports IPv4 and either supports or lacks IPv6,
    the resolution for [ports] followed by the creation of the sockets
    succeeds: with IPv6 every entry of the plan stays in use, without it
    the IPv4 entries do, one for each port; each has a valid socket, and
    the sockets the run left open are exactly those the entries record. *)
Theorem wildcard_addresses_get_their_sockets os ports w es :
  resolver_fits os ->
  honours_hint os ->
  never_refuses os ->
  supports os AF_INET ->
  supports os AF_INET6 \/ lacks os AF_INET6 ->
  nb_addresses w = 0 ->
  sockets_unused w ->
  (2 * length ports <= length (listen_sockets w))%nat ->
  mapM (wildcard_entry os) (wildcard_plan ports) = Some es ->
  exists w1 w2 k,
    Sys_ResolveListenAddresses os ports w = Some (true, w1)
    /\ Sys_CreateListenSockets os w1 = Some (true, w2)
    /\ (supports os AF_INET6 /\ k = (2 * length ports)%nat
        \/ lacks os AF_INET6 /\ k = length ports)
    /\ nb_sockets w2 = Z.of_nat k
    /\ Forall2 (fun e e' =>
                  socket e' <> INVALID_SOCKET /\ e' = set_socket (socket e') e)
         (take k es) (take k (listen_sockets w2))
    /\ open_sockets (trace w2)
       = open_sockets (trace w) ++ map socket (take k (listen_sockets w2)).
Proof.
  intros Hfit Hhint Hos Hv4 Hv6 Hna (Hnb & Hcap & Hzero) Hroom Hall.
  pose proof (length_mapM _ _ _ Hall) as Hlen.
  rewrite length_wildcard_plan in Hlen.
  (* the resolution *)
  assert (exists w1,
             Sys_ResolveListenAddresses os ports w = Some (true, w1)
             /\ nb_sockets w1 = Z.of_nat (length es)
             /\ length (listen_sockets w1) = length (listen_sockets w)
             /\ take (length es) (listen_sockets w1) = es
             /\ trace w1 = trace w)
    as (w1 & Hres & Hnb1 & Hlen1 & Htbl1 & Htr1).
  { unfold Sys_ResolveListenAddresses. unfold bind at 1, gets. rewrite Hna.
    change (0 =? 0) with true. cbv iota.
    unfold bind at 1. unfold bind at 1, memset_sockets.
    rewrite u32_small by lia.
    destruct (Z.leb_spec (Z.of_nat (length [AF_INET; AF_INET6])
                          * Z.of_nat (length ports))
                         (Z.of_nat (length (listen_sockets w))));
      [|cbn [length] in *; lia].
    rewrite (for_each_flat_map [AF_INET; AF_INET6] ports
               (fun p => resolve_wildcard os p.1 p.2)).
    change (flat_map _ _) with (wildcard_plan ports).
    assert (resolves_one_defined
              (fun p : Z * string => resolve_wildcard os p.1 p.2)) as Hdef
      by (intros [fam port]; apply (resolve_wildcard_defined os fam Hfit)).
    match goal with
    | |- context [for_each _ _ ?wm] =>
        destruct (resolve_loop_all _ _ _ (wildcard_plan ports)
                    (resolve_wildcard_one os) Hdef wm es)
          as (w1 & -> & Hnb1 & Htbl1 & Htr1)
    end.
    - cbn [nb_sockets set_listen_sockets]. lia.
    - cbn [nb_sockets listen_sockets set_listen_sockets].
      rewrite length_wildcard_plan, length_app, length_replicate, length_drop.
      cbn [length] in *. lia.
    - cbn [listen_sockets set_listen_sockets].
      rewrite length_app, length_replicate, length_drop.
      cbn [length] in *. lia.
    - cbn [nb_sockets listen_sockets set_listen_sockets].
      intros i e _ He. apply list_elem_of_lookup_2 in He.
      apply elem_of_app in He as [He|He].
      + apply elem_of_replicate in He as [-> _]. reflexivity.
      + rewrite Forall_forall in Hzero. apply Hzero.
        eapply subseteq_drop, He.
    - exact Hall.
    - exists w1. split; [reflexivity|].
      cbn [nb_sockets listen_sockets set_listen_sockets trace] in *.
      rewrite Hnb in *. change (Z.to_nat 0) with 0%nat in *.
      rewrite take_0 in Htbl1. cbn [app Nat.add] in Htbl1.
      rewrite length_wildcard_plan in *.
      split; [lia|]. split; [|split; [|exact Htr1]].
      + rewrite Htbl1.
        repeat (rewrite length_app || rewrite length_drop
                || rewrite length_replicate).
        cbn [length] in *. lia.
      + rewrite Htbl1, take_app_length. reflexivity. }
  (* the entries, by family *)
  assert (forall j e, listen_sockets w1 !! j = Some e ->
            (j < length es)%nat ->
            optional e = true
            /\ ss_family (local_addr e)
               = if decide (j < length ports)%nat then AF_INET else AF_INET6)
    as Hentry.
  { intros j e He Hj.
    assert (es !! j = Some e) as Hes
      by (rewrite <- Htbl1; apply lookup_take_Some; auto).
    apply mapM_Some_1 in Hall.
    destruct (Forall2_lookup_r _ _ _ _ _ Hall Hes) as ([fam port] & Hp & Hw).
    apply wildcard_plan_lookup in Hp as [Hfam _]. cbn [fst] in Hfam.
    split.
    - unfold wildcard_entry in Hw. destruct (lookup_address _ _ _ _);
        simplify_eq. reflexivity.
    - rewrite <- Hfam. apply (Hhint fam port); [|exact Hw].
      rewrite Hfam. destruct (decide _); auto. }
  assert (exists k,
             (supports os AF_INET6 /\ k = (2 * length ports)%nat
              \/ lacks os AF_INET6 /\ k = length ports)
             /\ (k <= length es)%nat
             /\ (forall j e, (j < k)%nat -> listen_sockets w1 !! j = Some e ->
                   supports os (ss_family (local_addr e)))
             /\ (forall j e, (k <= j < length es)%nat ->
                   listen_sockets w1 !! j = Some e ->
                   optional e = true /\ lacks os (ss_family (local_addr e))))
    as (k & Hk & Hkle & Hhead & Htail).
  { destruct Hv6 as [Hv6|Hv6].
    - exists (2 * length ports)%nat. split; [auto|]. split; [lia|]. split.
      + intros j e Hj He. destruct (Hentry j e He) as [_ ->]; [lia|].
        destruct (decide _); assumption.
      + intros; lia.
    - exists (length ports). split; [auto|]. split; [lia|]. split.
      + intros j e Hj He. destruct (Hentry j e He) as [_ ->]; [lia|].
        destruct (decide _); [assumption | lia].
      + intros j e Hj He. destruct (Hentry j e He) as [Hopt ->]; [lia|].
        destruct (decide _); [lia | auto]. }
  (* the creation *)
  assert (length es <= length (listen_sockets w1))%nat as Hfits
    by (rewrite <- Htbl1 at 1; rewrite length_take; lia).
  destruct (create_sockets_loop_head_tail os k
              (S (Z.to_nat (nb_sockets w1))) 0 w1)
    as (w2 & Hrun & Hnb2 & Hlen2 & _ & Hmid & Hopen);
    try exact Hos; try lia.
  { intros j e Hj. apply Hhead. lia. }
  { intros j e Hj. apply Htail. lia. }
  exists w1, w2, k. split; [exact Hres|]. split.
  { unfold Sys_CreateListenSockets, bind, gets. exact Hrun. }
  split; [exact Hk|]. split; [exact Hnb2|]. split.
  - apply Forall2_same_length_lookup_2.
    + rewrite !length_take. lia.
    + intros i e e' He He'.
      apply lookup_take_Some in He as [He Hi].
      apply lookup_take_Some in He' as [He' _].
      destruct (Hmid i e) as (fd & Hfd & Hset); [lia| |].
      { rewrite <- Htbl1 in He. apply lookup_take_Some in He as [He _].
        exact He. }
      rewrite Hset in He'. simplify_eq. cbn. split; [exact Hfd|].
      destruct e; reflexivity.
  - rewrite Hopen, Htr1, Nat.sub_0_r. reflexivity.
Qed.


(** ** The sample hosts, again *)

Lemma descriptors_nonneg h : 0 <= descriptors h.
Proof.
  induction h as [|e h IH]; cbn [descriptors]; [lia|].
  destruct e; try exact IH; destruct (_ =? -1); lia.
Qed.

Lemma sample_host_never_refuses euid supported dev_null can_fork :
  never_refuses (sample_host euid supported (fun _ => false) dev_null can_fork).
Proof. split; reflexivity. Qed.

Lemma sample_host_supports euid supported in_use dev_null can_fork af :
  supported af = true ->
  supports (sample_host euid supported in_use dev_null can_fork) af.
Proof.
  intros Hs h. cbn. rewrite Hs. pose proof (descriptors_nonneg h).
  unfold INVALID_SOCKET. lia.
Qed.

Lemma sample_host_lacks euid supported in_use dev_null can_fork af :
  supported af = false ->
  lacks (sample_host euid supported in_use dev_null can_fork) af.
Proof.
  intros Hs h. cbn. rewrite Hs. split; [reflexivity|].
  unfold sample_errno. rewrite last_snoc. reflexivity.
Qed.

Lemma Sys_CreateListenSockets_keeps_the_supported_witness :
  exists w',
    Sys_CreateListenSockets ipv4_only_host ipv4_only_resolved = Some (true, w')
    /\ nb_sockets w' = Z.of_nat 2
    /\ length (listen_sockets w') = length (listen_sockets ipv4_only_resolved)
    /\ forall j e, (j < 2)%nat ->
         listen_sockets ipv4_only_resolved !! j = Some e ->
         exists fd, fd <> INVALID_SOCKET
                    /\ listen_sockets w' !! j = Some (set_socket fd e).
Proof.
  apply (Sys_CreateListenSockets_keeps_the_supported ipv4_only_host 2
           ipv4_only_resolved).
  - apply sample_host_never_refuses.
  - vm_compute. split; discriminate.
  - reflexivity.
  - intros [|[|j]] e Hj He; [| |lia]; vm_compute in He; simplify_eq;
      apply sample_host_supports; reflexivity.
  - intros [|[|[|[|j]]]] e Hj He; try (vm_compute in Hj; lia);
      vm_compute in He; simplify_eq;
      (split; [reflexivity | apply sample_host_lacks; reflexivity]).
Defined.

Lemma Sys_CreateListenSockets_accounts_for_its_sockets_witness :
  exists r w',
    Sys_CreateListenSockets busy_port_host busy_port_resolved = Some (r, w')
    /\ (r = true ->
        open_sockets (trace w')
        = open_sockets (trace busy_port_resolved)
            ++ map socket (take (Z.to_nat (nb_sockets w')) (listen_sockets w')))
    /\ (r = false ->
        nb_sockets w' = 0
        /\ exists leaked,
            (length leaked <= 1)%nat
            /\ forall x, x ∈ open_sockets (trace w') ->
                         x ∈ open_sockets (trace busy_port_resolved)
                         \/ x ∈ leaked).
Proof.
  apply (Sys_CreateListenSockets_accounts_for_its_sockets busy_port_host
           busy_port_resolved).
  - vm_compute. split; discriminate.
  - reflexivity.
Defined.

Lemma Sys_CloseAllSockets_closes_recorded_witness :
  exists w',
    Sys_CloseAllSockets listening = Some (tt, w')
    /\ trace w' = trace listening ++ map Call_close (recorded_sockets listening)
    /\ nb_sockets w' = 0
    /\ listen_sockets w' = listen_sockets listening
    /\ forall e,
        e ∈ take (Z.to_nat (nb_sockets listening)) (listen_sockets listening) ->
        socket e ∉ open_sockets (trace w').
Proof.
  apply (Sys_CloseAllSockets_closes_recorded listening).
  vm_compute. discriminate.
Defined.

Lemma Sys_SecureInit_acts_once_witness :
  daemon_state daemonized <> DAEMON_STATE_REQUEST
  /\ Sys_SecureInit dual_stack_host daemonized = Some (true, daemonized)
  /\ (daemon_state daemon_secured <> DAEMON_STATE_REQUEST ->
      true = true /\ daemonized = daemon_secured).
Proof.
  apply (Sys_SecureInit_acts_once dual_stack_host daemon_secured true daemonized).
  vm_compute. reflexivity.
Defined.

Lemma Sys_SecureInit_after_Sys_SecurityInit_witness :
  exists r w2,
    Sys_SecureInit dual_stack_host daemon_secured = Some (r, w2)
    /\ (daemon_state daemon_requested <> DAEMON_STATE_REQUEST ->
        r = true /\ w2 = daemon_secured)
    /\ (daemon_state daemon_requested = DAEMON_STATE_REQUEST ->
        let fd := os_open dual_stack_host (trace daemon_requested)
                    "/dev/null" O_RDWR in
        fd <> -1
        /\ (r = true ->
            daemon_state w2 = DAEMON_STATE_EFFECTIVE
            /\ null_device w2 = -1
            /\ trace w2 =
               trace daemon_secured ++ [Call_daemon 0 1 0;
                                        Call_dup2 fd STDIN_FILENO;
                                        Call_dup2 fd STDOUT_FILENO;
                                        Call_dup2 fd STDERR_FILENO;
                                        Call_close fd])
        /\ (r = false ->
            daemon_state w2 = DAEMON_STATE_NO /\ null_device w2 = fd)).
Proof.
  apply (Sys_SecureInit_after_Sys_SecurityInit dual_stack_host
           daemon_requested daemon_secured).
  vm_compute. reflexivity.
Defined.

Lemma two_declared_small_table_unused : sockets_unused two_declared_small_table.
Proof.
  split; [reflexivity|]. split; [reflexivity|].
  vm_compute. repeat constructor.
Qed.

Lemma Sys_ResolveListenAddresses_overruns_a_small_table_witness :
  Sys_ResolveListenAddresses dual_stack_host ["27900"; "27950"] (startup 8 3)
  = None
  /\ Sys_ResolveListenAddresses dual_stack_host ["27900"; "27950"]
       two_declared_small_table
     = None.
Proof.
  split.
  - apply (proj1 (Sys_ResolveListenAddresses_overruns_a_small_table
                    dual_stack_host ["27900"; "27950"] (startup 8 3)
                    (startup_sockets_unused 8 3 eq_refl) eq_refl));
      [reflexivity | vm_compute; lia].
  - apply (proj2 (Sys_ResolveListenAddresses_overruns_a_small_table
                    dual_stack_host ["27900"; "27950"] two_declared_small_table
                    two_declared_small_table_unused eq_refl)
             ["example.com:27901"; "[::1]:27900"]
             (resolved_prefix (declared_entry dual_stack_host)
                (declared_plan ["example.com:27901"; "[::1]:27900"]
                   ["27900"; "27950"])));
      [vm_compute; reflexivity | discriminate | vm_compute; reflexivity
      | vm_compute; lia].
Defined.

Lemma declared_addresses_get_their_sockets_witness :
  exists w1 w2,
    Sys_ResolveListenAddresses dual_stack_host ["27900"; "27950"]
      (declare_each ["example.com:27901"; "[::1]:27900"] (startup 8 16))
    = Some (true, w1)
    /\ Sys_CreateListenSockets dual_stack_host w1 = Some (true, w2)
    /\ nb_sockets w2 = Z.of_nat (length declared_entries)
    /\ Forall2 (fun e e' =>
                  socket e' <> INVALID_SOCKET /\ e' = set_socket (socket e') e)
         declared_entries
         (take (length declared_entries) (listen_sockets w2))
    /\ open_sockets (trace w2)
       = map socket (take (length declared_entries) (listen_sockets w2)).
Proof.
  apply (declared_addresses_get_their_sockets dual_stack_host
           ["example.com:27901"; "[::1]:27900"] ["27900"; "27950"] 8 16
           declared_entries).
  - apply sample_host_resolver_fits.
  - apply sample_host_never_refuses.
  - discriminate.
  - vm_compute. lia.
  - reflexivity.
  - vm_compute. lia.
  - reflexivity.
  - vm_compute. reflexivity.
  - apply Forall_forall. intros e _. apply sample_host_supports. reflexivity.
Defined.

Lemma sample_host_honours_hint euid supported in_use dev_null can_fork :
  honours_hint (sample_host euid supported in_use dev_null can_fork).
Proof.
  intros fam port e Hfam He. unfold wildcard_entry, lookup_address in He.
  cbn in He. unfold sample_getaddrinfo in He.
  destruct (port_of_string port); [|discriminate].
  destruct Hfam as [-> | ->]; cbn in He; simplify_eq; reflexivity.
Qed.

Lemma wildcard_addresses_get_their_sockets_witness :
  exists w1 w2 k,
    Sys_ResolveListenAddresses ipv4_only_host ["27900"; "27950"] (startup 8 16)
    = Some (true, w1)
    /\ Sys_CreateListenSockets ipv4_only_host w1 = Some (true, w2)
    /\ (supports ipv4_only_host AF_INET6
        /\ k = (2 * length ["27900"; "27950"])%nat
        \/ lacks ipv4_only_host AF_INET6 /\ k = length ["27900"; "27950"])
    /\ nb_sockets w2 = Z.of_nat k
    /\ Forall2 (fun e e' =>
                  socket e' <> INVALID_SOCKET /\ e' = set_socket (socket e') e)
         (take k wildcard_entries) (take k (listen_sockets w2))
    /\ open_sockets (trace w2)
       = open_sockets (trace (startup 8 16))
           ++ map socket (take k (listen_sockets w2)).
Proof.
  apply (wildcard_addresses_get_their_sockets ipv4_only_host
           ["27900"; "27950"] (startup 8 16) wildcard_entries).
  - apply sample_host_resolver_fits.
  - apply sample_host_honours_hint.
  - apply sample_host_never_refuses.
  - apply sample_host_supports. reflexivity.
  - right. apply sample_host_lacks. reflexivity.
  - reflexivity.
  - apply startup_sockets_unused. reflexivity.
  - vm_compute. lia.
  - vm_compute. reflexivity.
Defined.

(** ** The address token, as the specification words it *)

Lemma behind_None c s : behind c s = None <-> count_char c s = 0%nat.
Proof.
  induction s as [|a s IH]; simpl; [tauto|].
  destruct (Ascii.eqb a c); simpl; [split; [discriminate | lia] | exact IH].
Qed.

Lemma before_behind c s rest :
  behind c s = Some rest ->
  s = before c s +:+ String c rest /\ count_char c (before c s) = 0%nat.
Proof.
  induction s as [|a s IH]; simpl; [discriminate|].
  destruct (Ascii.eqb a c) eqn:E.
  - intros H. simplify_eq. apply Ascii.eqb_eq in E. subst a. auto.
  - intros H. destruct (IH H) as [Hs Hc]. simpl. rewrite E. simpl.
    split; [|exact Hc].
    change (String a s = String a (before c s +:+ String c rest)).
    f_equal. exact Hs.
Qed.

Lemma behind_is_Some c s :
  count_char c s <> 0%nat -> exists rest, behind c s = Some rest.
Proof.
  intros H. destruct (behind c s) as [rest|] eqn:E; [eauto|].
  apply behind_None in E. contradiction.
Qed.

Lemma host_fits_or_not (token host : string) (addr_family : Z) :
  (if sizeof_addr_buff <=? Z.of_nat (String.length host)
   then inl (Err_address_too_long token)
   else inr (host, addr_family))
  = host_that_fits token host addr_family.
Proof.
  unfold host_that_fits.
  destruct (Z.leb_spec sizeof_addr_buff (Z.of_nat (String.length host)));
    destruct (Z.ltb_spec (Z.of_nat (String.length host)) sizeof_addr_buff);
    try lia; reflexivity.
Qed.

Lemma split_address_plain address :
  char_at address 0 <> "["%char ->
  count_char ":" address <> 1%nat ->
  split_address address
  = host_that_fits address address
      (if (count_char ":" address =? 0)%nat then AF_UNSPEC else AF_INET6).
Proof.
  intros Hb Hc. unfold split_address.
  apply Ascii.eqb_neq in Hb. rewrite Hb.
  destruct (strchr address ":") as [i|] eqn:Hi.
  - pose proof (strchr_count _ _ _ Hi) as Hn.
    destruct (strrchr (str_offset address (i + 1)) ":") eqn:Hj.
    2:{ apply strrchr_None in Hj. lia. }
    cbv beta iota. rewrite str_offset_0. unfold strlen.
    rewrite substring_all, host_fits_or_not, Hn. reflexivity.
  - cbv beta iota. rewrite str_offset_0. unfold strlen.
    apply strchr_None in Hi.
    rewrite substring_all, host_fits_or_not, Hi. reflexivity.
Qed.

Lemma split_address_host_port host rest :
  char_at (host +:+ ":" +:+ rest) 0 <> "["%char ->
  count_char ":" (host +:+ ":" +:+ rest) = 1%nat ->
  split_address (host +:+ ":" +:+ rest)
  = host_that_fits (host +:+ ":" +:+ rest) host AF_UNSPEC.
Proof.
  change (":" +:+ rest) with (String ":" rest).
  intros Hb Hc. unfold split_address.
  apply Ascii.eqb_neq in Hb. rewrite Hb.
  rewrite count_char_app in Hc. simpl in Hc.
  rewrite strchr_app by lia. rewrite str_offset_app.
  assert (strrchr rest ":" = None) as -> by (apply strrchr_None; lia).
  cbv beta iota. rewrite Nat.sub_0_r.
  rewrite substring_app. apply host_fits_or_not.
Qed.

Lemma split_address_brackets host rest :
  count_char "]" host = 0%nat ->
  split_address ("[" +:+ host +:+ "]" +:+ rest)
  = if Ascii.eqb (char_at rest 0) ":" || Ascii.eqb (char_at rest 0) NUL
    then host_that_fits ("[" +:+ host +:+ "]" +:+ rest) host AF_INET6
    else inl (Err_invalid_bracket_end ("[" +:+ host +:+ "]" +:+ rest)).
Proof.
  intros Hc. unfold split_address.
  change (char_at ("[" +:+ host +:+ "]" +:+ rest) 0) with "["%char.
  rewrite Ascii.eqb_refl, strchr_bracketed by exact Hc.
  rewrite char_after_bracket.
  destruct (Ascii.eqb (char_at rest 0) ":"); cbn [negb andb orb];
    [|destruct (Ascii.eqb (char_at rest 0) NUL); cbn [negb]].
  3: reflexivity.
  all: replace (S (String.length host) - 1)%nat with (String.length host)
         by lia;
    rewrite bracketed_eq;
    change (substring 1 (String.length host)
              (String "[" (host +:+ String "]" rest)))
      with (substring 0 (String.length host) (host +:+ String "]" rest));
    rewrite substring_app; apply host_fits_or_not.
Qed.

(** [Sys_StringToSockaddr] parses a token as the specification words it. *)
Lemma split_address_refines token : split_address token = parse_token token.
Proof.
  destruct token as [|a body].
  - reflexivity.
  - cbn [parse_token]. destruct (Ascii.eqb a "[") eqn:Ha.
    + apply Ascii.eqb_eq in Ha. subst a.
      destruct (behind "]" body) as [rest|] eqn:Hrest.
      * destruct (before_behind _ _ _ Hrest) as [Hbody Hc].
        remember (before "]" body) as host eqn:Hhost. clear Hhost Hrest.
        subst body.
        change (String "[" (host +:+ String "]" rest))
          with ("[" +:+ host +:+ "]" +:+ rest).
        rewrite split_address_brackets by exact Hc.
        destruct rest as [|c rest]; reflexivity.
      * apply behind_None in Hrest. apply split_address_unclosed.
        -- reflexivity.
        -- cbn. exact Hrest.
    + assert (char_at (String a body) 0 <> "["%char) as Hb
        by (apply Ascii.eqb_neq in Ha; exact Ha).
      destruct (count_char ":" (String a body)) as [|[|n]] eqn:Hn.
      * rewrite split_address_plain by (congruence || lia).
        rewrite Hn. reflexivity.
      * destruct (behind_is_Some ":" (String a body)) as [rest Hrest]; [lia|].
        destruct (before_behind _ _ _ Hrest) as [Htok _].
        remember (before ":" (String a body)) as host eqn:Hhost.
        clear Hhost Hrest. rewrite Htok in *.
        apply (split_address_host_port host rest); assumption.
      * rewrite split_address_plain by (congruence || lia).
        rewrite Hn. reflexivity.
Qed.

(** ** The outcome of a resolution *)

Lemma first_failure_prefix {A} (f : A -> option listen_socket_t)
    (fails : A -> option message) plan :
  (forall p, f p = None <-> fails p <> None) ->
  match first_failure fails plan with
  | Some (k, msg) =>
      k = length (resolved_prefix f plan)
      /\ exists p, plan !! k = Some p /\ fails p = Some msg
  | None => length (resolved_prefix f plan) = length plan
  end.
Proof.
  intros Hf. induction plan as [|p plan IH]; cbn [first_failure resolved_prefix];
    [reflexivity|].
  destruct (fails p) as [msg|] eqn:Hp.
  - assert (f p = None) as -> by (apply Hf; congruence).
    split; [reflexivity|]. exists p. auto.
  - destruct (f p) as [e|] eqn:He.
    2:{ apply Hf in He. contradiction. }
    destruct (first_failure fails plan) as [[k msg]|].
    + destruct IH as (-> & q & Hq & Hmsg). split; [reflexivity|]. eauto.
    + cbn [length]. rewrite IH. reflexivity.
Qed.

Lemma first_failure_None {A} (fails : A -> option message) plan :
  first_failure fails plan = None <-> forall p, p ∈ plan -> fails p = None.
Proof.
  induction plan as [|p plan IH]; cbn [first_failure].
  - split; [|reflexivity]. intros _ p Hp. inversion Hp.
  - destruct (fails p) as [msg|] eqn:Hp.
    + split; [discriminate|]. intros H.
      assert (fails p = None) as Hnone by (apply H; left).
      congruence.
    + destruct (first_failure fails plan) as [[k msg]|].
      * split; [discriminate|]. intros H.
        assert (Some (k, msg) = None) as Hk; [|discriminate].
        apply IH. intros q Hq. apply H. right. exact Hq.
      * split; [|reflexivity]. intros _ q Hq.
        apply elem_of_cons in Hq as [-> | Hq]; [exact Hp|].
        apply IH; [reflexivity | exact Hq].
Qed.

Lemma wildcard_entry_fails os p :
  wildcard_entry os p = None <-> wildcard_failure os p <> None.
Proof.
  unfold wildcard_entry, wildcard_failure.
  destruct (lookup_address os None p.2 p.1); split; congruence.
Qed.

Lemma declared_entry_fails os p :
  declared_entry os p = None <-> declared_failure os p <> None.
Proof.
  unfold declared_entry, declared_failure. rewrite split_address_refines.
  destruct (parse_token p.1) as [msg|[host fam]]; [split; congruence|].
  destruct (lookup_address os (Some host) p.2 fam); split; congruence.
Qed.

Lemma resolve_wildcard_reports os :
  resolves_one (wildcard_entry os)
    (fun p msg => wildcard_failure os p = Some msg)
    (fun p => resolve_wildcard os p.1 p.2).
Proof.
  intros [fam port] w r w' Hnb Hzero Hrun. simpl in Hrun.
  unfold resolve_wildcard, wildcard_entry, wildcard_failure, lookup_error in *.
  simpl.
  unfold bind at 1 in Hrun. simpl in Hrun.
  unfold bind at 1 in Hrun. rewrite Sys_BuildSockaddr_slot in Hrun.
  destruct (lookup_address os None port fam) as [ai|].
  - destruct (ai_addrlen ai <=? sizeof_sockaddr_storage); [|discriminate].
    destruct (listen_sockets w !! Z.to_nat (nb_sockets w)) as [e|] eqn:E;
      [|discriminate].
    rewrite (Hzero e eq_refl) in *. simpl in Hrun.
    unfold bind at 1 in Hrun.
    erewrite update_socket_Some in Hrun.
    2:{ simpl. apply list_lookup_insert_eq. eapply lookup_lt_Some, E. }
    simpl in Hrun. unfold bind, modify, ret in Hrun. simplify_eq. simpl.
    right. split; [reflexivity|]. eexists. split; [reflexivity|].
    split; [eapply lookup_lt_Some, E|].
    rewrite list_insert_insert_eq. auto.
  - simpl in Hrun. unfold ret in Hrun. simplify_eq. simpl.
    left. repeat split; eauto.
Qed.

Lemma resolve_declared_reports os :
  resolves_one (declared_entry os)
    (fun p msg => declared_failure os p = Some msg)
    (fun p => resolve_declared os {| la_local_addr_name := Some p.1 |} p.2).
Proof.
  intros [name port] w r w' Hnb Hzero Hrun. simpl in Hrun.
  unfold resolve_declared, declared_entry, declared_failure, lookup_error,
    Sys_StringToSockaddr in *.
  rewrite <- split_address_refines. simpl in *.
  unfold bind at 1 in Hrun. simpl in Hrun.
  unfold bind at 1 in Hrun.
  destruct (split_address name) as [msg|[host fam]].
  - unfold bind, Com_Printf, emit, modify, ret in Hrun. simpl in Hrun.
    simplify_eq. simpl. left. repeat split; eauto.
  - unfold bind at 1 in Hrun.
    unfold store, slot_local_addr_name_no_port in Hrun.
    destruct (listen_sockets w !! Z.to_nat (nb_sockets w)) as [e|] eqn:E.
    2:{ rewrite (update_socket_None _ _ _ E) in Hrun. discriminate. }
    rewrite (update_socket_Some _ _ _ e E) in Hrun.
    rewrite Sys_BuildSockaddr_slot in Hrun. simpl in Hrun.
    rewrite (Hzero e eq_refl) in *.
    destruct (lookup_address os (Some host) port fam) as [ai|].
    + destruct (ai_addrlen ai <=? sizeof_sockaddr_storage); [|discriminate].
      rewrite list_lookup_insert_eq in Hrun by (eapply lookup_lt_Some, E).
      simpl in Hrun. unfold bind at 1 in Hrun.
      erewrite update_socket_Some in Hrun.
      2:{ simpl. apply list_lookup_insert_eq. rewrite length_insert.
          eapply lookup_lt_Some, E. }
      simpl in Hrun. unfold bind, modify, ret in Hrun. simplify_eq. simpl.
      right. split; [reflexivity|]. eexists. split; [reflexivity|].
      split; [eapply lookup_lt_Some, E|].
      rewrite !list_insert_insert_eq. auto.
    + simpl in Hrun. unfold ret in Hrun. simplify_eq. simpl.
      left. repeat split; eauto. apply take_insert_ge; lia.
Qed.

Lemma resolve_wildcard_run_with os err_of ports w r w' :
  resolves_one (wildcard_entry os) err_of
    (fun p => resolve_wildcard os p.1 p.2) ->
  nb_addresses w = 0 ->
  sockets_unused w ->
  Sys_ResolveListenAddresses os ports w = Some (r, w') ->
  let es := resolved_prefix (wildcard_entry os) (wildcard_plan ports) in
  nb_sockets w' = Z.of_nat (length es)
  /\ (r = true /\ length es = length (wildcard_plan ports) /\ trace w' = trace w
      \/ r = false
         /\ exists p msg,
             wildcard_plan ports !! length es = Some p
             /\ err_of p msg
             /\ trace w' = trace w ++ [Printed MSG_ERROR msg]).
Proof.
  intros Hone Hna (Hnb & Hcap & Hzero) Hrun.
  unfold Sys_ResolveListenAddresses in Hrun.
  apply bind_Some in Hrun as (nb & wg & Hg & Hrun).
  unfold gets in Hg. simplify_eq. rewrite Hna in Hrun.
  change (0 =? 0) with true in Hrun. cbv iota in Hrun.
  apply bind_Some in Hrun as (r1 & w1 & Hloop & Hret).
  apply bind_Some in Hloop as ([] & w0 & Hmem & Hfor).
  unfold memset_sockets in Hmem.
  destruct (_ <=? _) eqn:Hle in Hmem; [|discriminate]. simplify_eq.
  apply Z.leb_le in Hle.
  pose proof (for_each_flat_map [AF_INET; AF_INET6] ports
                (fun p => resolve_wildcard os p.1 p.2)) as Hflat.
  cbv beta iota delta [fst snd] in Hflat. rewrite Hflat in Hfor. clear Hflat.
  change (flat_map _ _) with (wildcard_plan ports) in Hfor.
  apply (resolve_loop _ _ _ _ Hone) in Hfor; simpl.
  - simpl in Hfor. rewrite Hnb in Hfor. simpl in Hfor.
    destruct Hfor as (Hn & _ & Hres).
    rewrite ?Z.add_0_l in Hn. unfold ret in Hret.
    destruct Hres as [(-> & Hlen & Htr)|(-> & p & msg & Hp & _ & Hmsg & Htr)];
      simplify_eq; (split; [exact Hn|]); [left | right]; eauto 10.
  - lia.
  - rewrite length_app, length_replicate, length_drop.
    cbn [length] in Hle. lia.
  - intros i e _ He. apply list_elem_of_lookup_2 in He.
    apply elem_of_app in He as [He|He].
    + apply elem_of_replicate in He as [-> _]. reflexivity.
    + rewrite Forall_forall in Hzero. apply Hzero.
      eapply subseteq_drop, He.
Qed.

Lemma resolve_declared_run_with os err_of ports names w r w' :
  resolves_one (declared_entry os) err_of
    (fun p => resolve_declared os {| la_local_addr_name := Some p.1 |} p.2) ->
  registry w = Some names ->
  names <> [] ->
  sockets_unused w ->
  Sys_ResolveListenAddresses os ports w = Some (r, w') ->
  let es := resolved_prefix (declared_entry os) (declared_plan names ports) in
  nb_sockets w' = Z.of_nat (length es)
  /\ (r = true /\ length es = length (declared_plan names ports)
      /\ trace w' = trace w
      \/ r = false
         /\ exists p msg,
             declared_plan names ports !! length es = Some p
             /\ err_of p msg
             /\ trace w' = trace w ++ [Printed MSG_ERROR msg]).
Proof.
  intros Hone Hreg Hne (Hnb & Hcap & Hzero) Hrun.
  unfold registry in Hreg.
  destruct (_ <=? _) eqn:Hle in Hreg; [|discriminate].
  apply mapM_la_name in Hreg.
  assert ((nb_addresses w =? 0) = false) as Hna.
  { apply Z.eqb_neq. intros H0. rewrite H0 in Hreg. simpl in Hreg.
    destruct names; [congruence|discriminate]. }
  unfold Sys_ResolveListenAddresses in Hrun.
  apply bind_Some in Hrun as (nb & wg & Hg & Hrun).
  unfold gets in Hg. simplify_eq. rewrite Hna in Hrun.
  apply bind_Some in Hrun as (r1 & w1 & Hloop & Hret).
  apply bind_Some in Hloop as (addrs & w0 & Hdecl & Hfor).
  unfold declared_addresses in Hdecl. rewrite Hle in Hdecl. simplify_eq.
  rewrite Hreg, for_each_map in Hfor.
  pose proof (for_each_flat_map names ports
                (fun p => resolve_declared os
                            {| la_local_addr_name := Some p.1 |} p.2))
    as Hflat.
  cbv beta iota delta [fst snd] in Hflat. rewrite Hflat in Hfor. clear Hflat.
  change (flat_map _ _) with (declared_plan names ports) in Hfor.
  apply (resolve_loop _ _ _ _ Hone) in Hfor.
  - rewrite Hnb in Hfor. simpl in Hfor.
    destruct Hfor as (Hn & _ & Hres).
    rewrite ?Z.add_0_l in Hn. unfold ret in Hret.
    destruct Hres as [(-> & Hlen & Htr)|(-> & p & msg & Hp & _ & Hmsg & Htr)];
      simplify_eq; (split; [exact Hn|]); [left | right]; eauto 10.
  - lia.
  - exact Hcap.
  - intros i e _ He. apply list_elem_of_lookup_2 in He.
    rewrite Forall_forall in Hzero. apply Hzero, He.
Qed.

(** What a run of a resolution loop shows is the outcome its first failure
    fixes. *)
Lemma outcome_of_run {A} (f : A -> option listen_socket_t)
    (fails : A -> option message) (plan : list A) w r w' :
  (forall p, f p = None <-> fails p <> None) ->
  nb_sockets w' = Z.of_nat (length (resolved_prefix f plan)) ->
  (r = true /\ length (resolved_prefix f plan) = length plan
   /\ trace w' = trace w
   \/ r = false
      /\ exists p msg,
          plan !! length (resolved_prefix f plan) = Some p
          /\ fails p = Some msg
          /\ trace w' = trace w ++ [Printed MSG_ERROR msg]) ->
  resolution_outcome w r w' (first_failure fails plan).
Proof.
  intros Hf Hn Hres. pose proof (first_failure_prefix f fails plan Hf) as Hfirst.
  unfold resolution_outcome.
  destruct (first_failure fails plan) as [[k msg]|].
  - destruct Hfirst as (-> & q & Hq & Hmsg).
    destruct Hres as [(_ & Hlen & _)|(-> & p & msg' & Hp & Hmsg' & Htr)].
    + apply lookup_lt_Some in Hq. lia.
    + rewrite Hq in Hp. simplify_eq. auto.
  - destruct Hres as [(-> & _ & Htr)|(_ & p & msg' & Hp & _)]; [auto|].
    apply lookup_lt_Some in Hp. lia.
Qed.

(** C7 (amended).  From the socket table as the process starts with it,
    a resolution error is fatal on both paths.  With no declared address
    [Sys_ResolveListenAddresses] returns failure exactly when the lookup of
    one of the synthesized (family, port) pairs fails; with declared
    addresses, exactly when the token of one (address, port) pair is
    malformed or the lookup of its host fails.  On either path it stops at
    the first such pair of the plan, the entries in use are those before
    it, and the one error reported is that pair's: for a lookup, the host
    (none on the wildcard path), the port and the code [getaddrinfo]
    returned.  When no pair fails it returns success and reports
    nothing. *)
Theorem resolution_fails_at_the_first_failed_lookup os ports w r w' :
  sockets_unused w ->
  Sys_ResolveListenAddresses os ports w = Some (r, w') ->
  (nb_addresses w = 0 ->
   (r = false <->
    exists addr_family port,
      (addr_family, port) ∈ wildcard_plan ports
      /\ lookup_address os None port addr_family = None)
   /\ resolution_outcome w r w'
        (first_failure (wildcard_failure os) (wildcard_plan ports)))
  /\ (forall names,
        registry w = Some names -> names <> [] ->
        (r = false <->
         exists p, p ∈ declared_plan names ports
                   /\ declared_failure os p <> None)
        /\ resolution_outcome w r w'
             (first_failure (declared_failure os)
                (declared_plan names ports))).
Proof.
  intros Hunused Hrun. split.
  - intros Hna.
    destruct (resolve_wildcard_run_with _ _ _ _ _ _
                (resolve_wildcard_reports os) Hna Hunused Hrun) as (Hn & Hres).
    pose proof (outcome_of_run _ _ _ w r w' (wildcard_entry_fails os) Hn Hres)
      as Hout.
    split; [|exact Hout]. unfold resolution_outcome in Hout.
    destruct (first_failure _ _) as [[k msg]|] eqn:Hfirst.
    + destruct Hout as (-> & _). split; [|reflexivity]. intros _.
      pose proof (first_failure_prefix _ _ (wildcard_plan ports)
                    (wildcard_entry_fails os)) as Hpre.
      rewrite Hfirst in Hpre. destruct Hpre as (_ & [fam port] & Hq & Hmsg).
      exists fam, port. split; [apply (list_elem_of_lookup_2 _ k), Hq|].
      unfold wildcard_failure in Hmsg. cbn [fst snd] in Hmsg.
      destruct (lookup_address os None port fam); [discriminate | reflexivity].
    + destruct Hout as (-> & _). split; [discriminate|].
      intros (fam & port & Hin & Hnone).
      pose proof (proj1 (first_failure_None _ _) Hfirst _ Hin) as Hok.
      unfold wildcard_failure in Hok. cbn [fst snd] in Hok.
      rewrite Hnone in Hok. discriminate.
  - intros names Hreg Hne.
    destruct (resolve_declared_run_with _ _ _ _ _ _ _
                (resolve_declared_reports os) Hreg Hne Hunused Hrun)
      as (Hn & Hres).
    pose proof (outcome_of_run _ _ _ w r w' (declared_entry_fails os) Hn Hres)
      as Hout.
    split; [|exact Hout]. unfold resolution_outcome in Hout.
    destruct (first_failure _ _) as [[k msg]|] eqn:Hfirst.
    + destruct Hout as (-> & _). split; [|reflexivity]. intros _.
      pose proof (first_failure_prefix _ _ (declared_plan names ports)
                    (declared_entry_fails os)) as Hpre.
      rewrite Hfirst in Hpre. destruct Hpre as (_ & p & Hq & Hmsg).
      exists p. split; [apply (list_elem_of_lookup_2 _ k), Hq | congruence].
    + destruct Hout as (-> & _). split; [discriminate|].
      intros (p & Hin & Hfail).
      elim Hfail. apply (proj1 (first_failure_None _ _) Hfirst _ Hin).
Qed.

(** C8.  From the socket table as the process starts with it, a successful
    resolution for the port list [ports] fills exactly the slots of its
    plan, in the order of the plan.  With no declared address that is one
    IPv4 and one IPv6 wildcard entry for each port, the families outer and
    the ports inner, [2 * length ports] entries, every one optional, none
    with a name, each with the address the wildcard lookup for its family
    and port returned.  With the declared addresses [names] it is one entry
    for each address and port, the addresses outer and the ports inner,
    [length names * length ports] entries, none optional, each with the
    declared name, the host portion of that name as the specification
    words it, and the address the lookup of that host returned for the
    port. *)
Theorem resolution_yields_the_whole_plan os ports w w' :
  sockets_unused w ->
  Sys_ResolveListenAddresses os ports w = Some (true, w') ->
  (nb_addresses w = 0 ->
   let n := (2 * length ports)%nat in
   nb_sockets w' = Z.of_nat n
   /\ mapM (wildcard_entry os) (wildcard_plan ports)
      = Some (take n (listen_sockets w'))
   /\ Forall (fun e => optional e = true) (take n (listen_sockets w'))
   /\ Forall2 (fun p e =>
                 local_addr_name e = None
                 /\ exists ai,
                     lookup_address os None p.2 p.1 = Some ai
                     /\ local_addr e = ai_addr ai
                     /\ local_addr_len e = ai_addrlen ai)
        (wildcard_plan ports) (take n (listen_sockets w')))
  /\ (forall names,
        registry w = Some names -> names <> [] ->
        let n := (length names * length ports)%nat in
        nb_sockets w' = Z.of_nat n
        /\ mapM (declared_entry os) (declared_plan names ports)
           = Some (take n (listen_sockets w'))
        /\ Forall2 (fun p e =>
                      optional e = false /\ local_addr_name e = Some p.1
                      /\ exists host addr_family ai,
                          parse_token p.1 = inr (host, addr_family)
                          /\ local_addr_name_no_port e = Some host
                          /\ lookup_address os (Some host) p.2 addr_family
                             = Some ai
                          /\ local_addr e = ai_addr ai
                          /\ local_addr_len e = ai_addrlen ai)
                   (declared_plan names ports) (take n (listen_sockets w'))).
Proof.
  intros Hunused Hrun.
  destruct (resolution_fills_the_plan os ports w w' Hunused Hrun)
    as [Hwild Hdecl].
  split.
  - intros Hna n. destruct (Hwild Hna) as (Hn & Hall & Hopt).
    split; [exact Hn|]. split; [exact Hall|]. split; [exact Hopt|].
    apply mapM_Some_1 in Hall. fold n in Hall.
    eapply Forall2_impl; [exact Hall|]. intros p e Hp.
    unfold wildcard_entry in Hp.
    destruct (lookup_address os None p.2 p.1) as [ai|]; [|discriminate].
    injection Hp as <-.
    cbn [local_addr_name local_addr local_addr_len].
    split; [reflexivity|]. exists ai. auto.
  - intros names Hreg Hne n. destruct (Hdecl names Hreg Hne) as (Hn & Hall & _).
    split; [exact Hn|]. split; [exact Hall|].
    apply mapM_Some_1 in Hall. fold n in Hall.
    eapply Forall2_impl; [exact Hall|]. intros p e Hp.
    unfold declared_entry in Hp. rewrite split_address_refines in Hp.
    destruct (parse_token p.1) as [msg|[host fam]]; [discriminate|].
    destruct (lookup_address os (Some host) p.2 fam) as [ai|] eqn:Hlook;
      [|discriminate].
    injection Hp as <-.
    cbn [optional local_addr_name local_addr_name_no_port local_addr
         local_addr_len].
    split; [reflexivity|]. split; [reflexivity|].
    exists host, fam, ai. auto 10.
Qed.

(** ** The standard streams of the daemon *)

Lemma fd_after_app t h1 h2 : fd_after t (h1 ++ h2) = fd_after (fd_after t h1) h2.
Proof. unfold fd_after. apply fold_left_app. Qed.

(** The streams after a successful [Sys_SecureInit]: redirected, all three,
    when the handle of the null device is none of them; otherwise the
    handle, a standard stream, is closed. *)
Lemma Sys_SecureInit_streams os w (t : fd_table) f :
  daemon_state w = DAEMON_STATE_REQUEST ->
  os_daemon os (trace w) 0 1 = 0 ->
  null_device w <> -1 ->
  t (null_device w) = Some f ->
  exists w' evs,
    Sys_SecureInit os w = Some (true, w')
    /\ trace w' = trace w ++ evs
    /\ fd_after t evs (null_device w) = None
    /\ forall fd, 0 <= fd <= 2 -> fd <> null_device w ->
                  fd_after t evs fd = Some f.
Proof.
  intros Hds Hd Hnd Hopen.
  unfold Sys_SecureInit, sys_daemon, sys_dup2, sys_close, syscall, errno,
    Com_Printf, emit, assert, bind, gets, modify, ret.
  rewrite Hds. cbn. rewrite Hd. cbn.
  apply Z.eqb_neq in Hnd. rewrite Hnd. cbn.
  eexists _, _. split; [reflexivity|]. cbn [trace set_trace].
  split; [rewrite <- !app_assoc; reflexivity|].
  cbn [app fd_after fold_left apply_call].
  assert (forall t0 : fd_table, t0 (null_device w) = Some f ->
            forall new, fd_set new (Some f) t0 (null_device w) = Some f)
    as Hkeep.
  { intros t0 H0 new. unfold fd_set.
    destruct (null_device w =? new); [reflexivity | exact H0]. }
  rewrite Hopen, (Hkeep t Hopen), (Hkeep _ (Hkeep t Hopen _)).
  split.
  - unfold fd_set at 1. rewrite Z.eqb_refl. reflexivity.
  - intros fd Hfd Hne. unfold fd_set, STDIN_FILENO, STDOUT_FILENO,
      STDERR_FILENO.
    destruct (Z.eqb_spec fd (null_device w)); [contradiction|].
    destruct (Z.eqb_spec fd 2); [reflexivity|].
    destruct (Z.eqb_spec fd 1); [reflexivity|].
    destruct (Z.eqb_spec fd 0); [reflexivity | lia].
Qed.

(** C6 (the code departs from the claim).  [Sys_SecureInit] closes the
    handle of the null device whatever its value.  A process started with
    its standard input closed gets descriptor 0 for [/dev/null]; with a
    daemon requested the two phases succeed, the daemon state is
    [DAEMON_STATE_EFFECTIVE], standard output and standard error refer to
    the null device, and standard input, the handle itself, is closed, not
    redirected. *)
Theorem daemon_closes_a_standard_stream :
  let history :=
    [Call_open "/dev/null" O_RDWR 0;
     Call_geteuid 1000;
     Call_daemon 0 1 0;
     Call_dup2 0 STDIN_FILENO;
     Call_dup2 0 STDOUT_FILENO;
     Call_dup2 0 STDERR_FILENO;
     Call_close 0] in
  observe (Sys_SecurityInit stdin_closed_host ;;;
           Sys_SecureInit stdin_closed_host) daemon_requested
  = Some (true, [], history)
  /\ daemon_state (after (Sys_SecurityInit stdin_closed_host ;;;
                          Sys_SecureInit stdin_closed_host) daemon_requested)
     = DAEMON_STATE_EFFECTIVE
  /\ fd_after stdin_closed history STDIN_FILENO = None
  /\ fd_after stdin_closed history STDOUT_FILENO = Some (A_file "/dev/null")
  /\ fd_after stdin_closed history STDERR_FILENO = Some (A_file "/dev/null").
Proof. repeat split; vm_compute; reflexivity. Qed.

(** ** The resolution on the sample hosts, again *)

Lemma resolution_fails_at_the_first_failed_lookup_witness :
  sockets_unused (startup 8 16)
  /\ Sys_ResolveListenAddresses dual_stack_host ["27900"; "gameport"]
       (startup 8 16) = Some (false, wildcard_unresolved)
  /\ resolution_outcome (startup 8 16) false wildcard_unresolved
       (Some (1%nat, Err_cant_resolve None "gameport" EAI_SERVICE))
  /\ sockets_unused one_unknown_declared
  /\ registry one_unknown_declared = Some ["example.com"; "nowhere.invalid"]
  /\ Sys_ResolveListenAddresses dual_stack_host ["27900"]
       one_unknown_declared = Some (false, declared_unresolved)
  /\ resolution_outcome one_unknown_declared false declared_unresolved
       (Some (1%nat,
              Err_cant_resolve (Some "nowhere.invalid") "27900" EAI_NONAME)).
Proof.
  assert (sockets_unused (startup 8 16)) as Hunused
    by (apply startup_sockets_unused; vm_compute; reflexivity).
  assert (Sys_ResolveListenAddresses dual_stack_host ["27900"; "gameport"]
            (startup 8 16) = Some (false, wildcard_unresolved)) as Hrun
    by (vm_compute; reflexivity).
  assert (sockets_unused one_unknown_declared) as Hunused'
    by (apply (startup_sockets_unused 8 16); vm_compute; reflexivity).
  assert (registry one_unknown_declared
          = Some ["example.com"; "nowhere.invalid"]) as Hreg
    by (vm_compute; reflexivity).
  assert (Sys_ResolveListenAddresses dual_stack_host ["27900"]
            one_unknown_declared = Some (false, declared_unresolved)) as Hrun'
    by (vm_compute; reflexivity).
  destruct (resolution_fails_at_the_first_failed_lookup dual_stack_host
              ["27900"; "gameport"] (startup 8 16) false wildcard_unresolved
              Hunused Hrun) as (Hwild & _).
  destruct (Hwild eq_refl) as (_ & Hout).
  destruct (resolution_fails_at_the_first_failed_lookup dual_stack_host
              ["27900"] one_unknown_declared false declared_unresolved
              Hunused' Hrun') as (_ & Hdecl).
  destruct (Hdecl _ Hreg ltac:(discriminate)) as (_ & Hout').
  split; [exact Hunused|]. split; [exact Hrun|]. split; [exact Hout|].
  split; [exact Hunused'|]. split; [exact Hreg|]. split; [exact Hrun'|].
  exact Hout'.
Defined.

Lemma resolution_yields_the_whole_plan_witness :
  sockets_unused (startup 8 16)
  /\ Sys_ResolveListenAddresses dual_stack_host ["27900"; "27950"]
       (startup 8 16) = Some (true, wildcard_resolved)
  /\ nb_sockets wildcard_resolved = 4
  /\ Forall (fun e => optional e = true)
            (take 4 (listen_sockets wildcard_resolved))
  /\ sockets_unused two_declared
  /\ registry two_declared = Some ["example.com:27901"; "[::1]:27900"]
  /\ Sys_ResolveListenAddresses dual_stack_host ["27900"; "27950"]
       two_declared = Some (true, declared_resolved)
  /\ nb_sockets declared_resolved = 4
  /\ Forall2 (fun p e =>
                optional e = false /\ local_addr_name e = Some p.1
                /\ exists host addr_family ai,
                    parse_token p.1 = inr (host, addr_family)
                    /\ local_addr_name_no_port e = Some host
                    /\ lookup_address dual_stack_host (Some host) p.2
                         addr_family = Some ai
                    /\ local_addr e = ai_addr ai
                    /\ local_addr_len e = ai_addrlen ai)
       (declared_plan ["example.com:27901"; "[::1]:27900"]
                      ["27900"; "27950"])
       (take 4 (listen_sockets declared_resolved)).
Proof.
  assert (sockets_unused (startup 8 16)) as Hunused
    by (apply startup_sockets_unused; vm_compute; reflexivity).
  assert (Sys_ResolveListenAddresses dual_stack_host ["27900"; "27950"]
            (startup 8 16) = Some (true, wildcard_resolved)) as Hrun
    by (vm_compute; reflexivity).
  assert (sockets_unused two_declared) as Hunused'
    by (apply (startup_sockets_unused 8 16); vm_compute; reflexivity).
  assert (registry two_declared = Some ["example.com:27901"; "[::1]:27900"])
    as Hreg by (vm_compute; reflexivity).
  assert (Sys_ResolveListenAddresses dual_stack_host ["27900"; "27950"]
            two_declared = Some (true, declared_resolved)) as Hrun'
    by (vm_compute; reflexivity).
  destruct (resolution_yields_the_whole_plan dual_stack_host
              ["27900"; "27950"] (startup 8 16) wildcard_resolved
              Hunused Hrun) as (Hwild & _).
  destruct (Hwild eq_refl) as (Hn & _ & Hopt & _).
  destruct (resolution_yields_the_whole_plan dual_stack_host
              ["27900"; "27950"] two_declared declared_resolved
              Hunused' Hrun') as (_ & Hdecl).
  destruct (Hdecl _ Hreg ltac:(discriminate)) as (Hn' & _ & Hplan).
  repeat (split; [assumption|]). exact Hplan.
Defined.
